(** * terraform-provider-azurerm: three resources, embedded and verified

    The development covers
    - [azurerm_data_factory_integration_runtime_azure_ssis]
      (internal/services/datafactory/data_factory_integration_runtime_azure_ssis_resource.go),
    - [azurerm_ai_foundry]
      (internal/services/machinelearning/ai_foundry_resource.go),
    - [azurerm_log_analytics_cluster_customer_managed_key]
      (package loganalytics).

    Go values are embedded as follows: [string] is a Rocq [string] (a
    sequence of bytes), [int] and [int64] are [Z], a pointer [*T] is
    [option T], [interface{}] is [iface], [map[string]interface{}] is an
    association list, an [error] result is [option error] with [None] for
    [nil].  A failed type assertion or a nil dereference (a Go panic) is
    the [None] of the [option] a function returns. *)

From Stdlib Require Import String Ascii List ZArith Bool Lia PeanoNat.
Import ListNotations.

Local Open Scope string_scope.
Local Open Scope list_scope.

Set Implicit Arguments.
Set Warnings "-register-all".

(** ** Dynamic values of the plugin SDK *)

(** [interface{}] as it occurs in resource data: the values a schema of
    TypeString, TypeInt, TypeBool, TypeList and TypeMap fields produces. *)
Inductive iface : Type :=
| INil
| IStr (s : string)
| IInt (n : Z)
| IBool (b : bool)
| IList (l : list iface)
| IMap (m : list (string * iface)).

(** [m[k]] on a [map[string]interface{}]: the nil interface when absent. *)
Fixpoint map_get (m : list (string * iface)) (k : string) : iface :=
  match m with
  | [] => INil
  | (k', v) :: rest => if String.eqb k' k then v else map_get rest k
  end.

(** Type assertions [v.(string)], [v.(int)], [v.([]interface{})] and
    [v.(map[string]interface{})]; [None] is the panic. *)
Definition as_string (v : iface) : option string :=
  match v with IStr s => Some s | _ => None end.

Definition as_int (v : iface) : option Z :=
  match v with IInt n => Some n | _ => None end.

Definition as_list (v : iface) : option (list iface) :=
  match v with IList l => Some l | _ => None end.

Definition as_map (v : iface) : option (list (string * iface)) :=
  match v with IMap m => Some m | _ => None end.

(** The zero value test behind [GetOk]. *)
Definition is_zero (v : iface) : bool :=
  match v with
  | INil => true
  | IStr s => String.eqb s ""
  | IInt n => Z.eqb n 0
  | IBool b => negb b
  | IList l => match l with [] => true | _ => false end
  | IMap m => match m with [] => true | _ => false end
  end.

Notation "x <- a ;; b" :=
  (match a with Some x => b | None => None end)
  (right associativity, at level 60, only parsing).

(** [pointer.From]: the value behind a pointer, the zero value for nil. *)
Definition pointer_From_string (p : option string) : string :=
  match p with Some s => s | None => "" end.

Definition pointer_From_int (p : option Z) : Z :=
  match p with Some n => n | None => 0%Z end.

(** ** Errors *)

(** An [error] value.  [Errorf format args] is [fmt.Errorf(format, args...)]
    with the arguments kept apart; [SdkError] is an error produced by the
    vendored client, a parser or a decoder. *)
Inductive error : Type :=
| SdkError (msg : string)
| Errorf (format : string) (args : list fmtarg)
| ImportAsExists (resourceName : string) (id : string)
with fmtarg : Type :=
| AStr (s : string)
| AErr (e : option error).

(** Modelled from the spec: [tf.ImportAsExistsError] of helpers/tf, the
    standard import-error signal an "already exists" is mapped to; it
    carries the resource type and the resource ID. *)
Definition tf_ImportAsExistsError (resourceName id : string) : error :=
  ImportAsExists resourceName id.

(** An [*http.Response], of which only the status code is inspected. *)
Record HttpResponse : Type := { StatusCode : Z }.

(** Modelled from the spec: [response.WasNotFound] of go-azure-helpers,
    the test for the API's not-found answer: a response is present and
    its status is 404. *)
Definition response_WasNotFound (resp : option HttpResponse) : bool :=
  match resp with
  | Some r => Z.eqb (StatusCode r) 404
  | None => false
  end.

(** ** Schema validators *)

Module validation.

(** A [SchemaValidateFunc] returns warnings and errors; a value is
    accepted when the list of errors is empty. *)
Definition SchemaValidateFunc : Type := iface -> string -> list string.

(** Modelled from the spec: [validation.IntBetween] of the plugin SDK,
    the value set [min .. max] on integers. *)
Definition IntBetween (min max : Z) : SchemaValidateFunc :=
  fun i k =>
    match i with
    | IInt v =>
        if (v <? min)%Z || (max <? v)%Z
        then [("expected " ++ k ++ " to be in the range")%string]
        else []
    | _ => [("expected type of " ++ k ++ " to be integer")%string]
    end.

(** Modelled from the spec: [validation.IntDivisibleBy] of the plugin
    SDK, the integers with remainder zero.  (The SDK takes the remainder
    in float64, which is exact below 2^53.) *)
Definition IntDivisibleBy (divisor : Z) : SchemaValidateFunc :=
  fun i k =>
    match i with
    | IInt v =>
        if negb (Z.rem v divisor =? 0)%Z
        then [("expected " ++ k ++ " to be divisible by")%string]
        else []
    | _ => [("expected type of " ++ k ++ " to be integer")%string]
    end.

(** Modelled from the spec: [validation.IntAtLeast] of the plugin SDK. *)
Definition IntAtLeast (min : Z) : SchemaValidateFunc :=
  fun i k =>
    match i with
    | IInt v =>
        if (v <? min)%Z then [("expected " ++ k ++ " to be at least")%string] else []
    | _ => [("expected type of " ++ k ++ " to be integer")%string]
    end.

(** Modelled from the spec: [validation.All] of the plugin SDK, the
    conjunction of validators: every validator runs and the errors are
    collected. *)
Fixpoint All (validators : list SchemaValidateFunc) : SchemaValidateFunc :=
  fun i k =>
    match validators with
    | [] => []
    | v :: rest => v i k ++ All rest i k
    end.

Definition accepts (f : SchemaValidateFunc) (i : iface) (k : string) : bool :=
  match f i k with [] => true | _ => false end.

End validation.

(** ** Go's [regexp], as far as the two patterns of the resource need it *)

Module regexp.

(** The parsed pattern ([regexp/syntax]): [^], [$], a literal byte, a
    character class, concatenation, alternation (the left branch is
    preferred), [r?] and [r+] (both greedy) and a numbered capture group.
    The patterns below contain only ASCII literals and classes, and [.]
    takes every code point but the line feed, so matching byte by byte
    accepts the same texts with the same group bounds as matching code
    point by code point. *)
Inductive syntax : Type :=
| BeginText
| EndText
| Literal (c : ascii)
| CharClass (p : ascii -> bool)
| Concat (r1 r2 : syntax)
| Alternate (r1 r2 : syntax)
| Quest (r : syntax)
| Plus (r : syntax)
| Capture (index : nat) (r : syntax).

(** Group bounds, as byte offsets into the text. *)
Definition caps : Type := list (nat * (nat * nat)).

Fixpoint cap_get (c : caps) (i : nat) : option (nat * nat) :=
  match c with
  | [] => None
  | (j, b) :: rest => if Nat.eqb j i then Some b else cap_get rest i
  end.

Definition cap_set (i : nat) (b : nat * nat) (c : caps) : caps := (i, b) :: c.

(** What remains to be matched after a sub-pattern: position, rest of the
    text, groups so far. *)
Definition cont : Type := nat -> list ascii -> caps -> option caps.

(** The backtracking matcher with leftmost-first preference.  [fuel]
    bounds the iterations of [r+]; every further iteration must have
    consumed input, so the length of the text is enough. *)
Fixpoint backtrack (fuel : nat) {struct fuel}
  : syntax -> nat -> list ascii -> caps -> cont -> option caps :=
  fix go (r : syntax) (pos : nat) (s : list ascii) (c : caps) (k : cont)
    {struct r} : option caps :=
    match r with
    | BeginText => if Nat.eqb pos 0 then k pos s c else None
    | EndText => match s with [] => k pos s c | _ :: _ => None end
    | Literal a =>
        match s with
        | x :: s' => if Ascii.eqb x a then k (S pos) s' c else None
        | [] => None
        end
    | CharClass p =>
        match s with
        | x :: s' => if p x then k (S pos) s' c else None
        | [] => None
        end
    | Concat r1 r2 => go r1 pos s c (fun pos' s' c' => go r2 pos' s' c' k)
    | Alternate r1 r2 =>
        match go r1 pos s c k with
        | Some res => Some res
        | None => go r2 pos s c k
        end
    | Quest r1 =>
        match go r1 pos s c k with
        | Some res => Some res
        | None => k pos s c
        end
    | Plus r1 =>
        go r1 pos s c (fun pos' s' c' =>
          match fuel with
          | S fuel' =>
              if Nat.ltb pos pos' then
                match backtrack fuel' (Plus r1) pos' s' c' k with
                | Some res => Some res
                | None => k pos' s' c'
                end
              else k pos' s' c'
          | O => k pos' s' c'
          end)
    | Capture i r1 =>
        go r1 pos s c (fun pos' s' c' => k pos' s' (cap_set i (pos, pos') c'))
    end.

(** The unanchored search: the leftmost start position that matches. *)
Fixpoint search (fuel : nat) (r : syntax) (pos : nat) (s : list ascii)
  : option caps :=
  match backtrack fuel r pos s []
          (fun pos' _ c => Some (cap_set 0 (pos, pos') c)) with
  | Some c => Some c
  | None =>
      match s with
      | [] => None
      | _ :: s' => search fuel r (S pos) s'
      end
  end.

Definition exec (r : syntax) (input : string) : option caps :=
  let s := list_ascii_of_string input in
  search (length s) r 0 s.

(** [NumSubexp]: the number of capture groups. *)
Fixpoint NumSubexp (r : syntax) : nat :=
  match r with
  | BeginText | EndText | Literal _ | CharClass _ => 0
  | Concat r1 r2 | Alternate r1 r2 => NumSubexp r1 + NumSubexp r2
  | Quest r1 | Plus r1 => NumSubexp r1
  | Capture _ r1 => S (NumSubexp r1)
  end.

Definition slice (input : string) (b : option (nat * nat)) : string :=
  match b with
  | Some (lo, hi) => substring lo (hi - lo) input
  | None => ""
  end.

(** [re.MatchString(input)]. *)
Definition MatchString (r : syntax) (input : string) : bool :=
  match exec r input with Some _ => true | None => false end.

(** [re.FindStringSubmatch(input)]: [None] is the nil slice of no match,
    otherwise the text of the match and of each group. *)
Definition FindStringSubmatch (r : syntax) (input : string)
  : option (list string) :=
  match exec r input with
  | Some c => Some (map (fun i => slice input (cap_get c i))
                        (seq 0 (S (NumSubexp r))))
  | None => None
  end.

(** A literal text and the classes of the two patterns. *)
Fixpoint literal (s : list ascii) (rest : syntax) : syntax :=
  match s with
  | [] => rest
  | a :: s' => Concat (Literal a) (literal s' rest)
  end.

Definition in_range (lo hi : ascii) (c : ascii) : bool :=
  Nat.leb (nat_of_ascii lo) (nat_of_ascii c)
  && Nat.leb (nat_of_ascii c) (nat_of_ascii hi).

(** [[a-zA-Z0-9]] *)
Definition alnum (c : ascii) : bool :=
  in_range "a" "z" c || in_range "A" "Z" c || in_range "0" "9" c.

(** [.] without the [s] flag: any character but the line feed. *)
Definition any_not_nl (c : ascii) : bool := negb (Ascii.eqb c "010").

End regexp.

(** ** The world a resource function runs in *)

(** What a resource function does to the outside, in order: the advisory
    locks it takes and releases and the calls it makes through the
    generated client, each with the resource ID it is made for. *)
Inductive Event : Type :=
| EvLock (name : string)
| EvUnlock (name : string)
| EvGet (id : string)
| EvCreateOrUpdate (id : string)
| EvDelete (id : string)
| EvWait (id : string).

(** The remote side (of a type the client chooses) and the events so far,
    oldest first. *)
Record World (cloud : Type) : Type := mkWorld {
  w_cloud : cloud;
  w_trace : list Event
}.

Definition emit {cloud : Type} (e : Event) (w : World cloud) : World cloud :=
  mkWorld (w_cloud w) (w_trace w ++ [e]).

Definition with_cloud {cloud : Type} (c : cloud) (w : World cloud)
  : World cloud :=
  mkWorld c (w_trace w).

(** [*pluginsdk.ResourceData]: the tracked ID, whether the resource is
    being created, and the value stored under each top-level field. *)
Record ResourceData : Type := mkResourceData {
  rd_Id : string;
  rd_IsNewResource : bool;
  rd_values : list (string * iface)
}.

Definition d_Id (d : ResourceData) : string := rd_Id d.

Definition d_SetId (d : ResourceData) (id : string) : ResourceData :=
  mkResourceData id (rd_IsNewResource d) (rd_values d).

Fixpoint map_set (m : list (string * iface)) (k : string) (v : iface)
  : list (string * iface) :=
  match m with
  | [] => [(k, v)]
  | (k', v') :: rest =>
      if String.eqb k' k then (k, v) :: rest else (k', v') :: map_set rest k v
  end.

Definition d_Set (d : ResourceData) (k : string) (v : iface) : ResourceData :=
  mkResourceData (rd_Id d) (rd_IsNewResource d) (map_set (rd_values d) k v).

Fixpoint map_find (m : list (string * iface)) (k : string) : option iface :=
  match m with
  | [] => None
  | (k', v) :: rest => if String.eqb k' k then Some v else map_find rest k
  end.

(** A segment of a field address such as [catalog_info.0.administrator_password]. *)
Inductive segment : Type :=
| Key (k : string)
| Index (i : nat).

Fixpoint read_at (v : iface) (path : list segment) : iface :=
  match path with
  | [] => v
  | Key k :: rest =>
      match v with
      | IMap m => read_at (map_get m k) rest
      | _ => INil
      end
  | Index i :: rest =>
      match v with
      | IList l => read_at (nth i l INil) rest
      | _ => INil
      end
  end.

(** [d.Get(k)]: the stored value, or the zero value of the field's schema
    type when nothing (or a nil) is stored. *)
Definition d_Get (zero : string -> iface) (d : ResourceData) (k : string)
  : iface :=
  match map_find (rd_values d) k with
  | Some INil | None => zero k
  | Some v => v
  end.

(** [d.GetOk(k)]: the value and whether it differs from the zero value. *)
Definition d_GetOk (zero : string -> iface) (d : ResourceData) (k : string)
  : iface * bool :=
  let v := d_Get zero d k in (v, negb (is_zero v)).

(** [d.GetOk] on a nested address. *)
Definition d_GetOk_at (zero : string -> iface) (d : ResourceData)
  (k : string) (path : list segment) : iface * bool :=
  let v := read_at (d_Get zero d k) path in (v, negb (is_zero v)).

(** ** azurerm_data_factory_integration_runtime_azure_ssis *)

(** The SDK package [integrationruntimes] (API version 2018-06-01): the
    structs the resource reads and writes.  A field [F] of a struct is
    named with a short prefix of its struct. *)
Module integrationruntimes.

Record IntegrationRuntimeId : Type := {
  SubscriptionId : string;
  ResourceGroupName : string;
  FactoryName : string;
  IntegrationRuntimeName : string
}.

Definition NewIntegrationRuntimeID (subscriptionId resourceGroupName
  factoryName integrationRuntimeName : string) : IntegrationRuntimeId :=
  Build_IntegrationRuntimeId subscriptionId resourceGroupName factoryName
    integrationRuntimeName.

Record IntegrationRuntimeVNetProperties : Type := {
  vnet_VNetId : option string;
  vnet_Subnet : option string;
  vnet_SubnetId : option string;
  vnet_PublicIPs : option (list string)
}.

Record CopyComputeScaleProperties : Type := {
  ccs_DataIntegrationUnit : option Z;
  ccs_TimeToLive : option Z
}.

Record PipelineExternalComputeScaleProperties : Type := {
  pecs_NumberOfExternalNodes : option Z;
  pecs_NumberOfPipelineNodes : option Z;
  pecs_TimeToLive : option Z
}.

Record IntegrationRuntimeComputeProperties : Type := {
  cp_Location : option string;
  cp_NodeSize : option string;
  cp_NumberOfNodes : option Z;
  cp_MaxParallelExecutionsPerNode : option Z;
  cp_VNetProperties : option IntegrationRuntimeVNetProperties;
  cp_CopyComputeScaleProperties : option CopyComputeScaleProperties;
  cp_PipelineExternalComputeScaleProperties :
    option PipelineExternalComputeScaleProperties
}.

Record LinkedServiceReference : Type := {
  lsr_ReferenceName : string;
  lsr_Parameters : option (list (string * iface))
}.

Record AzureKeyVaultSecretReference : Type := {
  kv_SecretName : iface;
  kv_SecretVersion : option iface;
  kv_Store : LinkedServiceReference
}.

(** The interface [SecretBase] and its implementations. *)
Inductive SecretBase : Type :=
| SecureString (Value : string)
| KeyVaultSecret (r : AzureKeyVaultSecretReference)
| RawSecretBase.

(** The interface [CustomSetupBase] and its implementations; target and
    user name of a cmdkey setup are [interface{}] in the SDK. *)
Inductive CustomSetupBase : Type :=
| AzPowerShellSetup (Version : string)
| ComponentSetup (ComponentName : string) (LicenseKey : option SecretBase)
| EnvironmentVariableSetup (VariableName VariableValue : string)
| CmdkeySetup (TargetName UserName : iface) (Password : option SecretBase)
| RawCustomSetupBase.

Record EntityReference : Type := {
  er_Type : option string;
  er_ReferenceName : option string
}.

Record PackageStore : Type := {
  ps_Name : string;
  ps_PackageStoreLinkedService : EntityReference
}.

Record IntegrationRuntimeDataProxyProperties : Type := {
  dp_ConnectVia : option EntityReference;
  dp_Path : option string;
  dp_StagingLinkedService : option EntityReference
}.

Record IntegrationRuntimeSsisCatalogInfo : Type := {
  ci_CatalogAdminPassword : option string;
  ci_CatalogAdminUserName : option string;
  ci_CatalogPricingTier : option string;
  ci_CatalogServerEndpoint : option string;
  ci_DualStandbyPairName : option string
}.

Record IntegrationRuntimeCustomSetupScriptProperties : Type := {
  css_BlobContainerUri : option string;
  css_SasToken : option string
}.

Record CredentialReference : Type := {
  cr_ReferenceName : string;
  cr_Type : string
}.

Record IntegrationRuntimeSsisProperties : Type := {
  sp_CatalogInfo : option IntegrationRuntimeSsisCatalogInfo;
  sp_Credential : option CredentialReference;
  sp_CustomSetupScriptProperties :
    option IntegrationRuntimeCustomSetupScriptProperties;
  sp_DataProxyProperties : option IntegrationRuntimeDataProxyProperties;
  sp_Edition : option string;
  sp_ExpressCustomSetupProperties : option (list CustomSetupBase);
  sp_LicenseType : option string;
  sp_PackageStores : option (list PackageStore)
}.

Record IntegrationRuntimeCustomerVirtualNetwork : Type := {
  cvn_SubnetId : option string
}.

Record ManagedIntegrationRuntimeTypeProperties : Type := {
  tp_ComputeProperties : option IntegrationRuntimeComputeProperties;
  tp_CustomerVirtualNetwork : option IntegrationRuntimeCustomerVirtualNetwork;
  tp_SsisProperties : option IntegrationRuntimeSsisProperties
}.

Record ManagedIntegrationRuntime : Type := {
  mir_Description : option string;
  mir_TypeProperties : ManagedIntegrationRuntimeTypeProperties
}.

(** The interface [IntegrationRuntime]: the managed runtime of this
    resource, or another implementation. *)
Inductive IntegrationRuntime : Type :=
| Managed (m : ManagedIntegrationRuntime)
| OtherIntegrationRuntime.

Record IntegrationRuntimeResource : Type := {
  irr_Name : option string;
  irr_Properties : IntegrationRuntime
}.

Record GetOperationResponse : Type := {
  get_HttpResponse : option HttpResponse;
  get_Model : option IntegrationRuntimeResource
}.

Record DeleteOperationResponse : Type := {
  del_HttpResponse : option HttpResponse
}.

(** The generated client over a remote side of type [cloud]: each
    operation answers with its response and its error. *)
Record IntegrationRuntimesClient (cloud : Type) : Type := {
  client_Get : cloud -> IntegrationRuntimeId ->
               GetOperationResponse * option error;
  client_CreateOrUpdate : cloud -> IntegrationRuntimeId ->
                          IntegrationRuntimeResource -> cloud * option error;
  client_Delete : cloud -> IntegrationRuntimeId ->
                  cloud * (DeleteOperationResponse * option error)
}.

End integrationruntimes.

Module factories.

Record FactoryId : Type := {
  SubscriptionId : string;
  ResourceGroupName : string;
  FactoryName : string
}.

Definition NewFactoryID (subscriptionId resourceGroupName factoryName : string)
  : FactoryId :=
  Build_FactoryId subscriptionId resourceGroupName factoryName.

End factories.

Module datafactory.

Import integrationruntimes.

(** What the resource file takes from other packages: the resource ID
    parsers and printers of the SDK, the location and string slice
    helpers, and the generated client. *)
Record Env (cloud : Type) : Type := {
  ParseFactoryID : string -> factories.FactoryId + error;
  FactoryId_ID : factories.FactoryId -> string;
  ParseIntegrationRuntimeID : string -> IntegrationRuntimeId + error;
  IntegrationRuntimeId_ID : IntegrationRuntimeId -> string;
  IntegrationRuntimeId_String : IntegrationRuntimeId -> string;
  location_Normalize : string -> string;
  location_NormalizeNilable : option string -> string;
  utils_ExpandStringSlice : list iface -> option (list string);
  utils_FlattenStringSlice : option (list string) -> list iface;
  client : IntegrationRuntimesClient cloud
}.

Arguments ParseFactoryID {cloud}.
Arguments FactoryId_ID {cloud}.
Arguments ParseIntegrationRuntimeID {cloud}.
Arguments IntegrationRuntimeId_ID {cloud}.
Arguments IntegrationRuntimeId_String {cloud}.
Arguments location_Normalize {cloud}.
Arguments location_NormalizeNilable {cloud}.
Arguments utils_ExpandStringSlice {cloud}.
Arguments utils_FlattenStringSlice {cloud}.
Arguments client {cloud}.

(** The zero value of each top-level field of the schema (lines 54-511):
    TypeString, TypeInt and TypeList fields. *)
Definition schema_zero (k : string) : iface :=
  if existsb (String.eqb k)
       ["name"; "description"; "data_factory_id"; "location"; "node_size";
        "credential_name"; "edition"; "license_type"]
  then IStr ""
  else if existsb (String.eqb k)
       ["number_of_nodes"; "max_parallel_executions_per_node"]
  then IInt 0
  else if existsb (String.eqb k)
       ["copy_compute_scale"; "express_vnet_integration"; "vnet_integration";
        "custom_setup_script"; "catalog_info"; "express_custom_setup";
        "package_store"; "pipeline_external_compute_scale"; "proxy"]
  then IList []
  else INil.

Definition Get := d_Get schema_zero.
Definition GetOk := d_GetOk schema_zero.
Definition GetOk_at := d_GetOk_at schema_zero.

(** The name validator (line 60):
    [^([a-zA-Z0-9](-|-?[a-zA-Z0-9]+)+[a-zA-Z0-9])$]. *)
Definition name_pattern : regexp.syntax :=
  regexp.Concat regexp.BeginText
   (regexp.Concat
     (regexp.Capture 1
       (regexp.Concat (regexp.CharClass regexp.alnum)
         (regexp.Concat
           (regexp.Plus
             (regexp.Capture 2
               (regexp.Alternate
                 (regexp.Literal "-")
                 (regexp.Concat (regexp.Quest (regexp.Literal "-"))
                                (regexp.Plus (regexp.CharClass regexp.alnum))))))
           (regexp.CharClass regexp.alnum))))
     regexp.EndText).

(** Modelled from the spec: [validation.StringMatch] of the plugin SDK, a
    value set given by a pattern: a string the pattern matches. *)
Definition StringMatch (r : regexp.syntax) (message : string)
  : validation.SchemaValidateFunc :=
  fun i k =>
    match i with
    | IStr v => if regexp.MatchString r v then [] else [message]
    | _ => [("expected type of " ++ k ++ " to be string")%string]
    end.

Definition name_ValidateFunc : validation.SchemaValidateFunc :=
  StringMatch name_pattern
    "Invalid name for Managed Integration Runtime: minimum 3 characters, must start and end with a number or a letter, may only consist of letters, numbers and dashes and no consecutive dashes.".

(** The validator of [copy_compute_scale.0.data_integration_unit]
    (lines 143-146). *)
Definition data_integration_unit_ValidateFunc : validation.SchemaValidateFunc :=
  validation.All [validation.IntBetween 4 256; validation.IntDivisibleBy 4].

(** The pattern [if v, ok := d.GetOk(k); ok && len(v.([]interface{})) > 0]
    followed by [v.([]interface{})[0].(map[string]interface{})]: the first
    block of a list field, when there is one. *)
Definition first_block (d : ResourceData) (k : string)
  : option (option (list (string * iface))) :=
  let (v, ok) := GetOk d k in
  if ok then
    l <- as_list v ;;
    match l with
    | [] => Some None
    | x :: _ => m <- as_map x ;; Some (Some m)
    end
  else Some None.

Definition expand_vnet (cloud : Type) (env : Env cloud)
  (vnetProps : list (string * iface))
  : option (option IntegrationRuntimeVNetProperties) :=
  vnetId <- as_string (map_get vnetProps "vnet_id") ;;
  p1 <- (if negb (String.eqb vnetId "") then
           subnet <- as_string (map_get vnetProps "subnet_name") ;;
           Some (Some {| vnet_VNetId := Some vnetId;
                         vnet_Subnet := Some subnet;
                         vnet_SubnetId := None;
                         vnet_PublicIPs := None |})
         else Some None) ;;
  subnetId <- as_string (map_get vnetProps "subnet_id") ;;
  let p2 := if negb (String.eqb subnetId "") then
              Some {| vnet_VNetId := None;
                      vnet_Subnet := None;
                      vnet_SubnetId := Some subnetId;
                      vnet_PublicIPs := None |}
            else p1 in
  publicIPs <- as_list (map_get vnetProps "public_ips") ;;
  match publicIPs with
  | [] => Some p2
  | _ :: _ =>
      p <- p2 ;;
      Some (Some {| vnet_VNetId := vnet_VNetId p;
                    vnet_Subnet := vnet_Subnet p;
                    vnet_SubnetId := vnet_SubnetId p;
                    vnet_PublicIPs := utils_ExpandStringSlice env publicIPs |})
  end.

Definition expand_copy_compute_scale (copyComputeScale : list (string * iface))
  : option (option CopyComputeScaleProperties) :=
  let orNew (p : option CopyComputeScaleProperties) :=
    match p with
    | Some x => x
    | None => {| ccs_DataIntegrationUnit := None; ccs_TimeToLive := None |}
    end in
  v1 <- as_int (map_get copyComputeScale "data_integration_unit") ;;
  let p1 := if negb (v1 =? 0)%Z then
              Some {| ccs_DataIntegrationUnit := Some v1;
                      ccs_TimeToLive := ccs_TimeToLive (orNew None) |}
            else None in
  v2 <- as_int (map_get copyComputeScale "time_to_live") ;;
  let p2 := if negb (v2 =? 0)%Z then
              Some {| ccs_DataIntegrationUnit :=
                        ccs_DataIntegrationUnit (orNew p1);
                      ccs_TimeToLive := Some v2 |}
            else p1 in
  Some p2.

(** Lines 716-736. *)
Definition expand_pipeline_external_compute_scale
  (pipelineExternalComputeScale : list (string * iface))
  : option (option PipelineExternalComputeScaleProperties) :=
  let orNew (p : option PipelineExternalComputeScaleProperties) :=
    match p with
    | Some x => x
    | None => {| pecs_NumberOfExternalNodes := None;
                 pecs_NumberOfPipelineNodes := None;
                 pecs_TimeToLive := None |}
    end in
  v1 <- as_int (map_get pipelineExternalComputeScale "number_of_external_nodes") ;;
  let p1 := if negb (v1 =? 0)%Z then
              Some {| pecs_NumberOfExternalNodes := Some v1;
                      pecs_NumberOfPipelineNodes :=
                        pecs_NumberOfPipelineNodes (orNew None);
                      pecs_TimeToLive := pecs_TimeToLive (orNew None) |}
            else None in
  v2 <- as_int (map_get pipelineExternalComputeScale "number_of_pipeline_nodes") ;;
  let p2 := if negb (v2 =? 0)%Z then
              Some {| pecs_NumberOfExternalNodes :=
                        pecs_NumberOfExternalNodes (orNew p1);
                      pecs_NumberOfPipelineNodes := Some v2;
                      pecs_TimeToLive := pecs_TimeToLive (orNew p1) |}
            else p1 in
  v3 <- as_int (map_get pipelineExternalComputeScale "time_to_live") ;;
  let p3 := if negb (v3 =? 0)%Z then
              Some {| pecs_NumberOfExternalNodes :=
                        pecs_NumberOfExternalNodes (orNew p2);
                      pecs_NumberOfPipelineNodes :=
                        pecs_NumberOfPipelineNodes (orNew p2);
                      pecs_TimeToLive := Some v3 |}
            else p2 in
  Some p3.

(** Lines 673-739. *)
Definition expandDataFactoryIntegrationRuntimeAzureSsisComputeProperties
  (cloud : Type) (env : Env cloud) (d : ResourceData)
  : option IntegrationRuntimeComputeProperties :=
  loc <- as_string (Get d "location") ;;
  nodeSize <- as_string (Get d "node_size") ;;
  numberOfNodes <- as_int (Get d "number_of_nodes") ;;
  maxParallel <- as_int (Get d "max_parallel_executions_per_node") ;;
  vnetBlock <- first_block d "vnet_integration" ;;
  vnet <- match vnetBlock with
          | Some vnetProps => expand_vnet env vnetProps
          | None => Some None
          end ;;
  copyBlock <- first_block d "copy_compute_scale" ;;
  copy <- match copyBlock with
          | Some m => expand_copy_compute_scale m
          | None => Some None
          end ;;
  pipelineBlock <- first_block d "pipeline_external_compute_scale" ;;
  pipeline <- match pipelineBlock with
              | Some m => expand_pipeline_external_compute_scale m
              | None => Some None
              end ;;
  Some {| cp_Location := Some (location_Normalize env loc);
          cp_NodeSize := Some nodeSize;
          cp_NumberOfNodes := Some numberOfNodes;
          cp_MaxParallelExecutionsPerNode := Some maxParallel;
          cp_VNetProperties := vnet;
          cp_CopyComputeScaleProperties := copy;
          cp_PipelineExternalComputeScaleProperties := pipeline |}.

(** Lines 806-826. *)
Definition expandDataFactoryIntegrationRuntimeAzureSsisProxy
  (input : list iface) : option (option IntegrationRuntimeDataProxyProperties) :=
  match input with
  | [] => Some None
  | INil :: _ => Some None
  | x :: _ =>
      raw <- as_map x ;;
      selfHosted <- as_string (map_get raw "self_hosted_integration_runtime_name") ;;
      staging <- as_string (map_get raw "staging_storage_linked_service_name") ;;
      path <- as_string (map_get raw "path") ;;
      Some (Some
        {| dp_ConnectVia :=
             Some {| er_Type := Some "IntegrationRuntimeReference";
                     er_ReferenceName := Some selfHosted |};
           dp_Path := if negb (String.eqb path "") then Some path else None;
           dp_StagingLinkedService :=
             Some {| er_Type := Some "LinkedServiceReference";
                     er_ReferenceName := Some staging |} |})
  end.

(** Lines 926-947. *)
Definition expandDataFactoryIntegrationRuntimeAzureSsisKeyVaultSecretReference
  (input : list iface) : option (option AzureKeyVaultSecretReference) :=
  match input with
  | [] => Some None
  | INil :: _ => Some None
  | x :: _ =>
      raw <- as_map x ;;
      secretName <- as_string (map_get raw "secret_name") ;;
      linkedService <- as_string (map_get raw "linked_service_name") ;;
      v <- as_string (map_get raw "secret_version") ;;
      params <- as_map (map_get raw "parameters") ;;
      Some (Some
        {| kv_SecretName := IStr secretName;
           kv_SecretVersion :=
             if negb (String.eqb v "") then Some (map_get raw "secret_version")
             else None;
           kv_Store :=
             {| lsr_ReferenceName := linkedService;
                lsr_Parameters :=
                  match params with [] => None | _ :: _ => Some params end |} |})
  end.

(** The secret of a component or a command key (lines 860-868 and
    883-891): the plain value when given, else the key vault reference. *)
Definition expand_secret (raw : list (string * iface)) (plain vault : string)
  : option (option SecretBase) :=
  v <- as_string (map_get raw plain) ;;
  if negb (String.eqb v "") then Some (Some (SecureString v))
  else
    l <- as_list (map_get raw vault) ;;
    r <- expandDataFactoryIntegrationRuntimeAzureSsisKeyVaultSecretReference l ;;
    Some (option_map KeyVaultSecret r).

Fixpoint expand_environment (env : list (string * iface))
  : option (list CustomSetupBase) :=
  match env with
  | [] => Some []
  | (k, v) :: rest =>
      s <- as_string v ;;
      tl <- expand_environment rest ;;
      Some (EnvironmentVariableSetup k s :: tl)
  end.

Fixpoint expand_components (components : list iface)
  : option (list CustomSetupBase) :=
  match components with
  | [] => Some []
  | item :: rest =>
      raw <- as_map item ;;
      license <- expand_secret raw "license" "key_vault_license" ;;
      name <- as_string (map_get raw "name") ;;
      tl <- expand_components rest ;;
      Some (ComponentSetup name license :: tl)
  end.

Fixpoint expand_command_keys (cmdKeys : list iface)
  : option (list CustomSetupBase) :=
  match cmdKeys with
  | [] => Some []
  | item :: rest =>
      raw <- as_map item ;;
      password <- expand_secret raw "password" "key_vault_password" ;;
      targetName <- as_string (map_get raw "target_name") ;;
      userName <- as_string (map_get raw "user_name") ;;
      tl <- expand_command_keys rest ;;
      Some (CmdkeySetup (IStr targetName) (IStr userName) password :: tl)
  end.

(** Lines 828-905.  The environment map is walked in the order of its
    association list. *)
Definition expandDataFactoryIntegrationRuntimeAzureSsisExpressCustomSetUp
  (input : list iface) : option (option (list CustomSetupBase)) :=
  match input with
  | [] => Some None
  | INil :: _ => Some None
  | x :: _ =>
      raw <- as_map x ;;
      env <- as_map (map_get raw "environment") ;;
      r1 <- expand_environment env ;;
      powershellVersion <- as_string (map_get raw "powershell_version") ;;
      let r2 := if negb (String.eqb powershellVersion "")
                then [AzPowerShellSetup powershellVersion] else [] in
      components <- as_list (map_get raw "component") ;;
      r3 <- expand_components components ;;
      cmdKeys <- as_list (map_get raw "command_key") ;;
      r4 <- expand_command_keys cmdKeys ;;
      Some (Some (r1 ++ r2 ++ r3 ++ r4))
  end.

Fixpoint expand_package_stores (input : list iface)
  : option (list PackageStore) :=
  match input with
  | [] => Some []
  | item :: rest =>
      raw <- as_map item ;;
      name <- as_string (map_get raw "name") ;;
      linkedService <- as_string (map_get raw "linked_service_name") ;;
      tl <- expand_package_stores rest ;;
      Some ({| ps_Name := name;
               ps_PackageStoreLinkedService :=
                 {| er_Type := Some "LinkedServiceReference";
                    er_ReferenceName := Some linkedService |} |} :: tl)
  end.

(** Lines 907-924. *)
Definition expandDataFactoryIntegrationRuntimeAzureSsisPackageStore
  (input : list iface) : option (option (list PackageStore)) :=
  match input with
  | [] => Some None
  | _ :: _ => r <- expand_package_stores input ;; Some (Some r)
  end.

(** Lines 949-957. *)
Definition expandDataFactoryIntegrationRuntimeCustomerVirtualNetwork
  (input : list iface) : option (option IntegrationRuntimeCustomerVirtualNetwork) :=
  match input with
  | [] => Some None
  | INil :: _ => Some None
  | x :: _ =>
      raw <- as_map x ;;
      subnetId <- as_string (map_get raw "subnet_id") ;;
      Some (Some {| cvn_SubnetId := Some subnetId |})
  end.

Definition dquote : ascii := "034".

(** Lines 1234-1236: [fmt.Sprintf] of [ELASTIC_POOL(name=] followed by the
    input between double quotes and a closing parenthesis. *)
Definition formatDataFactoryIntegrationRuntimeElasticPool (input : string)
  : string :=
  ("ELASTIC_POOL(name=" ++ String dquote input ++ String dquote ")")%string.

(** The pattern of line 1239: [^ELASTIC_POOL\(name=], a double quote,
    [(.+)], a double quote, [\)$]. *)
Definition elastic_pool_pattern : regexp.syntax :=
  regexp.Concat regexp.BeginText
    (regexp.literal (list_ascii_of_string "ELASTIC_POOL(name=")
      (regexp.Concat (regexp.Literal dquote)
        (regexp.Concat
          (regexp.Capture 1 (regexp.Plus (regexp.CharClass regexp.any_not_nl)))
          (regexp.Concat (regexp.Literal dquote)
            (regexp.Concat (regexp.Literal ")") regexp.EndText))))).

(** Lines 1238-1244. *)
Definition parseDataFactoryIntegrationRuntimeElasticPool (input : string)
  : string * bool :=
  match regexp.FindStringSubmatch elastic_pool_pattern input with
  | Some [_; name] => (name, true)
  | _ => ("", false)
  end.

(** The catalog part of lines 757-787. *)
Definition expand_catalog_info (catalogInfo : list (string * iface))
  : option IntegrationRuntimeSsisCatalogInfo :=
  pricingTier <-
    match map_get catalogInfo "elastic_pool_name" with
    | INil => as_string (map_get catalogInfo "pricing_tier")
    | elasticPoolName =>
        s <- as_string elasticPoolName ;;
        if negb (String.eqb s "")
        then Some (formatDataFactoryIntegrationRuntimeElasticPool s)
        else as_string (map_get catalogInfo "pricing_tier")
    end ;;
  serverEndpoint <- as_string (map_get catalogInfo "server_endpoint") ;;
  adminUserName <- as_string (map_get catalogInfo "administrator_login") ;;
  adminPassword <- as_string (map_get catalogInfo "administrator_password") ;;
  dualStandbyPairName <- as_string (map_get catalogInfo "dual_standby_pair_name") ;;
  let nonEmpty (s : string) := if negb (String.eqb s "") then Some s else None in
  Some {| ci_CatalogAdminPassword := nonEmpty adminPassword;
          ci_CatalogAdminUserName := nonEmpty adminUserName;
          ci_CatalogPricingTier := Some pricingTier;
          ci_CatalogServerEndpoint := Some serverEndpoint;
          ci_DualStandbyPairName := nonEmpty dualStandbyPairName |}.

(** Lines 741-804.  A [*SecureString] is kept as its value. *)
Definition expandDataFactoryIntegrationRuntimeAzureSsisProperties
  (d : ResourceData) : option IntegrationRuntimeSsisProperties :=
  licenseType <- as_string (Get d "license_type") ;;
  proxyList <- as_list (Get d "proxy") ;;
  proxy <- expandDataFactoryIntegrationRuntimeAzureSsisProxy proxyList ;;
  edition <- as_string (Get d "edition") ;;
  setupList <- as_list (Get d "express_custom_setup") ;;
  setup <- expandDataFactoryIntegrationRuntimeAzureSsisExpressCustomSetUp setupList ;;
  storeList <- as_list (Get d "package_store") ;;
  stores <- expandDataFactoryIntegrationRuntimeAzureSsisPackageStore storeList ;;
  credentialName <- as_string (Get d "credential_name") ;;
  catalogBlock <- first_block d "catalog_info" ;;
  catalog <- match catalogBlock with
             | Some m => c <- expand_catalog_info m ;; Some (Some c)
             | None => Some None
             end ;;
  scriptBlock <- first_block d "custom_setup_script" ;;
  script <- match scriptBlock with
            | Some m =>
                sasToken <- as_string (map_get m "sas_token") ;;
                uri <- as_string (map_get m "blob_container_uri") ;;
                Some (Some {| css_BlobContainerUri := Some uri;
                              css_SasToken := Some sasToken |})
            | None => Some None
            end ;;
  Some {| sp_CatalogInfo := catalog;
          sp_Credential :=
            if negb (String.eqb credentialName "")
            then Some {| cr_ReferenceName := credentialName;
                         cr_Type := "CredentialReference" |}
            else None;
          sp_CustomSetupScriptProperties := script;
          sp_DataProxyProperties := proxy;
          sp_Edition := Some edition;
          sp_ExpressCustomSetupProperties := setup;
          sp_LicenseType := Some licenseType;
          sp_PackageStores := stores |}.

(** Lines 959-972. *)
Definition flattenDataFactoryIntegrationRuntimeAzureSsisVnetIntegration
  (cloud : Type) (env : Env cloud)
  (vnetProperties : option IntegrationRuntimeVNetProperties) : list iface :=
  match vnetProperties with
  | None => []
  | Some p =>
      [IMap [("vnet_id", IStr (pointer_From_string (vnet_VNetId p)));
             ("subnet_id", IStr (pointer_From_string (vnet_SubnetId p)));
             ("subnet_name", IStr (pointer_From_string (vnet_Subnet p)));
             ("public_ips", IList (utils_FlattenStringSlice env (vnet_PublicIPs p)))]]
  end.

(** Lines 974-1002. *)
Definition flattenDataFactoryIntegrationRuntimeAzureSsisCatalogInfo
  (ssisProperties : option IntegrationRuntimeSsisCatalogInfo)
  (d : ResourceData) : option (list iface) :=
  match ssisProperties with
  | None => Some []
  | Some p =>
      let tier := pointer_From_string (ci_CatalogPricingTier p) in
      let (elasticPoolName, elasticPoolNameMatched) :=
        parseDataFactoryIntegrationRuntimeElasticPool tier in
      let pricingTier := if negb elasticPoolNameMatched then tier else "" in
      administratorPassword <-
        (let (adminPassword, ok) :=
           GetOk_at d "catalog_info" [Index 0; Key "administrator_password"] in
         if ok then as_string adminPassword else Some "") ;;
      Some [IMap
        [("server_endpoint", IStr (pointer_From_string (ci_CatalogServerEndpoint p)));
         ("pricing_tier", IStr pricingTier);
         ("elastic_pool_name", IStr elasticPoolName);
         ("administrator_login", IStr (pointer_From_string (ci_CatalogAdminUserName p)));
         ("administrator_password", IStr administratorPassword);
         ("dual_standby_pair_name", IStr (pointer_From_string (ci_DualStandbyPairName p)))]]
  end.

(** Lines 1004-1023. *)
Definition flattenDataFactoryIntegrationRuntimeAzureSsisProxy
  (input : option IntegrationRuntimeDataProxyProperties) : list iface :=
  match input with
  | None => []
  | Some p =>
      let selfHostedIntegrationRuntimeName :=
        match dp_ConnectVia p with
        | Some r => pointer_From_string (er_ReferenceName r)
        | None => ""
        end in
      let stagingStorageLinkedServiceName :=
        match dp_StagingLinkedService p with
        | Some r => pointer_From_string (er_ReferenceName r)
        | None => ""
        end in
      [IMap
        [("path", IStr (pointer_From_string (dp_Path p)));
         ("self_hosted_integration_runtime_name", IStr selfHostedIntegrationRuntimeName);
         ("staging_storage_linked_service_name", IStr stagingStorageLinkedServiceName)]]
  end.

(** Lines 1025-1031: a [*string], stored as the string or as nothing. *)
Definition flattenDataFactoryIntegrationRuntimeUserAssignedCredential
  (credentialProperties : option CredentialReference) : iface :=
  match credentialProperties with
  | None => INil
  | Some c => IStr (cr_ReferenceName c)
  end.

(** Lines 1033-1047. *)
Definition flattenDataFactoryIntegrationRuntimeAzureSsisCustomSetupScript
  (customSetupScriptProperties : option IntegrationRuntimeCustomSetupScriptProperties)
  (d : ResourceData) : option (list iface) :=
  match customSetupScriptProperties with
  | None => Some []
  | Some p =>
      let customSetupScript :=
        [("blob_container_uri", IStr (pointer_From_string (css_BlobContainerUri p)))] in
      let (sasToken, ok) :=
        GetOk_at d "custom_setup_script" [Index 0; Key "sas_token"] in
      if ok then
        s <- as_string sasToken ;;
        Some [IMap (map_set customSetupScript "sas_token" (IStr s))]
      else Some [IMap customSetupScript]
  end.

(** Lines 1049-1062. *)
Definition flattenDataFactoryIntegrationRuntimeAzureSsisPackageStore
  (input : option (list PackageStore)) : list iface :=
  match input with
  | None => []
  | Some l =>
      map (fun item =>
             IMap [("name", IStr (ps_Name item));
                   ("linked_service_name",
                    IStr (pointer_From_string
                            (er_ReferenceName (ps_PackageStoreLinkedService item))))])
          l
  end.

(** Lines 1152-1175. *)
Definition flattenDataFactoryIntegrationRuntimeAzureSsisKeyVaultSecretReference
  (input : option AzureKeyVaultSecretReference) : list iface :=
  match input with
  | None => []
  | Some r =>
      let secretName :=
        match kv_SecretName r with IStr v => v | _ => "" end in
      let secretVersion :=
        match kv_SecretVersion r with Some (IStr v) => v | _ => "" end in
      [IMap
        [("linked_service_name", IStr (lsr_ReferenceName (kv_Store r)));
         ("parameters",
          IMap (match lsr_Parameters (kv_Store r) with Some m => m | None => [] end));
         ("secret_name", IStr secretName);
         ("secret_version", IStr secretVersion)]]
  end.

(** The inner loop of lines 1221-1226: every filter holds of [raw]. *)
Fixpoint filters_hold (raw : list (string * iface))
  (filters : list (string * string)) : option bool :=
  match filters with
  | [] => Some true
  | (k, v) :: rest =>
      s <- as_string (map_get raw k) ;;
      if negb (String.eqb s v) then Some false else filters_hold raw rest
  end.

(** Lines 1214-1232.  The filters are walked in the order of their
    association list. *)
Fixpoint readBackSensitiveValue (input : list iface) (propertyName : string)
  (filters : list (string * string)) : option string :=
  match input with
  | [] => Some ""
  | item :: rest =>
      raw <- as_map item ;;
      found <- filters_hold raw filters ;;
      if found then as_string (map_get raw propertyName)
      else readBackSensitiveValue rest propertyName filters
  end.

(** The state of the loop of lines 1087-1140. *)
Record setup_acc : Type := {
  acc_env : list (string * iface);
  acc_powershellVersion : string;
  acc_components : list iface;
  acc_cmdkeys : list iface
}.

Definition flatten_setup_item (oldComponents oldCmdKey : list iface)
  (acc : setup_acc) (item : CustomSetupBase) : option setup_acc :=
  match item with
  | AzPowerShellSetup version =>
      Some {| acc_env := acc_env acc;
              acc_powershellVersion := version;
              acc_components := acc_components acc;
              acc_cmdkeys := acc_cmdkeys acc |}
  | ComponentSetup name licenseKey =>
      let keyVaultLicense :=
        match licenseKey with
        | Some (KeyVaultSecret license) => Some license
        | _ => None
        end in
      license <- readBackSensitiveValue oldComponents "license" [("name", name)] ;;
      Some {| acc_env := acc_env acc;
              acc_powershellVersion := acc_powershellVersion acc;
              acc_components :=
                acc_components acc ++
                [IMap
                  [("name", IStr name);
                   ("key_vault_license",
                    IList (flattenDataFactoryIntegrationRuntimeAzureSsisKeyVaultSecretReference
                             keyVaultLicense));
                   ("license", IStr license)]];
              acc_cmdkeys := acc_cmdkeys acc |}
  | EnvironmentVariableSetup variableName variableValue =>
      Some {| acc_env := map_set (acc_env acc) variableName (IStr variableValue);
              acc_powershellVersion := acc_powershellVersion acc;
              acc_components := acc_components acc;
              acc_cmdkeys := acc_cmdkeys acc |}
  | CmdkeySetup targetName userNameRaw passwordRaw =>
      let name := match targetName with IStr v => v | _ => "" end in
      let userName := match userNameRaw with IStr v => v | _ => "" end in
      let keyVaultPassword :=
        match passwordRaw with
        | Some (KeyVaultSecret reference) => Some reference
        | _ => None
        end in
      password <- readBackSensitiveValue oldCmdKey "password"
                    [("target_name", name); ("user_name", userName)] ;;
      Some {| acc_env := acc_env acc;
              acc_powershellVersion := acc_powershellVersion acc;
              acc_components := acc_components acc;
              acc_cmdkeys :=
                acc_cmdkeys acc ++
                [IMap
                  [("target_name", IStr name);
                   ("user_name", IStr userName);
                   ("password", IStr password);
                   ("key_vault_password",
                    IList (flattenDataFactoryIntegrationRuntimeAzureSsisKeyVaultSecretReference
                             keyVaultPassword))]] |}
  | RawCustomSetupBase => Some acc
  end.

Fixpoint flatten_setup_items (oldComponents oldCmdKey : list iface)
  (acc : setup_acc) (input : list CustomSetupBase) : option setup_acc :=
  match input with
  | [] => Some acc
  | item :: rest =>
      acc' <- flatten_setup_item oldComponents oldCmdKey acc item ;;
      flatten_setup_items oldComponents oldCmdKey acc' rest
  end.

(** Lines 1074-1085: the list stored under [k] in the old state, when
    the key is there and the list has an element. *)
Definition old_list (oldState : list (string * iface)) (k : string)
  : option (list iface) :=
  match map_find oldState k with
  | Some raw => v <- as_list raw ;; Some v
  | None => Some []
  end.

(** Lines 1064-1150. *)
Definition flattenDataFactoryIntegrationRuntimeAzureSsisExpressCustomSetUp
  (input : option (list CustomSetupBase)) (d : ResourceData)
  : option (list iface) :=
  match input with
  | None => Some []
  | Some items =>
      arr <- as_list (Get d "express_custom_setup") ;;
      oldState <- match arr with
                  | [] => Some []
                  | x :: _ => as_map x
                  end ;;
      oldComponents <- old_list oldState "component" ;;
      oldCmdKey <- old_list oldState "command_key" ;;
      acc <- flatten_setup_items oldComponents oldCmdKey
               {| acc_env := []; acc_powershellVersion := "";
                  acc_components := []; acc_cmdkeys := [] |}
               items ;;
      Some [IMap
        [("environment", IMap (acc_env acc));
         ("powershell_version", IStr (acc_powershellVersion acc));
         ("component", IList (acc_components acc));
         ("command_key", IList (acc_cmdkeys acc))]]
  end.

(** Lines 1177-1187. *)
Definition flattenDataFactoryIntegrationRuntimeCustomerVnetIntegration
  (input : option IntegrationRuntimeCustomerVirtualNetwork) : list iface :=
  match input with
  | None => []
  | Some p => [IMap [("subnet_id", IStr (pointer_From_string (cvn_SubnetId p)))]]
  end.

(** Lines 1189-1200. *)
Definition flattenDataFactoryIntegrationRuntimeAzureSsisPipelineExternalComputeScaleProperties
  (input : option PipelineExternalComputeScaleProperties) : list iface :=
  match input with
  | None => []
  | Some p =>
      [IMap
        [("number_of_external_nodes", IInt (pointer_From_int (pecs_NumberOfPipelineNodes p)));
         ("number_of_pipeline_nodes", IInt (pointer_From_int (pecs_NumberOfPipelineNodes p)));
         ("time_to_live", IInt (pointer_From_int (pecs_TimeToLive p)))]]
  end.

(** Lines 1202-1212. *)
Definition flattenDataFactoryIntegrationRuntimeAzureSsisCopyComputeScale
  (input : option CopyComputeScaleProperties) : list iface :=
  match input with
  | None => []
  | Some p =>
      [IMap
        [("data_integration_unit", IInt (pointer_From_int (ccs_DataIntegrationUnit p)));
         ("time_to_live", IInt (pointer_From_int (ccs_TimeToLive p)))]]
  end.

(** A [*string] or [*int64] handed to [d.Set]. *)
Definition of_string_ptr (p : option string) : iface :=
  match p with Some s => IStr s | None => INil end.

Definition of_int_ptr (p : option Z) : iface :=
  match p with Some n => IInt n | None => INil end.

(** The outcome of a resource function: the returned [error], the
    resource data and the world afterwards; [None] is a panic. *)
Definition outcome (cloud : Type) : Type :=
  option (option error * ResourceData * World cloud).

(** Lines 597-614. *)
Definition read_compute (cloud : Type) (env : Env cloud) (d : ResourceData)
  (computeProps : IntegrationRuntimeComputeProperties) : ResourceData :=
  let d := d_Set d "location"
             (IStr (location_NormalizeNilable env (cp_Location computeProps))) in
  let d := d_Set d "node_size" (of_string_ptr (cp_NodeSize computeProps)) in
  let d := d_Set d "number_of_nodes" (of_int_ptr (cp_NumberOfNodes computeProps)) in
  let d := d_Set d "max_parallel_executions_per_node"
             (of_int_ptr (cp_MaxParallelExecutionsPerNode computeProps)) in
  let d := d_Set d "vnet_integration"
             (IList (flattenDataFactoryIntegrationRuntimeAzureSsisVnetIntegration env
                       (cp_VNetProperties computeProps))) in
  let d := d_Set d "copy_compute_scale"
             (IList (flattenDataFactoryIntegrationRuntimeAzureSsisCopyComputeScale
                       (cp_CopyComputeScaleProperties computeProps))) in
  d_Set d "pipeline_external_compute_scale"
    (IList (flattenDataFactoryIntegrationRuntimeAzureSsisPipelineExternalComputeScaleProperties
              (cp_PipelineExternalComputeScaleProperties computeProps))).

(** Lines 616-643. *)
Definition read_ssis (d : ResourceData)
  (ssisProps : IntegrationRuntimeSsisProperties) : option ResourceData :=
  let d := d_Set d "edition" (IStr (pointer_From_string (sp_Edition ssisProps))) in
  let d := d_Set d "license_type"
             (IStr (pointer_From_string (sp_LicenseType ssisProps))) in
  catalog <- flattenDataFactoryIntegrationRuntimeAzureSsisCatalogInfo
               (sp_CatalogInfo ssisProps) d ;;
  let d := d_Set d "catalog_info" (IList catalog) in
  let d := d_Set d "credential_name"
             (flattenDataFactoryIntegrationRuntimeUserAssignedCredential
                (sp_Credential ssisProps)) in
  script <- flattenDataFactoryIntegrationRuntimeAzureSsisCustomSetupScript
              (sp_CustomSetupScriptProperties ssisProps) d ;;
  let d := d_Set d "custom_setup_script" (IList script) in
  setup <- flattenDataFactoryIntegrationRuntimeAzureSsisExpressCustomSetUp
             (sp_ExpressCustomSetupProperties ssisProps) d ;;
  let d := d_Set d "express_custom_setup" (IList setup) in
  let d := d_Set d "package_store"
             (IList (flattenDataFactoryIntegrationRuntimeAzureSsisPackageStore
                       (sp_PackageStores ssisProps))) in
  Some (d_Set d "proxy"
          (IList (flattenDataFactoryIntegrationRuntimeAzureSsisProxy
                    (sp_DataProxyProperties ssisProps)))).

(** Lines 564-651. *)
Definition resourceDataFactoryIntegrationRuntimeAzureSsisRead
  (cloud : Type) (env : Env cloud) (d : ResourceData) (w : World cloud)
  : outcome cloud :=
  match ParseIntegrationRuntimeID env (d_Id d) with
  | inr err => Some (Some err, d, w)
  | inl id =>
      let dataFactoryId :=
        factories.NewFactoryID (SubscriptionId id) (ResourceGroupName id)
          (FactoryName id) in
      let (resp, err) := client_Get (client env) (w_cloud w) id in
      let w := emit (EvGet (IntegrationRuntimeId_ID env id)) w in
      match err with
      | Some e =>
          if response_WasNotFound (get_HttpResponse resp)
          then Some (None, d_SetId d "", w)
          else Some (Some (Errorf "retrieving %s: %+v"
                             [AStr (IntegrationRuntimeId_String env id);
                              AErr (Some e)]), d, w)
      | None =>
          let d := d_Set d "name" (IStr (IntegrationRuntimeName id)) in
          let d := d_Set d "data_factory_id"
                     (IStr (FactoryId_ID env dataFactoryId)) in
          match get_Model resp with
          | None => Some (None, d, w)
          | Some model =>
              match irr_Properties model with
              | OtherIntegrationRuntime =>
                  Some (Some (Errorf
                    "asserting `IntegrationRuntime` as `ManagedIntegrationRuntime` for %s"
                    [AStr (IntegrationRuntimeId_String env id)]), d, w)
              | Managed runTime =>
                  let d := d_Set d "description"
                             (of_string_ptr (mir_Description runTime)) in
                  let d := match tp_ComputeProperties (mir_TypeProperties runTime) with
                           | Some computeProps => read_compute env d computeProps
                           | None => d
                           end in
                  d <- match tp_SsisProperties (mir_TypeProperties runTime) with
                       | Some ssisProps => read_ssis d ssisProps
                       | None => Some d
                       end ;;
                  let d := d_Set d "express_vnet_integration"
                             (IList (flattenDataFactoryIntegrationRuntimeCustomerVnetIntegration
                                       (tp_CustomerVirtualNetwork
                                          (mir_TypeProperties runTime)))) in
                  Some (None, d, w)
              end
          end
      end
  end.

(** Lines 540-553: the request payload. *)
Definition create_payload (cloud : Type) (env : Env cloud) (d : ResourceData)
  (id : IntegrationRuntimeId) : option IntegrationRuntimeResource :=
  description <- as_string (Get d "description") ;;
  compute <- expandDataFactoryIntegrationRuntimeAzureSsisComputeProperties env d ;;
  ssis <- expandDataFactoryIntegrationRuntimeAzureSsisProperties d ;;
  vnetList <- as_list (Get d "express_vnet_integration") ;;
  customerVnet <- expandDataFactoryIntegrationRuntimeCustomerVirtualNetwork vnetList ;;
  Some {| irr_Name := Some (IntegrationRuntimeName id);
          irr_Properties :=
            Managed {| mir_Description := Some description;
                       mir_TypeProperties :=
                         {| tp_ComputeProperties := Some compute;
                            tp_CustomerVirtualNetwork := customerVnet;
                            tp_SsisProperties := Some ssis |} |} |}.

(** Lines 555-561: the call and what follows it. *)
Definition create_and_read (cloud : Type) (env : Env cloud) (d : ResourceData)
  (w : World cloud) (id : IntegrationRuntimeId) : outcome cloud :=
  integrationRuntime <- create_payload env d id ;;
  let (c, err) := client_CreateOrUpdate (client env) (w_cloud w) id integrationRuntime in
  let w := emit (EvCreateOrUpdate (IntegrationRuntimeId_ID env id)) (with_cloud c w) in
  match err with
  | Some e =>
      Some (Some (Errorf "creating/updating %s: %+v"
                    [AStr (IntegrationRuntimeId_String env id); AErr (Some e)]), d, w)
  | None =>
      let d := d_SetId d (IntegrationRuntimeId_ID env id) in
      resourceDataFactoryIntegrationRuntimeAzureSsisRead env d w
  end.

(** Lines 515-562. *)
Definition resourceDataFactoryIntegrationRuntimeAzureSsisCreateUpdate
  (cloud : Type) (env : Env cloud) (d : ResourceData) (w : World cloud)
  : outcome cloud :=
  dataFactoryIdRaw <- as_string (Get d "data_factory_id") ;;
  match ParseFactoryID env dataFactoryIdRaw with
  | inr err => Some (Some err, d, w)
  | inl dataFactoryId =>
      name <- as_string (Get d "name") ;;
      let id := NewIntegrationRuntimeID
                  (factories.SubscriptionId dataFactoryId)
                  (factories.ResourceGroupName dataFactoryId)
                  (factories.FactoryName dataFactoryId) name in
      if rd_IsNewResource d then
        let (existing, err) := client_Get (client env) (w_cloud w) id in
        let w := emit (EvGet (IntegrationRuntimeId_ID env id)) w in
        match err with
        | Some e =>
            if negb (response_WasNotFound (get_HttpResponse existing))
            then Some (Some (Errorf "checking for presence of existing %s: %+v"
                               [AStr (IntegrationRuntimeId_String env id);
                                AErr (Some e)]), d, w)
            else create_and_read env d w id
        | None =>
            if negb (response_WasNotFound (get_HttpResponse existing))
            then Some (Some (tf_ImportAsExistsError
                               "azurerm_data_factory_integration_runtime_azure_ssis"
                               (IntegrationRuntimeId_ID env id)), d, w)
            else create_and_read env d w id
        end
      else create_and_read env d w id
  end.

(** Lines 653-671. *)
Definition resourceDataFactoryIntegrationRuntimeAzureSsisDelete
  (cloud : Type) (env : Env cloud) (d : ResourceData) (w : World cloud)
  : outcome cloud :=
  match ParseIntegrationRuntimeID env (d_Id d) with
  | inr err => Some (Some err, d, w)
  | inl id =>
      let '(c, (resp, err)) := client_Delete (client env) (w_cloud w) id in
      let w := emit (EvDelete (IntegrationRuntimeId_ID env id)) (with_cloud c w) in
      match err with
      | Some e =>
          if negb (response_WasNotFound (del_HttpResponse resp))
          then Some (Some (Errorf "deleting %s: %+v"
                             [AStr (IntegrationRuntimeId_String env id);
                              AErr (Some e)]), d, w)
          else Some (None, d, w)
      | None => Some (None, d, w)
      end
  end.

End datafactory.

(** ** azurerm_ai_foundry *)

(** The SDK package [workspaces] (machinelearningservices 2025-06-01). *)
Module workspaces.

Record WorkspaceId : Type := {
  SubscriptionId : string;
  ResourceGroupName : string;
  WorkspaceName : string
}.

Definition NewWorkspaceID (subscriptionId resourceGroupName workspaceName : string)
  : WorkspaceId :=
  Build_WorkspaceId subscriptionId resourceGroupName workspaceName.

Record IdentityForCmk : Type := {
  cmk_UserAssignedIdentity : option string
}.

Record EncryptionKeyVaultProperties : Type := {
  ekv_KeyVaultArmId : string;
  ekv_KeyIdentifier : string
}.

Record EncryptionProperty : Type := {
  enc_Identity : option IdentityForCmk;
  enc_KeyVaultProperties : EncryptionKeyVaultProperties;
  enc_Status : string
}.

Definition EncryptionStatusEnabled : string := "Enabled".

Record ManagedNetworkSettings : Type := {
  mns_IsolationMode : option string
}.

Record WorkspaceProperties : Type := {
  wp_ApplicationInsights : option string;
  wp_ContainerRegistry : option string;
  wp_Description : option string;
  wp_DiscoveryURL : option string;
  wp_Encryption : option EncryptionProperty;
  wp_FriendlyName : option string;
  wp_HbiWorkspace : option bool;
  wp_KeyVault : option string;
  wp_ManagedNetwork : option ManagedNetworkSettings;
  wp_PrimaryUserAssignedIdentity : option string;
  wp_PublicNetworkAccess : option string;
  wp_StorageAccount : option string;
  wp_WorkspaceId : option string
}.

(** The identity of a workspace is built and read by the identity
    package only; it is carried as a dynamic value. *)
Record Workspace : Type := {
  ws_Identity : option iface;
  ws_Kind : option string;
  ws_Location : option string;
  ws_Name : option string;
  ws_Properties : option WorkspaceProperties;
  ws_Tags : option (list (string * string))
}.

Record GetOperationResponse : Type := {
  get_HttpResponse : option HttpResponse;
  get_Model : option Workspace
}.

Record WorkspacesClient (cloud : Type) : Type := {
  client_Get : cloud -> WorkspaceId -> GetOperationResponse * option error;
  client_CreateOrUpdateThenPoll : cloud -> WorkspaceId -> Workspace ->
                                  cloud * option error
}.

End workspaces.

Module machinelearning.

Import workspaces.

Record ManagedNetwork : Type := {
  IsolationMode : string
}.

Record Encryption : Type := {
  IdentityClientID : string;
  KeyVaultID : string;
  KeyID : string
}.

Record AIFoundryModel : Type := {
  m_Name : string;
  m_Location : string;
  m_ResourceGroupName : string;
  m_ApplicationInsightsId : string;
  m_StorageAccountId : string;
  m_KeyVaultId : string;
  m_ContainerRegistryId : string;
  m_Encryption : list Encryption;
  m_ManagedNetwork : list ManagedNetwork;
  m_PublicNetworkAccess : string;
  m_Identity : list iface;
  m_PrimaryUserAssignedIdentity : string;
  m_HighBusinessImpactEnabled : bool;
  m_Description : string;
  m_FriendlyName : string;
  m_DiscoveryUrl : string;
  m_WorkspaceId : string;
  m_Tags : list (string * iface)
}.

(** What the resource file takes from other packages.  A resource ID
    parser is taken together with the [ID()] of what it parses: it maps
    a string to the normalised ID or to an error. *)
Record Env (cloud : Type) : Type := {
  ParseWorkspaceID : string -> WorkspaceId + error;
  WorkspaceId_ID : WorkspaceId -> string;
  WorkspaceId_String : WorkspaceId -> string;
  Account_SubscriptionId : string;
  Decode : ResourceData -> AIFoundryModel + error;
  Encode : ResourceData -> AIFoundryModel -> ResourceData * option error;
  ParseStorageAccountID : string -> string + error;
  ParseKeyVaultID : string -> string + error;
  ParseComponentID : string -> string + error;
  ParseComponentIDInsensitively : string -> string + error;
  ParseRegistryID : string -> string + error;
  ParseUserAssignedIdentityID : string -> string + error;
  ParseUserAssignedIdentityIDInsensitively : string -> string + error;
  ParseNestedItemID : string -> string + error;
  ExpandLegacySystemAndUserAssignedMap : list iface -> option iface + error;
  FlattenLegacySystemAndUserAssignedMapToModel : option iface -> list iface + error;
  tags_Expand : list (string * iface) -> option (list (string * string));
  tags_Flatten : option (list (string * string)) -> list (string * iface);
  location_Normalize : string -> string;
  location_NormalizeNilable : option string -> string;
  client : WorkspacesClient cloud
}.

Arguments ParseWorkspaceID {cloud}.
Arguments WorkspaceId_ID {cloud}.
Arguments WorkspaceId_String {cloud}.
Arguments Account_SubscriptionId {cloud}.
Arguments Decode {cloud}.
Arguments Encode {cloud}.
Arguments ParseStorageAccountID {cloud}.
Arguments ParseKeyVaultID {cloud}.
Arguments ParseComponentID {cloud}.
Arguments ParseComponentIDInsensitively {cloud}.
Arguments ParseRegistryID {cloud}.
Arguments ParseUserAssignedIdentityID {cloud}.
Arguments ParseUserAssignedIdentityIDInsensitively {cloud}.
Arguments ParseNestedItemID {cloud}.
Arguments ExpandLegacySystemAndUserAssignedMap {cloud}.
Arguments FlattenLegacySystemAndUserAssignedMapToModel {cloud}.
Arguments tags_Expand {cloud}.
Arguments tags_Flatten {cloud}.
Arguments location_Normalize {cloud}.
Arguments location_NormalizeNilable {cloud}.
Arguments client {cloud}.

Definition outcome (cloud : Type) : Type :=
  option (option error * ResourceData * World cloud).

(** [strings.EqualFold] against an ASCII text: equality under simple
    case folding.  The letters of [Hub] have no fold partner outside
    ASCII, so folding bytes agrees with folding code points here. *)
Definition to_lower (c : ascii) : ascii :=
  if regexp.in_range "A" "Z" c
  then ascii_of_nat (nat_of_ascii c + 32) else c.

Fixpoint strings_EqualFold (s t : string) : bool :=
  match s, t with
  | EmptyString, EmptyString => true
  | String a s', String b t' =>
      Ascii.eqb (to_lower a) (to_lower b) && strings_EqualFold s' t'
  | _, _ => false
  end.

(** Modelled from the spec: [metadata.MarkAsGone] of internal/sdk, which
    removes the record from tracked state (sets the ID to empty) and
    returns no error. *)
Definition MarkAsGone (d : ResourceData) : option error * ResourceData :=
  (None, d_SetId d "").

(** Lines 77-96. *)
Definition CustomImporter (cloud : Type) (env : Env cloud)
  (d : ResourceData) (w : World cloud) : outcome cloud :=
  match ParseWorkspaceID env (d_Id d) with
  | inr err => Some (Some err, d, w)
  | inl id =>
      let (resp, err) := client_Get (client env) (w_cloud w) id in
      let w := emit (EvGet (WorkspaceId_ID env id)) w in
      let retrieving :=
        Some (Some (Errorf "retrieving %s: %+v"
                      [AStr (WorkspaceId_String env id); AErr err]), d, w) in
      match err with
      | Some _ => retrieving
      | None =>
          match get_Model resp with
          | None => retrieving
          | Some model =>
              match ws_Kind model with
              | None => retrieving
              | Some kind =>
                  if negb (strings_EqualFold kind "Hub")
                  then Some (Some (Errorf
                         "importing %s: specified workspace is not of kind `Hub`, got `%s`"
                         [AStr (WorkspaceId_String env id); AStr kind]), d, w)
                  else Some (None, d, w)
              end
          end
      end
  end.

(** Lines 553-569; indexing an empty slice panics. *)
Definition expandEncryption (input : list Encryption) : option EncryptionProperty :=
  match input with
  | [] => None
  | encryption :: _ =>
      Some {| enc_Identity :=
                Some {| cmk_UserAssignedIdentity :=
                          if negb (String.eqb (IdentityClientID encryption) "")
                          then Some (IdentityClientID encryption) else None |};
              enc_KeyVaultProperties :=
                {| ekv_KeyVaultArmId := KeyVaultID encryption;
                   ekv_KeyIdentifier := KeyID encryption |};
              enc_Status := EncryptionStatusEnabled |}
  end.

(** Lines 605-611. *)
Definition expandManagedNetwork (input : list ManagedNetwork)
  : option ManagedNetworkSettings :=
  match input with
  | [] => None
  | network :: _ => Some {| mns_IsolationMode := Some (IsolationMode network) |}
  end.

(** A step that returns [(T, error)] and may panic: [None] is the panic,
    [inr] the returned error. *)
Definition step (A : Type) : Type := option (A + error).

Definition bindS {A B : Type} (r : step A) (k : A -> step B) : step B :=
  match r with
  | None => None
  | Some (inr e) => Some (inr e)
  | Some (inl a) => k a
  end.

Definition pure {A : Type} (a : A) : step A := Some (inl a).

Definition lift {A : Type} (r : A + error) : step A := Some r.

(** An optional ID: parsed when the text is not empty. *)
Definition parse_nonempty (parse : string -> string + error) (s : string)
  : step (option string) :=
  if negb (String.eqb s "") then bindS (lift (parse s)) (fun id => pure (Some id))
  else pure None.

(** Lines 259-330: the request payload. *)
Definition create_payload (cloud : Type) (env : Env cloud) (d : ResourceData)
  (model : AIFoundryModel) (id : WorkspaceId) : step Workspace :=
  bindS (lift (ParseStorageAccountID env (m_StorageAccountId model)))
    (fun storageAccountId =>
  bindS (lift (ParseKeyVaultID env (m_KeyVaultId model))) (fun keyVaultId =>
  bindS (match as_list (d_Get (fun _ => IList []) d "identity") with
         | None => None
         | Some l =>
             match ExpandLegacySystemAndUserAssignedMap env l with
             | inl i => pure i
             | inr e => Some (inr (Errorf "expanding `identity`: %+v" [AErr (Some e)]))
             end
         end) (fun expandedIdentity =>
  bindS (parse_nonempty (ParseComponentID env) (m_ApplicationInsightsId model))
    (fun applicationInsights =>
  bindS (parse_nonempty (ParseRegistryID env) (m_ContainerRegistryId model))
    (fun containerRegistry =>
  bindS (parse_nonempty (ParseUserAssignedIdentityID env)
           (m_PrimaryUserAssignedIdentity model)) (fun primaryUserAssignedIdentity =>
  pure {| ws_Identity := expandedIdentity;
          ws_Kind := Some "Hub";
          ws_Location := Some (location_Normalize env (m_Location model));
          ws_Name := Some (WorkspaceName id);
          ws_Properties :=
            Some {| wp_ApplicationInsights := applicationInsights;
                    wp_ContainerRegistry := containerRegistry;
                    wp_Description :=
                      if negb (String.eqb (m_Description model) "")
                      then Some (m_Description model) else None;
                    wp_DiscoveryURL := None;
                    wp_Encryption :=
                      match m_Encryption model with
                      | [] => None
                      | _ :: _ => expandEncryption (m_Encryption model)
                      end;
                    wp_FriendlyName :=
                      if negb (String.eqb (m_FriendlyName model) "")
                      then Some (m_FriendlyName model) else None;
                    wp_HbiWorkspace :=
                      if m_HighBusinessImpactEnabled model
                      then Some (m_HighBusinessImpactEnabled model) else None;
                    wp_KeyVault := Some keyVaultId;
                    wp_ManagedNetwork :=
                      match m_ManagedNetwork model with
                      | [] => None
                      | _ :: _ => expandManagedNetwork (m_ManagedNetwork model)
                      end;
                    wp_PrimaryUserAssignedIdentity := primaryUserAssignedIdentity;
                    wp_PublicNetworkAccess := Some (m_PublicNetworkAccess model);
                    wp_StorageAccount := Some storageAccountId;
                    wp_WorkspaceId := None |};
          ws_Tags := tags_Expand env (m_Tags model) |})))))).

(** Lines 235-340. *)
Definition Create (cloud : Type) (env : Env cloud)
  (d : ResourceData) (w : World cloud) : outcome cloud :=
  match Decode env d with
  | inr e => Some (Some (Errorf "decoding %+v" [AErr (Some e)]), d, w)
  | inl model =>
      let id := NewWorkspaceID (Account_SubscriptionId env)
                  (m_ResourceGroupName model) (m_Name model) in
      let (existing, err) := client_Get (client env) (w_cloud w) id in
      let w := emit (EvGet (WorkspaceId_ID env id)) w in
      let proceed :=
        if negb (response_WasNotFound (get_HttpResponse existing))
        then Some (Some (tf_ImportAsExistsError "azurerm_ai_foundry"
                           (WorkspaceId_ID env id)), d, w)
        else
          match create_payload env d model id with
          | None => None
          | Some (inr e) => Some (Some e, d, w)
          | Some (inl payload) =>
              let (c, err) :=
                client_CreateOrUpdateThenPoll (client env) (w_cloud w) id payload in
              let w := emit (EvCreateOrUpdate (WorkspaceId_ID env id))
                         (with_cloud c w) in
              match err with
              | Some e =>
                  Some (Some (Errorf "creating %s: %+v"
                                [AStr (WorkspaceId_String env id); AErr (Some e)]),
                        d, w)
              | None => Some (None, d_SetId d (WorkspaceId_ID env id), w)
              end
          end in
      match err with
      | Some e =>
          if negb (response_WasNotFound (get_HttpResponse existing))
          then Some (Some (Errorf "checking for presence of existing %s: %+v"
                             [AStr (WorkspaceId_String env id); AErr (Some e)]),
                     d, w)
          else proceed
      | None => proceed
      end
  end.

(** Lines 613-622. *)
Definition flattenManagedNetwork (input : option ManagedNetworkSettings)
  : list ManagedNetwork :=
  match input with
  | None => []
  | Some n => [{| IsolationMode := pointer_From_string (mns_IsolationMode n) |}]
  end.

(** Lines 571-603. *)
Definition flattenEncryption (cloud : Type) (env : Env cloud)
  (input : option EncryptionProperty) : list Encryption + error :=
  match input with
  | None => inl []
  | Some p =>
      if negb (String.eqb (enc_Status p) EncryptionStatusEnabled) then inl []
      else
        let parse_if (cond : bool) (parse : string -> string + error) (v : string)
          : string + error :=
          if cond then parse v else inl "" in
        let armId := ekv_KeyVaultArmId (enc_KeyVaultProperties p) in
        let keyIdentifier := ekv_KeyIdentifier (enc_KeyVaultProperties p) in
        match parse_if (negb (String.eqb armId "")) (ParseKeyVaultID env) armId with
        | inr e => inr e
        | inl keyVaultID =>
            match parse_if (negb (String.eqb keyIdentifier ""))
                    (ParseNestedItemID env) keyIdentifier with
            | inr e => inr e
            | inl keyID =>
                let userAssigned :=
                  match enc_Identity p with
                  | Some i => cmk_UserAssignedIdentity i
                  | None => None
                  end in
                match userAssigned with
                | Some v =>
                    match ParseUserAssignedIdentityIDInsensitively env v with
                    | inr e => inr e
                    | inl identityClientID =>
                        inl [{| IdentityClientID := identityClientID;
                                KeyVaultID := keyVaultID;
                                KeyID := keyID |}]
                    end
                | None =>
                    inl [{| IdentityClientID := "";
                            KeyVaultID := keyVaultID;
                            KeyID := keyID |}]
                end
            end
        end
  end.

(** Lines 451-520: the model read from the response. *)
Definition read_model (cloud : Type) (env : Env cloud) (id : WorkspaceId)
  (resp : GetOperationResponse) : step AIFoundryModel :=
  let hub (location : string) (identity : list iface) (tags : list (string * iface))
          (applicationInsightsId containerRegistryId storageAccountId keyVaultId
           description friendlyName : string) (hbi : bool)
          (publicNetworkAccess discoveryUrl workspaceId : string)
          (managedNetwork : list ManagedNetwork)
          (primaryUserAssignedIdentity : string) (encryption : list Encryption) :=
    {| m_Name := WorkspaceName id;
       m_Location := location;
       m_ResourceGroupName := ResourceGroupName id;
       m_ApplicationInsightsId := applicationInsightsId;
       m_StorageAccountId := storageAccountId;
       m_KeyVaultId := keyVaultId;
       m_ContainerRegistryId := containerRegistryId;
       m_Encryption := encryption;
       m_ManagedNetwork := managedNetwork;
       m_PublicNetworkAccess := publicNetworkAccess;
       m_Identity := identity;
       m_PrimaryUserAssignedIdentity := primaryUserAssignedIdentity;
       m_HighBusinessImpactEnabled := hbi;
       m_Description := description;
       m_FriendlyName := friendlyName;
       m_DiscoveryUrl := discoveryUrl;
       m_WorkspaceId := workspaceId;
       m_Tags := tags |} in
  let parse_nonempty_string (parse : string -> string + error) (p : option string)
    : step string :=
    let v := pointer_From_string p in
    if negb (String.eqb v "") then lift (parse v) else pure "" in
  match get_Model resp with
  | None => pure (hub "" [] [] "" "" "" "" "" "" false "" "" "" [] "" [])
  | Some model =>
      let location := location_NormalizeNilable env (ws_Location model) in
      bindS (match FlattenLegacySystemAndUserAssignedMapToModel env (ws_Identity model) with
             | inl i => pure i
             | inr e => Some (inr (Errorf "flattening `identity`: %+v" [AErr (Some e)]))
             end) (fun flattenedIdentity =>
      let tags := tags_Flatten env (ws_Tags model) in
      match ws_Properties model with
      | None =>
          pure (hub location flattenedIdentity tags "" "" "" "" "" "" false "" "" ""
                    [] "" [])
      | Some props =>
          bindS (parse_nonempty_string (ParseComponentIDInsensitively env)
                   (wp_ApplicationInsights props)) (fun applicationInsightsId =>
          bindS (parse_nonempty_string (ParseRegistryID env)
                   (wp_ContainerRegistry props)) (fun containerRegistryId =>
          bindS (match wp_StorageAccount props with
                 | None => None
                 | Some v => lift (ParseStorageAccountID env v)
                 end) (fun storageAccountId =>
          bindS (match wp_KeyVault props with
                 | None => pure ""
                 | Some v => lift (ParseKeyVaultID env v)
                 end) (fun keyVaultId =>
          bindS (match wp_PublicNetworkAccess props with
                 | None => None
                 | Some v => pure v
                 end) (fun publicNetworkAccess =>
          bindS (parse_nonempty_string (ParseUserAssignedIdentityID env)
                   (wp_PrimaryUserAssignedIdentity props))
            (fun primaryUserAssignedIdentity =>
          bindS (match flattenEncryption env (wp_Encryption props) with
                 | inl e => pure e
                 | inr e =>
                     Some (inr (Errorf "flattening `encryption`: %+v" [AErr (Some e)]))
                 end) (fun encryption =>
          pure (hub location flattenedIdentity tags applicationInsightsId
                    containerRegistryId storageAccountId keyVaultId
                    (pointer_From_string (wp_Description props))
                    (pointer_From_string (wp_FriendlyName props))
                    (match wp_HbiWorkspace props with Some b => b | None => false end)
                    publicNetworkAccess
                    (pointer_From_string (wp_DiscoveryURL props))
                    (pointer_From_string (wp_WorkspaceId props))
                    (flattenManagedNetwork (wp_ManagedNetwork props))
                    primaryUserAssignedIdentity encryption))))))))
      end)
  end.

(** Lines 432-525. *)
Definition Read (cloud : Type) (env : Env cloud)
  (d : ResourceData) (w : World cloud) : outcome cloud :=
  match ParseWorkspaceID env (d_Id d) with
  | inr err => Some (Some err, d, w)
  | inl id =>
      let (resp, err) := client_Get (client env) (w_cloud w) id in
      let w := emit (EvGet (WorkspaceId_ID env id)) w in
      match err with
      | Some e =>
          if response_WasNotFound (get_HttpResponse resp)
          then let (r, d') := MarkAsGone d in Some (r, d', w)
          else Some (Some (Errorf "retrieving %s: %+v"
                             [AStr (WorkspaceId_String env id); AErr (Some e)]),
                     d, w)
      | None =>
          match read_model env id resp with
          | None => None
          | Some (inr e) => Some (Some e, d, w)
          | Some (inl hub) =>
              let (d', r) := Encode env d hub in Some (r, d', w)
          end
      end
  end.

End machinelearning.

(** ** azurerm_log_analytics_cluster_customer_managed_key *)

(** The SDK package [clusters] (operationalinsights 2022-10-01). *)
Module clusters.

Record ClusterId : Type := {
  SubscriptionId : string;
  ResourceGroupName : string;
  ClusterName : string
}.

Record KeyVaultProperties : Type := {
  KeyName : option string;
  KeyVaultUri : option string;
  KeyVersion : option string
}.

Record ClusterProperties : Type := {
  AssociatedWorkspaces : option (list iface);
  cp_KeyVaultProperties : option KeyVaultProperties
}.

Record Cluster : Type := {
  Properties : option ClusterProperties
}.

Record GetOperationResponse : Type := {
  get_HttpResponse : option HttpResponse;
  get_Model : option Cluster
}.

Record ClustersClient (cloud : Type) : Type := {
  client_Get : cloud -> ClusterId -> GetOperationResponse * option error;
  client_CreateOrUpdateThenPoll : cloud -> ClusterId -> Cluster ->
                                  cloud * option error
}.

End clusters.

Module locks.

(** Modelled from the spec: [locks.ByID] of internal/locks, which takes
    the advisory lock of a name. *)
Definition ByID {cloud : Type} (id : string) (w : World cloud) : World cloud :=
  emit (EvLock id) w.

(** Modelled from the spec: [locks.UnlockByID] of internal/locks, which
    releases the advisory lock of a name. *)
Definition UnlockByID {cloud : Type} (id : string) (w : World cloud)
  : World cloud :=
  emit (EvUnlock id) w.

End locks.

Module loganalytics.

Import clusters.

(** A parsed key vault key ID ([keyVaultParse.NestedItemId]). *)
Record NestedItemId : Type := {
  KeyVaultBaseUrl : string;
  Name : string;
  Version : string
}.

(** What the resource file takes from other packages: the ID parsers and
    printers, the wait for the cluster's state of the same package, and
    the generated client. *)
Record Env (cloud : Type) : Type := {
  ParseClusterID : string -> ClusterId + error;
  ClusterId_ID : ClusterId -> string;
  ClusterId_String : ClusterId -> string;
  ParseOptionallyVersionedNestedItemID : string -> NestedItemId + error;
  NewNestedItemID : string -> string -> string -> NestedItemId + error;
  NestedItemId_ID : NestedItemId -> string;
  logAnalyticsClusterWaitForState : ClusterId -> option error;
  WaitForStateContext : cloud -> ClusterId -> cloud * option error;
  client : ClustersClient cloud
}.

Arguments ParseClusterID {cloud}.
Arguments ClusterId_ID {cloud}.
Arguments ClusterId_String {cloud}.
Arguments ParseOptionallyVersionedNestedItemID {cloud}.
Arguments NewNestedItemID {cloud}.
Arguments NestedItemId_ID {cloud}.
Arguments logAnalyticsClusterWaitForState {cloud}.
Arguments WaitForStateContext {cloud}.
Arguments client {cloud}.

Definition outcome (cloud : Type) : Type :=
  option (option error * ResourceData * World cloud).

(** Both fields of the schema (lines 48-61) are of TypeString. *)
Definition schema_zero (k : string) : iface :=
  if existsb (String.eqb k) ["log_analytics_cluster_id"; "key_vault_key_id"]
  then IStr "" else INil.

Definition Get := d_Get schema_zero.

(** [defer f]: [f] runs when the function returns. *)
Definition defer {cloud : Type} (f : World cloud -> World cloud)
  (body : outcome cloud) : outcome cloud :=
  match body with
  | Some (r, d, w) => Some (r, d, f w)
  | None => None
  end.

(** Lines 189-238. *)
Definition resourceLogAnalyticsClusterCustomerManagedKeyRead
  (cloud : Type) (env : Env cloud) (d : ResourceData) (w : World cloud)
  : outcome cloud :=
  match ParseClusterID env (d_Id d) with
  | inr err => Some (Some err, d, w)
  | inl id =>
      let (resp, err) := client_Get (client env) (w_cloud w) id in
      let w := emit (EvGet (ClusterId_ID env id)) w in
      match err with
      | Some e =>
          if response_WasNotFound (get_HttpResponse resp)
          then Some (None, d_SetId d "", w)
          else Some (Some (Errorf "retrieving %s: %+v"
                             [AStr (ClusterId_String env id); AErr (Some e)]), d, w)
      | None =>
          let kvProps :=
            match get_Model resp with
            | Some model =>
                match Properties model with
                | Some props => cp_KeyVaultProperties props
                | None => None
                end
            | None => None
            end in
          let keyVaultKeyId : string + error :=
            match kvProps with
            | Some kvProps =>
                let keyVaultUri := pointer_From_string (KeyVaultUri kvProps) in
                let keyName := pointer_From_string (KeyName kvProps) in
                let keyVersion := pointer_From_string (KeyVersion kvProps) in
                if negb (String.eqb keyVaultUri "") && negb (String.eqb keyName "")
                then match NewNestedItemID env keyVaultUri keyName keyVersion with
                     | inr err => inr err
                     | inl keyId => inl (NestedItemId_ID env keyId)
                     end
                else inl ""
            | None => inl ""
            end in
          match keyVaultKeyId with
          | inr err => Some (Some err, d, w)
          | inl keyVaultKeyId =>
              if String.eqb keyVaultKeyId ""
              then Some (None, d_SetId d "", w)
              else
                let d := d_Set d "log_analytics_cluster_id" (IStr (d_Id d)) in
                let d := d_Set d "key_vault_key_id" (IStr keyVaultKeyId) in
                Some (None, d, w)
          end
      end
  end.

(** The cluster sent back: the associated workspaces removed, the key
    vault properties replaced. *)
Definition with_key (props : ClusterProperties) (kv : KeyVaultProperties)
  : Cluster :=
  {| Properties := Some {| AssociatedWorkspaces := None;
                           cp_KeyVaultProperties := Some kv |} |}.

(** Lines 78-134, run while the lock is held. *)
Definition create_locked (cloud : Type) (env : Env cloud) (d : ResourceData)
  (w : World cloud) (id : ClusterId) : outcome cloud :=
  let (resp, err) := client_Get (client env) (w_cloud w) id in
  let w := emit (EvGet (ClusterId_ID env id)) w in
  match err with
  | Some e =>
      if response_WasNotFound (get_HttpResponse resp)
      then Some (Some (Errorf "%s was not found" [AStr (ClusterId_String env id)]),
                 d, w)
      else Some (Some (Errorf "retrieving %s: %+v"
                         [AStr (ClusterId_String env id); AErr (Some e)]), d, w)
  | None =>
      match get_Model resp with
      | None =>
          Some (Some (Errorf
            "retrieving `azurerm_log_analytics_cluster` %s: `model` is nil"
            [AStr (ClusterId_String env id)]), d, w)
      | Some model =>
          match Properties model with
          | None =>
              Some (Some (Errorf
                "retrieving `azurerm_log_analytics_cluster` %s: `Properties` is nil"
                [AStr (ClusterId_String env id)]), d, w)
          | Some props =>
              let exists_already :=
                match cp_KeyVaultProperties props with
                | Some keyProps =>
                    match KeyName keyProps with
                    | Some keyName => negb (String.eqb keyName "")
                    | None => false
                    end
                | None => false
                end in
              if exists_already
              then Some (Some (tf_ImportAsExistsError
                                 "azurerm_log_analytics_cluster_customer_managed_key"
                                 (ClusterId_ID env id)), d, w)
              else
                raw <- as_string (Get d "key_vault_key_id") ;;
                match ParseOptionallyVersionedNestedItemID env raw with
                | inr err =>
                    Some (Some (Errorf "parsing Key Vault Key ID: %+v"
                                  [AErr (Some err)]), d, w)
                | inl keyId =>
                    let payload :=
                      with_key props
                        {| KeyName := Some (Name keyId);
                           KeyVaultUri := Some (KeyVaultBaseUrl keyId);
                           KeyVersion := Some (Version keyId) |} in
                    let (c, err) :=
                      client_CreateOrUpdateThenPoll (client env) (w_cloud w) id
                        payload in
                    let w := emit (EvCreateOrUpdate (ClusterId_ID env id))
                               (with_cloud c w) in
                    match err with
                    | Some e =>
                        Some (Some (Errorf
                          "creating Customer Managed Key for %s: %+v"
                          [AStr (ClusterId_String env id); AErr (Some e)]), d, w)
                    | None =>
                        match logAnalyticsClusterWaitForState env id with
                        | Some err => Some (Some err, d, w)
                        | None =>
                            let (c, err) := WaitForStateContext env (w_cloud w) id in
                            let w := emit (EvWait (ClusterId_ID env id))
                                       (with_cloud c w) in
                            match err with
                            | Some e =>
                                Some (Some (Errorf
                                  "waiting for %s to finish adding Customer Managed Key: %+v"
                                  [AStr (ClusterId_String env id); AErr (Some e)]),
                                  d, w)
                            | None =>
                                let d := d_SetId d (ClusterId_ID env id) in
                                resourceLogAnalyticsClusterCustomerManagedKeyRead
                                  env d w
                            end
                        end
                    end
                end
          end
      end
  end.

(** Lines 65-135. *)
Definition resourceLogAnalyticsClusterCustomerManagedKeyCreate
  (cloud : Type) (env : Env cloud) (d : ResourceData) (w : World cloud)
  : outcome cloud :=
  raw <- as_string (Get d "log_analytics_cluster_id") ;;
  match ParseClusterID env raw with
  | inr err => Some (Some err, d, w)
  | inl id =>
      let w := locks.ByID (ClusterId_ID env id) w in
      defer (locks.UnlockByID (ClusterId_ID env id)) (create_locked env d w id)
  end.

(** Lines 150-186, run while the lock is held. *)
Definition update_locked (cloud : Type) (env : Env cloud) (d : ResourceData)
  (w : World cloud) (id : ClusterId) : outcome cloud :=
  raw <- as_string (Get d "key_vault_key_id") ;;
  match ParseOptionallyVersionedNestedItemID env raw with
  | inr err =>
      Some (Some (Errorf "parsing Key Vault Key ID: %+v" [AErr (Some err)]), d, w)
  | inl keyId =>
      let (resp, err) := client_Get (client env) (w_cloud w) id in
      let w := emit (EvGet (ClusterId_ID env id)) w in
      match err with
      | Some e =>
          if response_WasNotFound (get_HttpResponse resp)
          then Some (Some (Errorf "%s was not found"
                             [AStr (ClusterId_String env id)]), d, w)
          else Some (Some (Errorf "retrieving %s: %+v"
                             [AStr (ClusterId_String env id); AErr (Some e)]), d, w)
      | None =>
          match get_Model resp with
          | None =>
              Some (Some (Errorf
                "retrieving `azurerm_log_analytics_cluster` %s: `model` is nil"
                [AStr (ClusterId_String env id)]), d, w)
          | Some model =>
              match Properties model with
              | None =>
                  Some (Some (Errorf
                    "retrieving `azurerm_log_analytics_cluster` %s: `Properties` is nil"
                    [AStr (ClusterId_String env id)]), d, w)
              | Some props =>
                  let payload :=
                    with_key props
                      {| KeyName := Some (Name keyId);
                         KeyVaultUri := Some (KeyVaultBaseUrl keyId);
                         KeyVersion := Some (Version keyId) |} in
                  let (c, err) :=
                    client_CreateOrUpdateThenPoll (client env) (w_cloud w) id
                      payload in
                  let w := emit (EvCreateOrUpdate (ClusterId_ID env id))
                             (with_cloud c w) in
                  match err with
                  | Some e =>
                      Some (Some (Errorf
                        "updating Customer Managed Key for %s: %+v"
                        [AStr (ClusterId_String env id); AErr (Some e)]), d, w)
                  | None =>
                      resourceLogAnalyticsClusterCustomerManagedKeyRead env d w
                  end
              end
          end
      end
  end.

(** Lines 137-187. *)
Definition resourceLogAnalyticsClusterCustomerManagedKeyUpdate
  (cloud : Type) (env : Env cloud) (d : ResourceData) (w : World cloud)
  : outcome cloud :=
  match ParseClusterID env (d_Id d) with
  | inr err => Some (Some err, d, w)
  | inl id =>
      let w := locks.ByID (ClusterId_ID env id) w in
      defer (locks.UnlockByID (ClusterId_ID env id)) (update_locked env d w id)
  end.

(** Lines 253-294, run while the lock is held. *)
Definition delete_locked (cloud : Type) (env : Env cloud) (d : ResourceData)
  (w : World cloud) (id : ClusterId) : outcome cloud :=
  let (resp, err) := client_Get (client env) (w_cloud w) id in
  let w := emit (EvGet (ClusterId_ID env id)) w in
  match err with
  | Some e =>
      if response_WasNotFound (get_HttpResponse resp)
      then Some (Some (Errorf "%s was not found" [AStr (ClusterId_String env id)]),
                 d, w)
      else Some (Some (Errorf "retrieving %s: %+v"
                         [AStr (ClusterId_String env id); AErr (Some e)]), d, w)
  | None =>
      match get_Model resp with
      | None =>
          Some (Some (Errorf
            "retrieving `azurerm_log_analytics_cluster` %s: `model` is nil"
            [AStr (ClusterId_String env id)]), d, w)
      | Some model =>
          match Properties model with
          | None =>
              Some (Some (Errorf
                "retrieving `azurerm_log_analytics_cluster` %s: `Properties` is nil"
                [AStr (ClusterId_String env id)]), d, w)
          | Some props =>
              let missing :=
                Some (Some (Errorf
                  "deleting `azurerm_log_analytics_cluster_customer_managed_key` %s: `customer managed key does not exist!`"
                  [AStr (ClusterId_String env id)]), d, w) in
              match cp_KeyVaultProperties props with
              | None => missing
              | Some keyProps =>
                  let absent :=
                    match KeyName keyProps with
                    | None => true
                    | Some keyName => String.eqb keyName ""
                    end in
                  if absent then missing
                  else
                    let payload :=
                      with_key props
                        {| KeyName := Some "";
                           KeyVaultUri := Some "";
                           KeyVersion := Some "" |} in
                    let (c, err) :=
                      client_CreateOrUpdateThenPoll (client env) (w_cloud w) id
                        payload in
                    let w := emit (EvCreateOrUpdate (ClusterId_ID env id))
                               (with_cloud c w) in
                    match err with
                    | Some e =>
                        Some (Some (Errorf
                          "deleting Customer Managed Key from %s: %+v"
                          [AStr (ClusterId_String env id); AErr (Some e)]), d, w)
                    | None => Some (None, d, w)
                    end
              end
          end
      end
  end.

(** Lines 240-295. *)
Definition resourceLogAnalyticsClusterCustomerManagedKeyDelete
  (cloud : Type) (env : Env cloud) (d : ResourceData) (w : World cloud)
  : outcome cloud :=
  match ParseClusterID env (d_Id d) with
  | inr err => Some (Some err, d, w)
  | inl id =>
      let w := locks.ByID (ClusterId_ID env id) w in
      defer (locks.UnlockByID (ClusterId_ID env id)) (delete_locked env d w id)
  end.

End loganalytics.

(** ** Vocabulary of the properties *)

(** The function table of a resource ([pluginsdk.Resource]). *)
Record Resource (cloud : Type) : Type := {
  Create : ResourceData -> World cloud ->
           option (option error * ResourceData * World cloud);
  Read : ResourceData -> World cloud ->
         option (option error * ResourceData * World cloud);
  Update : ResourceData -> World cloud ->
           option (option error * ResourceData * World cloud);
  Delete : ResourceData -> World cloud ->
           option (option error * ResourceData * World cloud)
}.

(** Lines 24-29 of the customer managed key resource. *)
Definition resourceLogAnalyticsClusterCustomerManagedKey (cloud : Type)
  (env : loganalytics.Env cloud) : Resource cloud :=
  {| Create := loganalytics.resourceLogAnalyticsClusterCustomerManagedKeyCreate env;
     Read := loganalytics.resourceLogAnalyticsClusterCustomerManagedKeyRead env;
     Update := loganalytics.resourceLogAnalyticsClusterCustomerManagedKeyUpdate env;
     Delete := loganalytics.resourceLogAnalyticsClusterCustomerManagedKeyDelete env |}.

(** Lines 30-35 of the integration runtime resource. *)
Definition resourceDataFactoryIntegrationRuntimeAzureSsis (cloud : Type)
  (env : datafactory.Env cloud) : Resource cloud :=
  {| Create := datafactory.resourceDataFactoryIntegrationRuntimeAzureSsisCreateUpdate env;
     Read := datafactory.resourceDataFactoryIntegrationRuntimeAzureSsisRead env;
     Update := datafactory.resourceDataFactoryIntegrationRuntimeAzureSsisCreateUpdate env;
     Delete := datafactory.resourceDataFactoryIntegrationRuntimeAzureSsisDelete env |}.

(** The mutations of a resource. *)
Definition mutations (cloud : Type) (r : Resource cloud) :=
  [Create r; Update r; Delete r].





Definition is_CreateOrUpdate (e : Event) : bool :=
  match e with
  | EvCreateOrUpdate _ => true
  | _ => false
  end.

(** A string without a line feed. *)
Definition no_newline (s : string) : Prop :=
  forallb regexp.any_not_nl (list_ascii_of_string s) = true.

(** Two dashes in a row. *)
Fixpoint has_consecutive_dashes (s : string) : bool :=
  match s with
  | String a ((String b _) as rest) =>
      (Ascii.eqb a "-" && Ascii.eqb b "-") || has_consecutive_dashes rest
  | _ => false
  end.

(** The field [k] of every block of a list. *)
Definition field_of_each (v : iface) (k : string) : list iface :=
  match v with
  | IList l => map (fun x => read_at x [Key k]) l
  | _ => []
  end.

(** The sensitive fields of the integration runtime, as stored in the
    resource data: the catalog administrator password, the SAS token of
    the setup script, the license of each component and the password of
    each command key. *)
Definition sensitive_fields (d : ResourceData)
  : iface * iface * list iface * list iface :=
  (read_at (datafactory.Get d "catalog_info") [Index 0; Key "administrator_password"],
   read_at (datafactory.Get d "custom_setup_script") [Index 0; Key "sas_token"],
   field_of_each
     (read_at (datafactory.Get d "express_custom_setup") [Index 0; Key "component"])
     "license",
   field_of_each
     (read_at (datafactory.Get d "express_custom_setup") [Index 0; Key "command_key"])
     "password").

Definition is_some {A : Type} (o : option A) : bool :=
  match o with Some _ => true | None => false end.





(** [r+] over a character class, written out: the longest run first,
    then shorter ones, until the rest of the pattern matches. *)
Fixpoint plus_class (p : ascii -> bool) (pos : nat) (s : list ascii)
  (c : regexp.caps) (k : regexp.cont) : option regexp.caps :=
  match s with
  | [] => None
  | x :: s' =>
      if p x then
        match plus_class p (S pos) s' c k with
        | Some r => Some r
        | None => k (S pos) s' c
        end
      else None
  end.

(** The rest of [s] after the prefix [l], when [s] starts with [l]. *)
Fixpoint strip_prefix (l s : list ascii) : option (list ascii) :=
  match l, s with
  | [], _ => Some s
  | a :: l', x :: s' => if Ascii.eqb x a then strip_prefix l' s' else None
  | _ :: _, [] => None
  end.

(** What follows the group of the elastic pool pattern: the closing
    double quote and parenthesis at the end of the text; the match then
    spans the text and the group starts after the 19 bytes before it. *)
Definition elastic_pool_tail : regexp.cont :=
  fun pos s c =>
    match s with
    | [a; b] =>
        if Ascii.eqb a datafactory.dquote && Ascii.eqb b ")"
        then Some (regexp.cap_set 0 (0, S (S pos)) (regexp.cap_set 1 (19, pos) c))
        else None
    | _ => None
    end.

(** The bytes of the elastic pool format before the name. *)
Definition elastic_pool_prefix : list ascii :=
  list_ascii_of_string "ELASTIC_POOL(name=" ++ [datafactory.dquote].

(** The bytes of the elastic pool format after the name. *)
Definition elastic_pool_suffix : list ascii := [datafactory.dquote; ")"%char].

(** A Create that refuses because the remote entity exists: it returns
    the import-as-exists error for the resource type and ID, leaves the
    resource data and the remote side as they were, and none of the
    events it adds is a CreateOrUpdate call. *)
Definition refuses_as_existing (cloud : Type)
  (run : option (option error * ResourceData * World cloud))
  (d : ResourceData) (w : World cloud) (resourceName id : string) : Prop :=
  exists w' evs,
    run = Some (Some (tf_ImportAsExistsError resourceName id), d, w')
    /\ w_cloud w' = w_cloud w
    /\ w_trace w' = w_trace w ++ evs
    /\ forallb (fun e => negb (is_CreateOrUpdate e)) evs = true.

(** A Read that finds the remote entity gone: no error, the ID emptied,
    the stored values as they were. *)
Definition removes_from_state (cloud : Type)
  (run : option (option error * ResourceData * World cloud))
  (d : ResourceData) : Prop :=
  exists w', run = Some (None, d_SetId d "", w').

(** A Read that returns the Get error [e] with the context of the
    resource ID and leaves the resource data as it was. *)
Definition returns_get_error (cloud : Type)
  (run : option (option error * ResourceData * World cloud))
  (d : ResourceData) (id : string) (e : error) : Prop :=
  exists w',
    run = Some (Some (Errorf "retrieving %s: %+v" [AStr id; AErr (Some e)]), d, w').

(** ** Sample environments *)

(** A remote side without state, whose Get and Delete answer as given
    and whose CreateOrUpdate succeeds. *)
Definition sample_runtime_client
  (get : integrationruntimes.GetOperationResponse * option error)
  (del : integrationruntimes.DeleteOperationResponse * option error)
  : integrationruntimes.IntegrationRuntimesClient unit :=
  {| integrationruntimes.client_Get := fun _ _ => get;
     integrationruntimes.client_CreateOrUpdate := fun _ _ _ => (tt, None);
     integrationruntimes.client_Delete := fun _ _ => (tt, del) |}.

Definition sample_runtime_id : integrationruntimes.IntegrationRuntimeId :=
  integrationruntimes.NewIntegrationRuntimeID "sub" "group" "factory" "runtime".

Definition sample_datafactory_env
  (get : integrationruntimes.GetOperationResponse * option error)
  (del : integrationruntimes.DeleteOperationResponse * option error)
  : datafactory.Env unit :=
  {| datafactory.ParseFactoryID :=
       fun _ => inl (factories.NewFactoryID "sub" "group" "factory");
     datafactory.FactoryId_ID := fun i => factories.FactoryName i;
     datafactory.ParseIntegrationRuntimeID := fun _ => inl sample_runtime_id;
     datafactory.IntegrationRuntimeId_ID :=
       fun i => integrationruntimes.IntegrationRuntimeName i;
     datafactory.IntegrationRuntimeId_String :=
       fun i => integrationruntimes.IntegrationRuntimeName i;
     datafactory.location_Normalize := fun s => s;
     datafactory.location_NormalizeNilable := pointer_From_string;
     datafactory.utils_ExpandStringSlice := fun _ => Some [];
     datafactory.utils_FlattenStringSlice := fun _ => [];
     datafactory.client := sample_runtime_client get del |}.

Definition sample_world : World unit := mkWorld tt [].

Definition found : option HttpResponse := Some {| StatusCode := 200 |}.
Definition not_found : option HttpResponse := Some {| StatusCode := 404 |}.
Definition conflict : option HttpResponse := Some {| StatusCode := 409 |}.

Definition sample_workspace_model : machinelearning.AIFoundryModel :=
  {| machinelearning.m_Name := "hub";
     machinelearning.m_Location := "westeurope";
     machinelearning.m_ResourceGroupName := "group";
     machinelearning.m_ApplicationInsightsId := "";
     machinelearning.m_StorageAccountId := "storage";
     machinelearning.m_KeyVaultId := "vault";
     machinelearning.m_ContainerRegistryId := "";
     machinelearning.m_Encryption := [];
     machinelearning.m_ManagedNetwork := [];
     machinelearning.m_PublicNetworkAccess := "Enabled";
     machinelearning.m_Identity := [];
     machinelearning.m_PrimaryUserAssignedIdentity := "";
     machinelearning.m_HighBusinessImpactEnabled := false;
     machinelearning.m_Description := "";
     machinelearning.m_FriendlyName := "";
     machinelearning.m_DiscoveryUrl := "";
     machinelearning.m_WorkspaceId := "";
     machinelearning.m_Tags := [] |}.

Definition sample_workspace_id : workspaces.WorkspaceId :=
  workspaces.NewWorkspaceID "sub" "group" "hub".

Definition sample_machinelearning_env
  (get : workspaces.GetOperationResponse * option error)
  : machinelearning.Env unit :=
  {| machinelearning.ParseWorkspaceID := fun _ => inl sample_workspace_id;
     machinelearning.WorkspaceId_ID := fun i => workspaces.WorkspaceName i;
     machinelearning.WorkspaceId_String := fun i => workspaces.WorkspaceName i;
     machinelearning.Account_SubscriptionId := "sub";
     machinelearning.Decode := fun _ => inl sample_workspace_model;
     machinelearning.Encode := fun d _ => (d, None);
     machinelearning.ParseStorageAccountID := fun s => inl s;
     machinelearning.ParseKeyVaultID := fun s => inl s;
     machinelearning.ParseComponentID := fun s => inl s;
     machinelearning.ParseComponentIDInsensitively := fun s => inl s;
     machinelearning.ParseRegistryID := fun s => inl s;
     machinelearning.ParseUserAssignedIdentityID := fun s => inl s;
     machinelearning.ParseUserAssignedIdentityIDInsensitively := fun s => inl s;
     machinelearning.ParseNestedItemID := fun s => inl s;
     machinelearning.ExpandLegacySystemAndUserAssignedMap := fun _ => inl None;
     machinelearning.FlattenLegacySystemAndUserAssignedMapToModel := fun _ => inl [];
     machinelearning.tags_Expand := fun _ => None;
     machinelearning.tags_Flatten := fun _ => [];
     machinelearning.location_Normalize := fun s => s;
     machinelearning.location_NormalizeNilable := pointer_From_string;
     machinelearning.client :=
       {| workspaces.client_Get := fun _ _ => get;
          workspaces.client_CreateOrUpdateThenPoll := fun _ _ _ => (tt, None) |} |}.

Definition sample_cluster_id : clusters.ClusterId :=
  {| clusters.SubscriptionId := "sub";
     clusters.ResourceGroupName := "group";
     clusters.ClusterName := "cluster" |}.

Definition sample_loganalytics_env
  (get : clusters.GetOperationResponse * option error)
  : loganalytics.Env unit :=
  {| loganalytics.ParseClusterID := fun _ => inl sample_cluster_id;
     loganalytics.ClusterId_ID := fun i => clusters.ClusterName i;
     loganalytics.ClusterId_String := fun i => clusters.ClusterName i;
     loganalytics.ParseOptionallyVersionedNestedItemID :=
       fun s => inl {| loganalytics.KeyVaultBaseUrl := "vault";
                       loganalytics.Name := s;
                       loganalytics.Version := "" |};
     loganalytics.NewNestedItemID :=
       fun uri name version =>
         inl {| loganalytics.KeyVaultBaseUrl := uri;
                loganalytics.Name := name;
                loganalytics.Version := version |};
     loganalytics.NestedItemId_ID := fun k => loganalytics.Name k;
     loganalytics.logAnalyticsClusterWaitForState := fun _ => None;
     loganalytics.WaitForStateContext := fun _ _ => (tt, None);
     loganalytics.client :=
       {| clusters.client_Get := fun _ _ => get;
          clusters.client_CreateOrUpdateThenPoll := fun _ _ _ => (tt, None) |} |}.

(** A cluster that has the customer managed key [key] of vault [vault]. *)
Definition sample_cluster_with_key (name : string) : clusters.Cluster :=
  {| clusters.Properties :=
       Some {| clusters.AssociatedWorkspaces := None;
               clusters.cp_KeyVaultProperties :=
                 Some {| clusters.KeyName := Some name;
                         clusters.KeyVaultUri := Some "vault";
                         clusters.KeyVersion := Some "" |} |} |}.









(** A response without catalog and setup script, with the given edition
    and express setup. *)
Definition sample_ssis_properties (edition : string)
  (setup : option (list integrationruntimes.CustomSetupBase))
  : integrationruntimes.IntegrationRuntimeSsisProperties :=
  {| integrationruntimes.sp_CatalogInfo := None;
     integrationruntimes.sp_Credential := None;
     integrationruntimes.sp_CustomSetupScriptProperties := None;
     integrationruntimes.sp_DataProxyProperties := None;
     integrationruntimes.sp_Edition := Some edition;
     integrationruntimes.sp_ExpressCustomSetupProperties := setup;
     integrationruntimes.sp_LicenseType := None;
     integrationruntimes.sp_PackageStores := None |}.

(** A prior state whose express setup has the component [A] with the
    license [secret]. *)
Definition sample_prior_state : ResourceData :=
  mkResourceData "runtime" false
    [("express_custom_setup",
      IList [IMap [("environment", IMap []);
                   ("powershell_version", IStr "");
                   ("component",
                    IList [IMap [("name", IStr "A");
                                 ("key_vault_license", IList []);
                                 ("license", IStr "secret")]]);
                   ("command_key", IList [])]])].






(** What a pattern matches: [den r pos s rest] when [r] matches the
    text [s] that starts at offset [pos] and is followed by [rest]. *)
Inductive den : regexp.syntax -> nat -> list ascii -> list ascii -> Prop :=
| den_BeginText rest : den regexp.BeginText 0 [] rest
| den_EndText pos : den regexp.EndText pos [] []
| den_Literal a pos rest : den (regexp.Literal a) pos [a] rest
| den_CharClass (p : ascii -> bool) x pos rest :
    p x = true -> den (regexp.CharClass p) pos [x] rest
| den_Concat r1 r2 pos s1 s2 rest :
    den r1 pos s1 (s2 ++ rest) ->
    den r2 (pos + length s1) s2 rest ->
    den (regexp.Concat r1 r2) pos (s1 ++ s2) rest
| den_Alternate_left r1 r2 pos s rest :
    den r1 pos s rest -> den (regexp.Alternate r1 r2) pos s rest
| den_Alternate_right r1 r2 pos s rest :
    den r2 pos s rest -> den (regexp.Alternate r1 r2) pos s rest
| den_Quest_none r pos rest : den (regexp.Quest r) pos [] rest
| den_Quest_some r pos s rest :
    den r pos s rest -> den (regexp.Quest r) pos s rest
| den_Plus_one r pos s rest :
    den r pos s rest -> den (regexp.Plus r) pos s rest
| den_Plus_more r pos s1 s2 rest :
    den r pos s1 (s2 ++ rest) ->
    den (regexp.Plus r) (pos + length s1) s2 rest ->
    den (regexp.Plus r) pos (s1 ++ s2) rest
| den_Capture i r pos s rest :
    den r pos s rest -> den (regexp.Capture i r) pos s rest.

(** A character of a name: a letter, a digit or a dash. *)
Definition name_char (c : ascii) : bool := regexp.alnum c || Ascii.eqb c "-".

(** ** Blocks of the configuration *)

(** The blocks of the list fields of the integration runtime, as the
    plugin SDK hands them over: a map from each key of the block's schema
    to its value.  A Go map has no order; the keys are listed here in
    the order in which the flatten functions write them. *)
Definition copy_compute_scale_block (dataIntegrationUnit timeToLive : Z) : iface :=
  IMap [("data_integration_unit", IInt dataIntegrationUnit);
        ("time_to_live", IInt timeToLive)].

Definition proxy_block (path selfHosted staging : string) : iface :=
  IMap [("path", IStr path);
        ("self_hosted_integration_runtime_name", IStr selfHosted);
        ("staging_storage_linked_service_name", IStr staging)].

Definition package_store_block (b : string * string) : iface :=
  IMap [("name", IStr (fst b)); ("linked_service_name", IStr (snd b))].

Definition express_vnet_integration_block (subnetId : string) : iface :=
  IMap [("subnet_id", IStr subnetId)].

Definition key_vault_secret_block (linkedService : string)
  (parameters : list (string * iface)) (secretName secretVersion : string)
  : iface :=
  IMap [("linked_service_name", IStr linkedService);
        ("parameters", IMap parameters);
        ("secret_name", IStr secretName);
        ("secret_version", IStr secretVersion)].

Definition catalog_info_block (serverEndpoint pricingTier elasticPoolName
  administratorLogin administratorPassword dualStandbyPairName : string) : iface :=
  IMap [("server_endpoint", IStr serverEndpoint);
        ("pricing_tier", IStr pricingTier);
        ("elastic_pool_name", IStr elasticPoolName);
        ("administrator_login", IStr administratorLogin);
        ("administrator_password", IStr administratorPassword);
        ("dual_standby_pair_name", IStr dualStandbyPairName)].

Definition component_block (name license : string) (keyVaultLicense : list iface)
  : iface :=
  IMap [("name", IStr name);
        ("key_vault_license", IList keyVaultLicense);
        ("license", IStr license)].

(** An environment of the integration runtime whose client answers
    every call with success and nothing else. *)
Definition plain_datafactory_env : datafactory.Env unit :=
  sample_datafactory_env
    ({| integrationruntimes.get_HttpResponse := found;
        integrationruntimes.get_Model := None |}, None)
    ({| integrationruntimes.del_HttpResponse := found |}, None).

Definition custom_setup_script_block (blobContainerUri sasToken : string) : iface :=
  IMap [("blob_container_uri", IStr blobContainerUri);
        ("sas_token", IStr sasToken)].

(** A remote side whose CreateOrUpdate always fails with [e]. *)
Definition refusing_datafactory_env (e : error) : datafactory.Env unit :=
  {| datafactory.ParseFactoryID := datafactory.ParseFactoryID plain_datafactory_env;
     datafactory.FactoryId_ID := datafactory.FactoryId_ID plain_datafactory_env;
     datafactory.ParseIntegrationRuntimeID :=
       datafactory.ParseIntegrationRuntimeID plain_datafactory_env;
     datafactory.IntegrationRuntimeId_ID :=
       datafactory.IntegrationRuntimeId_ID plain_datafactory_env;
     datafactory.IntegrationRuntimeId_String :=
       datafactory.IntegrationRuntimeId_String plain_datafactory_env;
     datafactory.location_Normalize :=
       datafactory.location_Normalize plain_datafactory_env;
     datafactory.location_NormalizeNilable :=
       datafactory.location_NormalizeNilable plain_datafactory_env;
     datafactory.utils_ExpandStringSlice :=
       datafactory.utils_ExpandStringSlice plain_datafactory_env;
     datafactory.utils_FlattenStringSlice :=
       datafactory.utils_FlattenStringSlice plain_datafactory_env;
     datafactory.client :=
       {| integrationruntimes.client_Get :=
            integrationruntimes.client_Get
              (datafactory.client plain_datafactory_env);
          integrationruntimes.client_CreateOrUpdate := fun _ _ _ => (tt, Some e);
          integrationruntimes.client_Delete :=
            integrationruntimes.client_Delete
              (datafactory.client plain_datafactory_env) |} |}.

(** The configuration of an integration runtime with every field of the
    schema at its zero value but the data factory and the name. *)
Definition minimal_runtime_data (isNew : bool) : ResourceData :=
  mkResourceData "" isNew
    [("data_factory_id", IStr "factory"); ("name", IStr "runtime")].

(** A remote side that keeps the integration runtime it was last sent
    and answers a Get with it; before the first write the runtime is
    not found. *)
Definition echo_runtime_client
  : integrationruntimes.IntegrationRuntimesClient
      (option integrationruntimes.IntegrationRuntimeResource) :=
  {| integrationruntimes.client_Get := fun c _ =>
       match c with
       | Some runtime =>
           ({| integrationruntimes.get_HttpResponse := found;
               integrationruntimes.get_Model := Some runtime |}, None)
       | None =>
           ({| integrationruntimes.get_HttpResponse := not_found;
               integrationruntimes.get_Model := None |},
            Some (SdkError "not found"))
       end;
     integrationruntimes.client_CreateOrUpdate := fun _ _ runtime =>
       (Some runtime, None);
     integrationruntimes.client_Delete := fun _ _ =>
       (None, ({| integrationruntimes.del_HttpResponse := found |}, None)) |}.

Definition echo_datafactory_env
  : datafactory.Env (option integrationruntimes.IntegrationRuntimeResource) :=
  {| datafactory.ParseFactoryID := datafactory.ParseFactoryID plain_datafactory_env;
     datafactory.FactoryId_ID := datafactory.FactoryId_ID plain_datafactory_env;
     datafactory.ParseIntegrationRuntimeID :=
       datafactory.ParseIntegrationRuntimeID plain_datafactory_env;
     datafactory.IntegrationRuntimeId_ID :=
       datafactory.IntegrationRuntimeId_ID plain_datafactory_env;
     datafactory.IntegrationRuntimeId_String :=
       datafactory.IntegrationRuntimeId_String plain_datafactory_env;
     datafactory.location_Normalize :=
       datafactory.location_Normalize plain_datafactory_env;
     datafactory.location_NormalizeNilable :=
       datafactory.location_NormalizeNilable plain_datafactory_env;
     datafactory.utils_ExpandStringSlice :=
       datafactory.utils_ExpandStringSlice plain_datafactory_env;
     datafactory.utils_FlattenStringSlice :=
       datafactory.utils_FlattenStringSlice plain_datafactory_env;
     datafactory.client := echo_runtime_client |}.

(** A new integration runtime with a proxy and two package stores. *)
Definition proxied_runtime_data : ResourceData :=
  mkResourceData "" true
    [("data_factory_id", IStr "factory"); ("name", IStr "runtime");
     ("proxy", IList [proxy_block "" "host" "staging"]);
     ("package_store",
      IList (map package_store_block [("one", "first"); ("two", "second")]))].

(** ** Customer managed key of a cluster *)

(** The environment [env] with another CreateOrUpdateThenPoll. *)
Definition with_CreateOrUpdateThenPoll {cloud : Type}
  (env : loganalytics.Env cloud)
  (f : cloud -> clusters.ClusterId -> clusters.Cluster -> cloud * option error)
  : loganalytics.Env cloud :=
  {| loganalytics.ParseClusterID := loganalytics.ParseClusterID env;
     loganalytics.ClusterId_ID := loganalytics.ClusterId_ID env;
     loganalytics.ClusterId_String := loganalytics.ClusterId_String env;
     loganalytics.ParseOptionallyVersionedNestedItemID :=
       loganalytics.ParseOptionallyVersionedNestedItemID env;
     loganalytics.NewNestedItemID := loganalytics.NewNestedItemID env;
     loganalytics.NestedItemId_ID := loganalytics.NestedItemId_ID env;
     loganalytics.logAnalyticsClusterWaitForState :=
       loganalytics.logAnalyticsClusterWaitForState env;
     loganalytics.WaitForStateContext := loganalytics.WaitForStateContext env;
     loganalytics.client :=
       {| clusters.client_Get := clusters.client_Get (loganalytics.client env);
          clusters.client_CreateOrUpdateThenPoll := f |} |}.

(** A request that carries the read only associated workspaces. *)
Definition sets_associated_workspaces (c : clusters.Cluster) : bool :=
  match clusters.Properties c with
  | Some props => is_some (clusters.AssociatedWorkspaces props)
  | None => false
  end.

(** The key vault properties of a request. *)
Definition sent_key (c : clusters.Cluster) : option clusters.KeyVaultProperties :=
  match clusters.Properties c with
  | Some props => clusters.cp_KeyVaultProperties props
  | None => None
  end.

(** The key vault properties that remove the key: three empty strings. *)
Definition no_key : clusters.KeyVaultProperties :=
  {| clusters.KeyName := Some "";
     clusters.KeyVaultUri := Some "";
     clusters.KeyVersion := Some "" |}.

(** A cluster with two associated workspaces and the key [name]. *)
Definition sample_cluster_with_workspaces (name : string) : clusters.Cluster :=
  {| clusters.Properties :=
       Some {| clusters.AssociatedWorkspaces :=
                 Some [IStr "workspace-1"; IStr "workspace-2"];
               clusters.cp_KeyVaultProperties :=
                 Some {| clusters.KeyName := Some name;
                         clusters.KeyVaultUri := Some "vault";
                         clusters.KeyVersion := Some "" |} |} |}.

(** A CreateOrUpdateThenPoll that refuses a request with associated
    workspaces, as the service does, and succeeds otherwise. *)
Definition strict_CreateOrUpdateThenPoll (c : unit) (id : clusters.ClusterId)
  (payload : clusters.Cluster) : unit * option error :=
  if sets_associated_workspaces payload
  then (c, Some (SdkError "'properties.associatedWorkspaces' is a read only property"))
  else (c, None).

(** A remote side that keeps the cluster it was last sent and answers a
    Get with it. *)
Definition echo_loganalytics_env : loganalytics.Env clusters.Cluster :=
  {| loganalytics.ParseClusterID := fun _ => inl sample_cluster_id;
     loganalytics.ClusterId_ID := fun i => clusters.ClusterName i;
     loganalytics.ClusterId_String := fun i => clusters.ClusterName i;
     loganalytics.ParseOptionallyVersionedNestedItemID :=
       fun s => inl {| loganalytics.KeyVaultBaseUrl := "vault";
                       loganalytics.Name := s;
                       loganalytics.Version := "" |};
     loganalytics.NewNestedItemID :=
       fun uri name version =>
         inl {| loganalytics.KeyVaultBaseUrl := uri;
                loganalytics.Name := name;
                loganalytics.Version := version |};
     loganalytics.NestedItemId_ID := fun k => loganalytics.Name k;
     loganalytics.logAnalyticsClusterWaitForState := fun _ => None;
     loganalytics.WaitForStateContext := fun c _ => (c, None);
     loganalytics.client :=
       {| clusters.client_Get := fun c _ =>
            ({| clusters.get_HttpResponse := found;
                clusters.get_Model := Some c |}, None);
          clusters.client_CreateOrUpdateThenPoll := fun _ _ payload =>
            (payload, None) |} |}.

(** The configuration of a customer managed key. *)
Definition customer_managed_key_data (id : string) (key : string)
  : ResourceData :=
  mkResourceData id (String.eqb id "")
    [("log_analytics_cluster_id", IStr "cluster"); ("key_vault_key_id", IStr key)].

(** A cluster without a customer managed key. *)
Definition sample_cluster_without_key : clusters.Cluster :=
  {| clusters.Properties :=
       Some {| clusters.AssociatedWorkspaces := Some [IStr "workspace-1"];
               clusters.cp_KeyVaultProperties := None |} |}.

(** ** AI Foundry hub *)

(** A remote side that keeps the workspace it was last sent and answers
    a Get with it; before the first write the workspace is not found. *)
Definition echo_machinelearning_env
  : machinelearning.Env (option workspaces.Workspace) :=
  let base := sample_machinelearning_env
                ({| workspaces.get_HttpResponse := not_found;
                    workspaces.get_Model := None |}, None) in
  {| machinelearning.ParseWorkspaceID := machinelearning.ParseWorkspaceID base;
     machinelearning.WorkspaceId_ID := machinelearning.WorkspaceId_ID base;
     machinelearning.WorkspaceId_String := machinelearning.WorkspaceId_String base;
     machinelearning.Account_SubscriptionId :=
       machinelearning.Account_SubscriptionId base;
     machinelearning.Decode := machinelearning.Decode base;
     machinelearning.Encode := machinelearning.Encode base;
     machinelearning.ParseStorageAccountID :=
       machinelearning.ParseStorageAccountID base;
     machinelearning.ParseKeyVaultID := machinelearning.ParseKeyVaultID base;
     machinelearning.ParseComponentID := machinelearning.ParseComponentID base;
     machinelearning.ParseComponentIDInsensitively :=
       machinelearning.ParseComponentIDInsensitively base;
     machinelearning.ParseRegistryID := machinelearning.ParseRegistryID base;
     machinelearning.ParseUserAssignedIdentityID :=
       machinelearning.ParseUserAssignedIdentityID base;
     machinelearning.ParseUserAssignedIdentityIDInsensitively :=
       machinelearning.ParseUserAssignedIdentityIDInsensitively base;
     machinelearning.ParseNestedItemID := machinelearning.ParseNestedItemID base;
     machinelearning.ExpandLegacySystemAndUserAssignedMap :=
       machinelearning.ExpandLegacySystemAndUserAssignedMap base;
     machinelearning.FlattenLegacySystemAndUserAssignedMapToModel :=
       machinelearning.FlattenLegacySystemAndUserAssignedMapToModel base;
     machinelearning.tags_Expand := machinelearning.tags_Expand base;
     machinelearning.tags_Flatten := machinelearning.tags_Flatten base;
     machinelearning.location_Normalize := machinelearning.location_Normalize base;
     machinelearning.location_NormalizeNilable :=
       machinelearning.location_NormalizeNilable base;
     machinelearning.client :=
       {| workspaces.client_Get := fun c _ =>
            match c with
            | Some workspace =>
                ({| workspaces.get_HttpResponse := found;
                    workspaces.get_Model := Some workspace |}, None)
            | None =>
                ({| workspaces.get_HttpResponse := not_found;
                    workspaces.get_Model := None |}, Some (SdkError "not found"))
            end;
          workspaces.client_CreateOrUpdateThenPoll := fun _ _ workspace =>
            (Some workspace, None) |} |}.

(** An encryption block with a key vault, a key and no identity. *)
Definition sample_encryption : machinelearning.Encryption :=
  {| machinelearning.IdentityClientID := "";
     machinelearning.KeyVaultID := "vault";
     machinelearning.KeyID := "key" |}.

(** An ID that a parser gives back as it was written. *)
Definition parses_to_itself (parse : string -> string + error) (s : string)
  : Prop :=
  parse s = inl s.

(** An optional ID: empty, or given back by the parser as it was
    written. *)
Definition optional_id (parse : string -> string + error) (s : string) : Prop :=
  s <> "" -> parse s = inl s.

(** A model of the hub as a configuration in normal form decodes to: the
    IDs, the location, the tags and the identity are as the parsers and
    the flatten functions of the other packages print them, the computed
    fields are not known yet, and the blocks of at most one item hold at
    most one item. *)
Definition hub_in_normal_form (cloud : Type) (env : machinelearning.Env cloud)
  (d : ResourceData) (model : machinelearning.AIFoundryModel) : Prop :=
  parses_to_itself (machinelearning.ParseStorageAccountID env)
    (machinelearning.m_StorageAccountId model)
  /\ parses_to_itself (machinelearning.ParseKeyVaultID env)
       (machinelearning.m_KeyVaultId model)
  /\ optional_id (machinelearning.ParseComponentID env)
       (machinelearning.m_ApplicationInsightsId model)
  /\ optional_id (machinelearning.ParseComponentIDInsensitively env)
       (machinelearning.m_ApplicationInsightsId model)
  /\ optional_id (machinelearning.ParseRegistryID env)
       (machinelearning.m_ContainerRegistryId model)
  /\ optional_id (machinelearning.ParseUserAssignedIdentityID env)
       (machinelearning.m_PrimaryUserAssignedIdentity model)
  /\ machinelearning.location_NormalizeNilable env
       (Some (machinelearning.location_Normalize env
                (machinelearning.m_Location model)))
     = machinelearning.m_Location model
  /\ machinelearning.tags_Flatten env
       (machinelearning.tags_Expand env (machinelearning.m_Tags model))
     = machinelearning.m_Tags model
  /\ (exists l i,
        d_Get (fun _ => IList []) d "identity" = IList l
        /\ machinelearning.ExpandLegacySystemAndUserAssignedMap env l = inl i
        /\ machinelearning.FlattenLegacySystemAndUserAssignedMapToModel env i
           = inl (machinelearning.m_Identity model))
  /\ machinelearning.m_DiscoveryUrl model = ""
  /\ machinelearning.m_WorkspaceId model = ""
  /\ match machinelearning.m_Encryption model with
     | [] => True
     | [e] =>
         optional_id (machinelearning.ParseKeyVaultID env)
           (machinelearning.KeyVaultID e)
         /\ optional_id (machinelearning.ParseNestedItemID env)
              (machinelearning.KeyID e)
         /\ optional_id (machinelearning.ParseUserAssignedIdentityIDInsensitively env)
              (machinelearning.IdentityClientID e)
     | _ => False
     end
  /\ (length (machinelearning.m_ManagedNetwork model) <= 1)%nat.

(** A hub with an encryption, a managed network and a description. *)
Definition sample_hub_model : machinelearning.AIFoundryModel :=
  {| machinelearning.m_Name := "hub";
     machinelearning.m_Location := "westeurope";
     machinelearning.m_ResourceGroupName := "group";
     machinelearning.m_ApplicationInsightsId := "insights";
     machinelearning.m_StorageAccountId := "storage";
     machinelearning.m_KeyVaultId := "vault";
     machinelearning.m_ContainerRegistryId := "";
     machinelearning.m_Encryption := [sample_encryption];
     machinelearning.m_ManagedNetwork :=
       [{| machinelearning.IsolationMode := "AllowInternetOutbound" |}];
     machinelearning.m_PublicNetworkAccess := "Enabled";
     machinelearning.m_Identity := [];
     machinelearning.m_PrimaryUserAssignedIdentity := "";
     machinelearning.m_HighBusinessImpactEnabled := true;
     machinelearning.m_Description := "a hub";
     machinelearning.m_FriendlyName := "";
     machinelearning.m_DiscoveryUrl := "";
     machinelearning.m_WorkspaceId := "";
     machinelearning.m_Tags := [] |}.

Module AIFoundry.

Import workspaces.
Import machinelearning.

(** What Update takes beyond the environment of Create and Read:
    [HasChange] of the resource data, which compares the configuration
    with the prior state that the plugin SDK keeps in it. *)
Record UpdateEnv (cloud : Type) : Type := {
  base : machinelearning.Env cloud;
  HasChange : ResourceData -> string -> bool
}.

Arguments base {cloud}.
Arguments HasChange {cloud}.

(** Lines 370-420: the request payload, the model that was read with
    each changed field written over it.  [payload.Properties] is the
    [props] of the caller, which has checked that it is not nil. *)
Definition update_payload (cloud : Type) (env : UpdateEnv cloud)
  (d : ResourceData) (state : AIFoundryModel) (payload : Workspace)
  (props : WorkspaceProperties) : step Workspace :=
  bindS (if HasChange env d "application_insights_id"
         then bindS (lift (ParseComponentID (base env)
                             (m_ApplicationInsightsId state)))
                (fun id => pure (Some id))
         else pure (wp_ApplicationInsights props)) (fun applicationInsights =>
  bindS (if HasChange env d "container_registry_id"
         then bindS (lift (ParseRegistryID (base env)
                             (m_ContainerRegistryId state)))
                (fun id => pure (Some id))
         else pure (wp_ContainerRegistry props)) (fun containerRegistry =>
  let publicNetworkAccess :=
    if HasChange env d "public_network_access"
    then Some (m_PublicNetworkAccess state)
    else wp_PublicNetworkAccess props in
  let description :=
    if HasChange env d "description"
    then Some (m_Description state) else wp_Description props in
  let friendlyName :=
    if HasChange env d "friendly_name"
    then Some (m_FriendlyName state) else wp_FriendlyName props in
  bindS (if HasChange env d "identity"
         then match as_list (d_Get (fun _ => IList []) d "identity") with
              | None => None
              | Some l =>
                  match ExpandLegacySystemAndUserAssignedMap (base env) l with
                  | inl i => pure i
                  | inr e =>
                      Some (inr (Errorf "expanding `identity`: %+v"
                                   [AErr (Some e)]))
                  end
              end
         else pure (ws_Identity payload)) (fun expandedIdentity =>
  bindS (if HasChange env d "primary_user_assigned_identity"
         then bindS (lift (ParseUserAssignedIdentityID (base env)
                             (m_PrimaryUserAssignedIdentity state)))
                (fun id => pure (Some id))
         else pure (wp_PrimaryUserAssignedIdentity props))
    (fun primaryUserAssignedIdentity =>
  bindS (if HasChange env d "managed_network"
         then match expandManagedNetwork (m_ManagedNetwork state) with
              | None => None
              | Some n => pure (Some n)
              end
         else pure (wp_ManagedNetwork props)) (fun managedNetwork =>
  let tags :=
    if HasChange env d "tags"
    then tags_Expand (base env) (m_Tags state) else ws_Tags payload in
  pure {| ws_Identity := expandedIdentity;
          ws_Kind := ws_Kind payload;
          ws_Location := ws_Location payload;
          ws_Name := ws_Name payload;
          ws_Properties :=
            Some {| wp_ApplicationInsights := applicationInsights;
                    wp_ContainerRegistry := containerRegistry;
                    wp_Description := description;
                    wp_DiscoveryURL := wp_DiscoveryURL props;
                    wp_Encryption := wp_Encryption props;
                    wp_FriendlyName := friendlyName;
                    wp_HbiWorkspace := wp_HbiWorkspace props;
                    wp_KeyVault := wp_KeyVault props;
                    wp_ManagedNetwork := managedNetwork;
                    wp_PrimaryUserAssignedIdentity := primaryUserAssignedIdentity;
                    wp_PublicNetworkAccess := publicNetworkAccess;
                    wp_StorageAccount := wp_StorageAccount props;
                    wp_WorkspaceId := wp_WorkspaceId props |};
          ws_Tags := tags |}))))).

(** Lines 342-430. *)
Definition Update (cloud : Type) (env : UpdateEnv cloud)
  (d : ResourceData) (w : World cloud) : outcome cloud :=
  match ParseWorkspaceID (base env) (d_Id d) with
  | inr err => Some (Some err, d, w)
  | inl id =>
      match Decode (base env) d with
      | inr err => Some (Some err, d, w)
      | inl state =>
          let (existing, err) :=
            client_Get (client (base env)) (w_cloud w) id in
          let w := emit (EvGet (WorkspaceId_ID (base env) id)) w in
          match err with
          | Some e =>
              Some (Some (Errorf "retrieving %s: %+v"
                            [AStr (WorkspaceId_String (base env) id);
                             AErr (Some e)]), d, w)
          | None =>
              match get_Model existing with
              | None =>
                  Some (Some (Errorf "retrieving %s: `model` was nil"
                                [AStr (WorkspaceId_String (base env) id)]), d, w)
              | Some model =>
                  match ws_Properties model with
                  | None =>
                      Some (Some (Errorf "retrieving %s: `properties` was nil"
                                    [AStr (WorkspaceId_String (base env) id)]),
                            d, w)
                  | Some props =>
                      match update_payload env d state model props with
                      | None => None
                      | Some (inr e) => Some (Some e, d, w)
                      | Some (inl payload) =>
                          let (c, err) :=
                            client_CreateOrUpdateThenPoll (client (base env))
                              (w_cloud w) id payload in
                          let w := emit (EvCreateOrUpdate
                                           (WorkspaceId_ID (base env) id))
                                     (with_cloud c w) in
                          match err with
                          | Some e =>
                              Some (Some (Errorf "updating %s: %+v"
                                            [AStr (WorkspaceId_String (base env) id);
                                             AErr (Some e)]), d, w)
                          | None => Some (None, d, w)
                          end
                      end
                  end
              end
          end
      end
  end.

End AIFoundry.

(** The fields of a workspace that Update has no code to change. *)
Definition kept_by_Update (payload : workspaces.Workspace)
  : option string * option string * option string
    * option (option workspaces.EncryptionProperty * option bool
              * option string * option string * option string * option string) :=
  (workspaces.ws_Kind payload, workspaces.ws_Location payload,
   workspaces.ws_Name payload,
   option_map (fun props =>
                 (workspaces.wp_Encryption props, workspaces.wp_HbiWorkspace props,
                  workspaces.wp_KeyVault props, workspaces.wp_StorageAccount props,
                  workspaces.wp_DiscoveryURL props, workspaces.wp_WorkspaceId props))
     (workspaces.ws_Properties payload)).

(** An update environment over the echo remote side in which exactly
    the fields of [changed] have changed. *)
Definition sample_update_env (changed : list string)
  : AIFoundry.UpdateEnv (option workspaces.Workspace) :=
  {| AIFoundry.base := echo_machinelearning_env;
     AIFoundry.HasChange := fun _ k => existsb (String.eqb k) changed |}.

(** A workspace of kind Hub as the service returns it. *)
Definition sample_hub_workspace : workspaces.Workspace :=
  {| workspaces.ws_Identity := None;
     workspaces.ws_Kind := Some "Hub";
     workspaces.ws_Location := Some "westeurope";
     workspaces.ws_Name := Some "hub";
     workspaces.ws_Properties :=
       Some {| workspaces.wp_ApplicationInsights := None;
               workspaces.wp_ContainerRegistry := None;
               workspaces.wp_Description := Some "old";
               workspaces.wp_DiscoveryURL := Some "https://discovery";
               workspaces.wp_Encryption := None;
               workspaces.wp_FriendlyName := None;
               workspaces.wp_HbiWorkspace := Some true;
               workspaces.wp_KeyVault := Some "vault";
               workspaces.wp_ManagedNetwork := None;
               workspaces.wp_PrimaryUserAssignedIdentity := None;
               workspaces.wp_PublicNetworkAccess := Some "Enabled";
               workspaces.wp_StorageAccount := Some "storage";
               workspaces.wp_WorkspaceId := Some "guid" |};
     workspaces.ws_Tags := None |}.

(** ** The VNet integration block *)


(** * Properties *)

(** ** Schema validators *)

Lemma IntBetween_accepts (lo hi v : Z) (k : string) :
  validation.IntBetween lo hi (IInt v) k = [] <-> (lo <= v <= hi)%Z.
Proof.
  unfold validation.IntBetween.
  destruct (Z.ltb_spec v lo), (Z.ltb_spec hi v); simpl;
    split; intros H'; try discriminate; try reflexivity; lia.
Qed.

Lemma IntDivisibleBy_accepts (m v : Z) (k : string) :
  m <> 0%Z ->
  validation.IntDivisibleBy m (IInt v) k = [] <-> (m | v)%Z.
Proof.
  intros Hm. unfold validation.IntDivisibleBy.
  rewrite <- (Z.rem_divide v m Hm).
  destruct (Z.eqb_spec (Z.rem v m) 0); simpl; split; intros H';
    try discriminate; try reflexivity; congruence.
Qed.

(** C7: the validator of [copy_compute_scale.0.data_integration_unit]
    accepts an integer [v] if and only if [4 <= v <= 256] and [v] is
    divisible by 4. *)
Theorem data_integration_unit_accepts_iff (v : Z) (k : string) :
  validation.accepts datafactory.data_integration_unit_ValidateFunc (IInt v) k = true
  <-> ((4 <= v <= 256)%Z /\ (4 | v)%Z).
Proof.
  unfold validation.accepts, datafactory.data_integration_unit_ValidateFunc.
  cbn [validation.All].
  rewrite app_nil_r.
  rewrite <- (IntBetween_accepts 4 256 v k).
  rewrite <- (IntDivisibleBy_accepts (m := 4) v k) by discriminate.
  destruct (validation.IntBetween 4 256 (IInt v) k) eqn:Hb;
    destruct (validation.IntDivisibleBy 4 (IInt v) k) eqn:Hd; simpl;
    split; intros H'; try discriminate; try reflexivity;
    try (split; reflexivity); destruct H'; discriminate.
Qed.

(** ** Expand and flatten of [pipeline_external_compute_scale] *)

(** What flattening the expanded block gives: nothing when the three
    values are zero, otherwise the pipeline node count under both node
    keys. *)
Lemma flatten_expand_pipeline_block (e p t : Z) :
  option_map
    datafactory.flattenDataFactoryIntegrationRuntimeAzureSsisPipelineExternalComputeScaleProperties
    (datafactory.expand_pipeline_external_compute_scale
       [("number_of_external_nodes", IInt e);
        ("number_of_pipeline_nodes", IInt p);
        ("time_to_live", IInt t)])
  = Some (if (e =? 0)%Z && (p =? 0)%Z && (t =? 0)%Z then []
          else [IMap [("number_of_external_nodes", IInt p);
                      ("number_of_pipeline_nodes", IInt p);
                      ("time_to_live", IInt t)]]).
Proof.
  unfold datafactory.expand_pipeline_external_compute_scale. cbn.
  destruct (Z.eqb_spec e 0), (Z.eqb_spec p 0), (Z.eqb_spec t 0);
    subst; cbn; reflexivity.
Qed.

(** C1, at the configuration with 2 external nodes, 3 pipeline nodes and
    a time to live of 5: flattening the expanded compute properties
    returns 3 external nodes, where the round trip would return 2. *)
Theorem flatten_expand_pipeline_external_nodes (cloud : Type)
  (env : datafactory.Env cloud) :
  let d :=
    mkResourceData "" true
      [("pipeline_external_compute_scale",
        IList [IMap [("number_of_external_nodes", IInt 2);
                     ("number_of_pipeline_nodes", IInt 3);
                     ("time_to_live", IInt 5)]])] in
  option_map
    (fun cp =>
       datafactory.flattenDataFactoryIntegrationRuntimeAzureSsisPipelineExternalComputeScaleProperties
         (integrationruntimes.cp_PipelineExternalComputeScaleProperties cp))
    (datafactory.expandDataFactoryIntegrationRuntimeAzureSsisComputeProperties env d)
  = Some [IMap [("number_of_external_nodes", IInt 3);
                ("number_of_pipeline_nodes", IInt 3);
                ("time_to_live", IInt 5)]].
Proof. reflexivity. Qed.

(** ** The matcher *)

Section Backtrack.

Import regexp.

Variable fuel : nat.

Lemma backtrack_BeginText pos s c k :
  backtrack fuel BeginText pos s c k = if Nat.eqb pos 0 then k pos s c else None.
Proof. destruct fuel; reflexivity. Qed.

Lemma backtrack_EndText pos s c k :
  backtrack fuel EndText pos s c k
  = match s with [] => k pos s c | _ :: _ => None end.
Proof. destruct fuel; reflexivity. Qed.

Lemma backtrack_Literal a pos s c k :
  backtrack fuel (Literal a) pos s c k
  = match s with
    | x :: s' => if Ascii.eqb x a then k (S pos) s' c else None
    | [] => None
    end.
Proof. destruct fuel; reflexivity. Qed.

Lemma backtrack_CharClass p pos s c k :
  backtrack fuel (CharClass p) pos s c k
  = match s with
    | x :: s' => if p x then k (S pos) s' c else None
    | [] => None
    end.
Proof. destruct fuel; reflexivity. Qed.

Lemma backtrack_Concat r1 r2 pos s c k :
  backtrack fuel (Concat r1 r2) pos s c k
  = backtrack fuel r1 pos s c (fun pos' s' c' => backtrack fuel r2 pos' s' c' k).
Proof. destruct fuel; reflexivity. Qed.

Lemma backtrack_Alternate r1 r2 pos s c k :
  backtrack fuel (Alternate r1 r2) pos s c k
  = match backtrack fuel r1 pos s c k with
    | Some res => Some res
    | None => backtrack fuel r2 pos s c k
    end.
Proof. destruct fuel; reflexivity. Qed.

Lemma backtrack_Quest r pos s c k :
  backtrack fuel (Quest r) pos s c k
  = match backtrack fuel r pos s c k with
    | Some res => Some res
    | None => k pos s c
    end.
Proof. destruct fuel; reflexivity. Qed.

Lemma backtrack_Capture i r pos s c k :
  backtrack fuel (Capture i r) pos s c k
  = backtrack fuel r pos s c
      (fun pos' s' c' => k pos' s' (cap_set i (pos, pos') c')).
Proof. destruct fuel; reflexivity. Qed.

Lemma backtrack_literal l rest pos s c k :
  backtrack fuel (literal l rest) pos s c k
  = match strip_prefix l s with
    | Some s' => backtrack fuel rest (pos + length l) s' c k
    | None => None
    end.
Proof.
  revert pos s. induction l as [|a l IH]; intros pos s; cbn [literal strip_prefix].
  - cbn. now rewrite Nat.add_0_r.
  - rewrite backtrack_Concat, backtrack_Literal.
    destruct s as [|x s']; [reflexivity|].
    destruct (Ascii.eqb x a); [|reflexivity].
    rewrite IH. cbn [length]. now rewrite Nat.add_succ_r.
Qed.

End Backtrack.

Lemma backtrack_Plus fuel r pos s c k :
  regexp.backtrack (S fuel) (regexp.Plus r) pos s c k
  = regexp.backtrack (S fuel) r pos s c
      (fun pos' s' c' =>
         if Nat.ltb pos pos' then
           match regexp.backtrack fuel (regexp.Plus r) pos' s' c' k with
           | Some res => Some res
           | None => k pos' s' c'
           end
         else k pos' s' c').
Proof. reflexivity. Qed.

Lemma backtrack_Plus_class p : forall fuel s pos c k,
  length s <= fuel ->
  regexp.backtrack fuel (regexp.Plus (regexp.CharClass p)) pos s c k
  = plus_class p pos s c k.
Proof.
  induction fuel as [|fuel IH]; intros s pos c k Hlen.
  - destruct s; [reflexivity | cbn in Hlen; lia].
  - rewrite backtrack_Plus, backtrack_CharClass.
    destruct s as [|x s']; [reflexivity|]. cbn [plus_class].
    destruct (p x); [|reflexivity].
    replace (Nat.ltb pos (S pos)) with true
      by (symmetry; apply Nat.ltb_lt; lia).
    rewrite IH by (cbn in Hlen; lia). reflexivity.
Qed.

Lemma plus_class_fails p k : forall s pos c,
  (forall pos' s' c', length s' < length s -> k pos' s' c' = None) ->
  plus_class p pos s c k = None.
Proof.
  induction s as [|x s IH]; intros pos c Hk; cbn [plus_class]; [reflexivity|].
  destruct (p x); [|reflexivity].
  rewrite IH by (intros; apply Hk; cbn; lia).
  apply Hk. cbn. lia.
Qed.

Lemma plus_class_app p k tail :
  (forall pos' s' c', s' <> tail -> k pos' s' c' = None) ->
  forall name pos c,
  name <> [] ->
  forallb p name = true ->
  plus_class p pos (name ++ tail) c k = k (pos + length name) tail c.
Proof.
  intros Hk. induction name as [|x name IH]; intros pos c Hne Hall; [congruence|].
  cbn [app plus_class forallb length] in *.
  apply andb_prop in Hall as [Hx Hall]. rewrite Hx.
  rewrite Nat.add_succ_r.
  destruct name as [|y name'].
  - cbn [app length]. rewrite Nat.add_0_r.
    rewrite plus_class_fails; [reflexivity|].
    intros pos' s' c' Hlt. apply Hk. intros ->. lia.
  - rewrite IH by (congruence || assumption).
    cbn [Nat.add].
    destruct (k (S (pos + length (y :: name'))) tail c) eqn:E; [reflexivity|].
    apply Hk. intros Heq.
    apply (f_equal (@length ascii)) in Heq.
    rewrite length_app in Heq. cbn in Heq. lia.
Qed.

Lemma plus_class_sound p k : forall s pos c r,
  plus_class p pos s c k = Some r ->
  exists name rest,
    s = name ++ rest /\ name <> [] /\ forallb p name = true
    /\ k (pos + length name) rest c = Some r.
Proof.
  induction s as [|x s IH]; intros pos c r H; cbn [plus_class] in H;
    [discriminate|].
  destruct (p x) eqn:Hx; [|discriminate].
  destruct (plus_class p (S pos) s c k) eqn:E.
  - injection H as <-.
    destruct (IH _ _ _ E) as (name & rest & -> & Hne & Hall & Hk).
    exists (x :: name), rest. cbn [app forallb length]. rewrite Hx, Hall.
    rewrite Nat.add_succ_r. repeat split; [congruence | exact Hk].
  - exists [x], s. cbn [app forallb length]. rewrite Hx.
    rewrite Nat.add_1_r. repeat split; [congruence | exact H].
Qed.

Lemma strip_prefix_Some : forall l s s',
  strip_prefix l s = Some s' -> s = l ++ s'.
Proof.
  induction l as [|a l IH]; intros s s' H; cbn in H.
  - now injection H as ->.
  - destruct s as [|x s]; [discriminate|].
    destruct (Ascii.eqb_spec x a); [|discriminate].
    subst. cbn. f_equal. now apply IH.
Qed.

Lemma strip_prefix_app : forall l s, strip_prefix l (l ++ s) = Some s.
Proof.
  induction l as [|a l IH]; intros s; cbn; [reflexivity|].
  now rewrite Ascii.eqb_refl.
Qed.

(** A pattern that starts with [^] matches at the start only. *)
Lemma search_anchored fuel r : forall s pos,
  0 < pos -> regexp.search fuel (regexp.Concat regexp.BeginText r) pos s = None.
Proof.
  induction s as [|x s IH]; intros pos Hpos; cbn [regexp.search];
    rewrite backtrack_Concat, backtrack_BeginText;
    destruct pos; try lia; cbn [Nat.eqb]; [reflexivity|].
  apply IH. lia.
Qed.

Lemma exec_anchored r input :
  regexp.exec (regexp.Concat regexp.BeginText r) input
  = let s := list_ascii_of_string input in
    regexp.backtrack (length s) r 0 s []
      (fun pos' _ c => Some (regexp.cap_set 0 (0, pos') c)).
Proof.
  unfold regexp.exec. cbn zeta.
  destruct (list_ascii_of_string input) as [|x s] eqn:E; cbn [regexp.search].
  - rewrite backtrack_Concat, backtrack_BeginText. cbn [Nat.eqb].
    now destruct (regexp.backtrack _ r 0 [] [] _).
  - rewrite backtrack_Concat, backtrack_BeginText. cbn [Nat.eqb].
    rewrite search_anchored by lia.
    now destruct (regexp.backtrack _ r 0 (x :: s) [] _).
Qed.

Lemma plus_class_ext p k1 k2 :
  (forall pos s c, k1 pos s c = k2 pos s c) ->
  forall s pos c, plus_class p pos s c k1 = plus_class p pos s c k2.
Proof.
  intros Hk. induction s as [|x s IH]; intros pos c; cbn [plus_class];
    [reflexivity|].
  now rewrite IH, Hk.
Qed.

(** Whatever the matcher accepts, the pattern matches. *)
Lemma backtrack_sound : forall fuel r pos s c k res,
  regexp.backtrack fuel r pos s c k = Some res ->
  exists s1 s2 c',
    s = s1 ++ s2 /\ den r pos s1 s2 /\ k (pos + length s1) s2 c' = Some res.
Proof.
  induction fuel as [|fuel IHf];
    (induction r as [| |a|p|r1 IH1 r2 IH2|r1 IH1 r2 IH2|r IH|r IH|i r IH];
     intros pos s c k res H).
  all: try (rewrite backtrack_BeginText in H;
            destruct pos; [|discriminate]; cbn in H;
            exists [], s, c; repeat split; [constructor | exact H]).
  all: try (rewrite backtrack_EndText in H;
            destruct s; [|discriminate];
            exists [], [], c; rewrite Nat.add_0_r;
            repeat split; [constructor | exact H]).
  all: try (rewrite backtrack_Literal in H;
            destruct s as [|x s]; [discriminate|];
            destruct (Ascii.eqb_spec x a); [|discriminate]; subst x;
            exists [a], s, c; rewrite Nat.add_1_r;
            repeat split; [constructor | exact H]).
  all: try (rewrite backtrack_CharClass in H;
            destruct s as [|x s]; [discriminate|];
            destruct (p x) eqn:Hp; [|discriminate];
            exists [x], s, c; rewrite Nat.add_1_r;
            repeat split; [now constructor | exact H]).
  all: try (rewrite backtrack_Concat in H;
            apply IH1 in H as (s1 & s2 & c1 & -> & H1 & H);
            apply IH2 in H as (t1 & t2 & c2 & -> & H2 & H);
            exists (s1 ++ t1), t2, c2;
            rewrite length_app, Nat.add_assoc, <- app_assoc;
            repeat split; [now constructor | exact H]).
  all: try (rewrite backtrack_Alternate in H;
            destruct (regexp.backtrack _ r1 pos s c k) eqn:E;
            [ injection H as <-;
              apply IH1 in E as (s1 & s2 & c1 & -> & H1 & E);
              exists s1, s2, c1; repeat split;
              [now apply den_Alternate_left | exact E]
            | apply IH2 in H as (s1 & s2 & c1 & -> & H1 & H);
              exists s1, s2, c1; repeat split;
              [now apply den_Alternate_right | exact H] ]).
  all: try (rewrite backtrack_Quest in H;
            destruct (regexp.backtrack _ r pos s c k) eqn:E;
            [ injection H as <-;
              apply IH in E as (s1 & s2 & c1 & -> & H1 & E);
              exists s1, s2, c1; repeat split;
              [now apply den_Quest_some | exact E]
            | exists [], s, c; rewrite Nat.add_0_r; repeat split;
              [apply den_Quest_none | exact H] ]).
  all: try (rewrite backtrack_Capture in H;
            apply IH in H as (s1 & s2 & c1 & -> & H1 & H);
            eexists s1, s2, _; repeat split;
            [now apply den_Capture | exact H]).
  - change (regexp.backtrack 0 r pos s c (fun pos' s' c' => k pos' s' c')
            = Some res) in H.
    apply IH in H as (s1 & s2 & c1 & -> & H1 & H).
    exists s1, s2, c1. repeat split; [now apply den_Plus_one | exact H].
  - rewrite backtrack_Plus in H.
    apply IH in H as (s1 & s2 & c1 & -> & H1 & H).
    destruct (Nat.ltb pos (pos + length s1)).
    + destruct (regexp.backtrack fuel (regexp.Plus r) (pos + length s1) s2 c1 k)
        eqn:E.
      * injection H as <-.
        apply IHf in E as (t1 & t2 & c2 & -> & H2 & E).
        exists (s1 ++ t1), t2, c2.
        rewrite length_app, Nat.add_assoc, <- app_assoc.
        repeat split; [now apply den_Plus_more | exact E].
      * exists s1, s2, c1. repeat split; [now apply den_Plus_one | exact H].
    + exists s1, s2, c1. repeat split; [now apply den_Plus_one | exact H].
Qed.

(** ** The elastic pool pricing tier *)

Lemma elastic_pool_tail_inv pos s c r :
  elastic_pool_tail pos s c = Some r -> s = elastic_pool_suffix.
Proof.
  unfold elastic_pool_tail, elastic_pool_suffix.
  destruct s as [|a [|b [|x s]]]; try discriminate.
  destruct (Ascii.eqb_spec a datafactory.dquote); [|discriminate].
  destruct (Ascii.eqb_spec b ")"); [|discriminate].
  now subst.
Qed.

Lemma elastic_pool_exec input :
  regexp.exec datafactory.elastic_pool_pattern input
  = match strip_prefix elastic_pool_prefix (list_ascii_of_string input) with
    | Some s' => plus_class regexp.any_not_nl 19 s' [] elastic_pool_tail
    | None => None
    end.
Proof.
  unfold datafactory.elastic_pool_pattern. rewrite exec_anchored. cbn zeta.
  set (s := list_ascii_of_string input).
  rewrite backtrack_literal.
  unfold elastic_pool_prefix.
  set (l := list_ascii_of_string "ELASTIC_POOL(name=").
  assert (Hsplit : forall t, strip_prefix (l ++ [datafactory.dquote]) t
            = match strip_prefix l t with
              | Some (x :: t') =>
                  if Ascii.eqb x datafactory.dquote then Some t' else None
              | _ => None
              end).
  { clear. induction l as [|a l IH]; intros t.
    - cbn. destruct t; [reflexivity|]. now destruct (Ascii.eqb _ _).
    - cbn. destruct t as [|x t]; [reflexivity|].
      destruct (Ascii.eqb x a); [apply IH | reflexivity]. }
  rewrite Hsplit.
  destruct (strip_prefix l s) as [s1|] eqn:E; [|reflexivity].
  apply strip_prefix_Some in E.
  rewrite backtrack_Concat, backtrack_Literal.
  destruct s1 as [|x s2]; [reflexivity|].
  destruct (Ascii.eqb x datafactory.dquote); [|reflexivity].
  rewrite backtrack_Concat, backtrack_Capture.
  rewrite backtrack_Plus_class.
  2:{ rewrite E, length_app. cbn. lia. }
  apply plus_class_ext. intros pos t c.
  rewrite backtrack_Concat, backtrack_Literal.
  unfold elastic_pool_tail.
  destruct t as [|a t]; [reflexivity|].
  destruct (Ascii.eqb a datafactory.dquote); cbn [andb].
  2:{ destruct t as [|b [|? ?]]; reflexivity. }
  rewrite backtrack_Concat, backtrack_Literal.
  destruct t as [|b t]; [reflexivity|].
  destruct (Ascii.eqb b ")").
  2:{ destruct t; reflexivity. }
  rewrite backtrack_EndText. destruct t; reflexivity.
Qed.

Lemma list_ascii_of_string_app (s1 s2 : string) :
  list_ascii_of_string (s1 ++ s2)
  = list_ascii_of_string s1 ++ list_ascii_of_string s2.
Proof. induction s1 as [|a s1 IH]; cbn; [reflexivity | now rewrite IH]. Qed.

Lemma string_of_list_ascii_app (l1 l2 : list ascii) :
  string_of_list_ascii (l1 ++ l2)
  = (string_of_list_ascii l1 ++ string_of_list_ascii l2)%string.
Proof. induction l1 as [|a l1 IH]; cbn; [reflexivity | now rewrite IH]. Qed.

Lemma length_list_ascii_of_string (s : string) :
  length (list_ascii_of_string s) = String.length s.
Proof. induction s as [|a s IH]; cbn; [reflexivity | now rewrite IH]. Qed.

Lemma substring_prefix (s q : string) :
  substring 0 (String.length s) (s ++ q) = s.
Proof.
  induction s as [|a s IH]; cbn.
  - now destruct q.
  - now rewrite IH.
Qed.

Lemma format_elastic_pool_bytes (name : string) :
  list_ascii_of_string (datafactory.formatDataFactoryIntegrationRuntimeElasticPool name)
  = elastic_pool_prefix ++ list_ascii_of_string name ++ elastic_pool_suffix.
Proof.
  unfold datafactory.formatDataFactoryIntegrationRuntimeElasticPool.
  cbn. now rewrite list_ascii_of_string_app.
Qed.

Lemma parse_elastic_pool_exec (input : string) :
  datafactory.parseDataFactoryIntegrationRuntimeElasticPool input
  = match regexp.exec datafactory.elastic_pool_pattern input with
    | Some c => (regexp.slice input (regexp.cap_get c 1), true)
    | None => ("", false)
    end.
Proof.
  unfold datafactory.parseDataFactoryIntegrationRuntimeElasticPool,
    regexp.FindStringSubmatch.
  destruct (regexp.exec datafactory.elastic_pool_pattern input); reflexivity.
Qed.

(** The parse of a formatted name gives the name back. *)
Lemma parse_format_elastic_pool (name : string) :
  name <> "" -> no_newline name ->
  datafactory.parseDataFactoryIntegrationRuntimeElasticPool
    (datafactory.formatDataFactoryIntegrationRuntimeElasticPool name)
  = (name, true).
Proof.
  intros Hne Hnl.
  rewrite parse_elastic_pool_exec, elastic_pool_exec, format_elastic_pool_bytes.
  rewrite strip_prefix_app.
  rewrite plus_class_app.
  - unfold elastic_pool_tail, elastic_pool_suffix.
    rewrite !Ascii.eqb_refl. cbn [andb regexp.cap_get regexp.cap_set Nat.eqb].
    unfold regexp.slice. rewrite length_list_ascii_of_string.
    replace (19 + String.length name - 19) with (String.length name) by lia.
    unfold datafactory.formatDataFactoryIntegrationRuntimeElasticPool.
    cbn. now rewrite substring_prefix.
  - intros pos' s' c' Hs'.
    destruct (elastic_pool_tail pos' s' c') eqn:E; [|reflexivity].
    apply elastic_pool_tail_inv in E. contradiction.
  - destruct name; [congruence | discriminate].
  - exact Hnl.
Qed.

(** A text the parse accepts is a formatted name. *)
Lemma parse_elastic_pool_inv (input : string) c :
  regexp.exec datafactory.elastic_pool_pattern input = Some c ->
  exists name,
    name <> "" /\ no_newline name
    /\ input = datafactory.formatDataFactoryIntegrationRuntimeElasticPool name.
Proof.
  rewrite elastic_pool_exec.
  destruct (strip_prefix elastic_pool_prefix (list_ascii_of_string input))
    as [s'|] eqn:E; [|discriminate].
  apply strip_prefix_Some in E. intros H.
  apply plus_class_sound in H as (name & rest & -> & Hne & Hall & Hk).
  apply elastic_pool_tail_inv in Hk. subst rest.
  exists (string_of_list_ascii name). repeat split.
  - destruct name; [congruence | discriminate].
  - unfold no_newline. now rewrite list_ascii_of_string_of_list_ascii.
  - rewrite <- (string_of_list_ascii_of_string input), E.
    rewrite <- (string_of_list_ascii_of_string
                  (datafactory.formatDataFactoryIntegrationRuntimeElasticPool _)).
    rewrite format_elastic_pool_bytes.
    now rewrite list_ascii_of_string_of_list_ascii.
Qed.

(** A text that is no formatted name is not parsed. *)
Lemma parse_elastic_pool_other (input : string) :
  (forall name,
     input <> datafactory.formatDataFactoryIntegrationRuntimeElasticPool name) ->
  datafactory.parseDataFactoryIntegrationRuntimeElasticPool input = ("", false).
Proof.
  intros Hno. rewrite parse_elastic_pool_exec.
  destruct (regexp.exec datafactory.elastic_pool_pattern input) eqn:E;
    [|reflexivity].
  apply parse_elastic_pool_inv in E as (name & _ & _ & ->).
  now destruct (Hno name).
Qed.

Lemma flatten_catalog_info_tier p d l :
  datafactory.flattenDataFactoryIntegrationRuntimeAzureSsisCatalogInfo (Some p) d
  = Some l ->
  let tier := pointer_From_string (integrationruntimes.ci_CatalogPricingTier p) in
  let r := datafactory.parseDataFactoryIntegrationRuntimeElasticPool tier in
  read_at (IList l) [Index 0; Key "elastic_pool_name"] = IStr (fst r)
  /\ read_at (IList l) [Index 0; Key "pricing_tier"]
     = IStr (if negb (snd r) then tier else "").
Proof.
  unfold datafactory.flattenDataFactoryIntegrationRuntimeAzureSsisCatalogInfo.
  cbn zeta.
  destruct (datafactory.parseDataFactoryIntegrationRuntimeElasticPool _)
    as [name matched].
  destruct (datafactory.GetOk_at d "catalog_info" _) as [v ok].
  destruct (if ok then as_string v else Some "") as [pw|]; [|discriminate].
  intros H. injection H as <-. cbn. split; reflexivity.
Qed.

(** C5, as stated, fails at the name that is one line feed: it is not
    empty, and the parse of its format is not the name. *)
Lemma elastic_pool_line_feed_not_parsed :
  let s := String "010" "" in
  s <> ""
  /\ datafactory.parseDataFactoryIntegrationRuntimeElasticPool
       (datafactory.formatDataFactoryIntegrationRuntimeElasticPool s)
     = ("", false)
  /\ datafactory.parseDataFactoryIntegrationRuntimeElasticPool
       (datafactory.formatDataFactoryIntegrationRuntimeElasticPool s)
     <> (s, true).
Proof. cbv zeta. repeat split; [discriminate | vm_compute; discriminate]. Qed.

(** C5, amended: for every non-empty elastic pool name [s] without a
    line feed the parse of the format of [s] returns [(s, true)]; for
    every pricing tier that is the format of no name the parse returns
    the empty string and [false]; hence on read the catalog pricing tier
    is flattened into [elastic_pool_name] when it is the format of such
    a name, and into [pricing_tier] when it is the format of no name. *)
Theorem elastic_pool_round_trip :
  (forall s, s <> "" -> no_newline s ->
     datafactory.parseDataFactoryIntegrationRuntimeElasticPool
       (datafactory.formatDataFactoryIntegrationRuntimeElasticPool s)
     = (s, true))
  /\ (forall tier,
        (forall s, tier <> datafactory.formatDataFactoryIntegrationRuntimeElasticPool s) ->
        datafactory.parseDataFactoryIntegrationRuntimeElasticPool tier = ("", false))
  /\ (forall p d l,
        datafactory.flattenDataFactoryIntegrationRuntimeAzureSsisCatalogInfo (Some p) d
        = Some l ->
        let tier := pointer_From_string (integrationruntimes.ci_CatalogPricingTier p) in
        (forall s, s <> "" -> no_newline s ->
           tier = datafactory.formatDataFactoryIntegrationRuntimeElasticPool s ->
           read_at (IList l) [Index 0; Key "elastic_pool_name"] = IStr s
           /\ read_at (IList l) [Index 0; Key "pricing_tier"] = IStr "")
        /\ ((forall s, tier <> datafactory.formatDataFactoryIntegrationRuntimeElasticPool s) ->
            read_at (IList l) [Index 0; Key "elastic_pool_name"] = IStr ""
            /\ read_at (IList l) [Index 0; Key "pricing_tier"] = IStr tier)).
Proof.
  split; [exact parse_format_elastic_pool|].
  split; [exact parse_elastic_pool_other|].
  intros p d l H tier.
  destruct (flatten_catalog_info_tier _ _ H) as [Hname Htier].
  fold tier in Hname, Htier. split.
  - intros s Hne Hnl Heq.
    rewrite Heq, parse_format_elastic_pool in Hname, Htier by assumption.
    now split.
  - intros Hno.
    rewrite (parse_elastic_pool_other Hno) in Hname, Htier. now split.
Qed.

Lemma elastic_pool_round_trip_witness :
  datafactory.parseDataFactoryIntegrationRuntimeElasticPool
    (datafactory.formatDataFactoryIntegrationRuntimeElasticPool "pool")
  = ("pool", true)
  /\ datafactory.parseDataFactoryIntegrationRuntimeElasticPool "S1" = ("", false)
  /\ (let p :=
        {| integrationruntimes.ci_CatalogAdminPassword := None;
           integrationruntimes.ci_CatalogAdminUserName := None;
           integrationruntimes.ci_CatalogPricingTier :=
             Some (datafactory.formatDataFactoryIntegrationRuntimeElasticPool "pool");
           integrationruntimes.ci_CatalogServerEndpoint := None;
           integrationruntimes.ci_DualStandbyPairName := None |} in
      let d := mkResourceData "" false [] in
      exists l,
        datafactory.flattenDataFactoryIntegrationRuntimeAzureSsisCatalogInfo (Some p) d
        = Some l
        /\ read_at (IList l) [Index 0; Key "elastic_pool_name"] = IStr "pool"
        /\ read_at (IList l) [Index 0; Key "pricing_tier"] = IStr "").
Proof.
  destruct elastic_pool_round_trip as (H1 & H2 & H3).
  split; [apply H1; [discriminate | reflexivity]|].
  split; [apply H2; intros s; discriminate|].
  intros p d.
  destruct (datafactory.flattenDataFactoryIntegrationRuntimeAzureSsisCatalogInfo
              (Some p) d) as [l|] eqn:Hl; [|discriminate Hl].
  exists l. split; [reflexivity|].
  apply (proj1 (H3 p d l Hl) "pool"); [discriminate | reflexivity | reflexivity].
Defined.

(** ** The importer of azurerm_ai_foundry *)

Ltac fold_cases a :=
  destruct a as [[] [] [] [] [] [] [] []]; vm_compute;
  (split;
   [ intros H; first [discriminate H | left; reflexivity | right; reflexivity]
   | intros [H|H]; first [discriminate H | reflexivity] ]).

Lemma to_lower_h (a : ascii) :
  Ascii.eqb (machinelearning.to_lower a) "h" = true <-> a = "h"%char \/ a = "H"%char.
Proof. fold_cases a. Qed.

Lemma to_lower_u (a : ascii) :
  Ascii.eqb (machinelearning.to_lower a) "u" = true <-> a = "u"%char \/ a = "U"%char.
Proof. fold_cases a. Qed.

Lemma to_lower_b (a : ascii) :
  Ascii.eqb (machinelearning.to_lower a) "b" = true <-> a = "b"%char \/ a = "B"%char.
Proof. fold_cases a. Qed.

(** Equality with [Hub] under case folding: the eight spellings. *)
Lemma EqualFold_Hub (kind : string) :
  machinelearning.strings_EqualFold kind "Hub" = true
  <-> In kind ["Hub"; "HUb"; "HuB"; "HUB"; "hub"; "hUb"; "huB"; "hUB"].
Proof.
  split.
  - destruct kind as [|a [|b [|c [|x rest]]]];
      cbn [machinelearning.strings_EqualFold];
      change (machinelearning.to_lower "H") with "h"%char;
      change (machinelearning.to_lower "u") with "u"%char;
      change (machinelearning.to_lower "b") with "b"%char;
      rewrite ?andb_true_iff;
      try discriminate;
      try (intros H; decompose [and] H; discriminate).
    rewrite to_lower_h, to_lower_u, to_lower_b.
    intros [[-> | ->] [[-> | ->] [[-> | ->] _]]]; cbn; tauto.
  - cbn [In]. intros H.
    repeat (destruct H as [<- | H]; [reflexivity|]). destruct H.
Qed.

(** C8: the importer of azurerm_ai_foundry returns nil exactly when the
    ID parses, the Get succeeds and answers with a model whose Kind is
    [Hub] under case folding; in every other case it returns an error
    (it always returns, and leaves the resource data as it was). *)
Theorem CustomImporter_nil_iff_hub (cloud : Type)
  (env : machinelearning.Env cloud) (d : ResourceData) (w : World cloud) :
  exists e w',
    machinelearning.CustomImporter env d w = Some (e, d, w')
    /\ (e = None <->
        exists id model kind,
          machinelearning.ParseWorkspaceID env (d_Id d) = inl id
          /\ snd (workspaces.client_Get (machinelearning.client env) (w_cloud w) id)
             = None
          /\ workspaces.get_Model
               (fst (workspaces.client_Get (machinelearning.client env) (w_cloud w) id))
             = Some model
          /\ workspaces.ws_Kind model = Some kind
          /\ machinelearning.strings_EqualFold kind "Hub" = true).
Proof.
  unfold machinelearning.CustomImporter.
  destruct (machinelearning.ParseWorkspaceID env (d_Id d)) as [id|perr] eqn:Hp.
  2:{ do 2 eexists. split; [reflexivity|]. split; [discriminate|].
      intros (id & ? & ? & H & _). discriminate H. }
  destruct (workspaces.client_Get (machinelearning.client env) (w_cloud w) id)
    as [resp err] eqn:Hg.
  assert (Hinv : forall (P : Prop),
            (forall model kind,
               err = None -> workspaces.get_Model resp = Some model ->
               workspaces.ws_Kind model = Some kind ->
               machinelearning.strings_EqualFold kind "Hub" = true -> P) ->
            (exists id0 model kind,
               @inl workspaces.WorkspaceId error id = inl id0
               /\ snd (workspaces.client_Get (machinelearning.client env)
                         (w_cloud w) id0) = None
               /\ workspaces.get_Model
                    (fst (workspaces.client_Get (machinelearning.client env)
                            (w_cloud w) id0)) = Some model
               /\ workspaces.ws_Kind model = Some kind
               /\ machinelearning.strings_EqualFold kind "Hub" = true) -> P).
  { intros P HP (id0 & model & kind & Hid & H1 & H2 & H3 & H4).
    injection Hid as <-. rewrite Hg in H1, H2. cbn in H1, H2. eauto. }
  destruct err as [e|].
  { do 2 eexists. split; [reflexivity|]. split; [discriminate|].
    apply Hinv. intros; discriminate. }
  destruct (workspaces.get_Model resp) as [model|] eqn:Hm.
  2:{ do 2 eexists. split; [reflexivity|]. split; [discriminate|].
      apply Hinv. intros; discriminate. }
  destruct (workspaces.ws_Kind model) as [kind|] eqn:Hk.
  2:{ do 2 eexists. split; [reflexivity|]. split; [discriminate|].
      apply Hinv. intros model0 kind0 _ Hm0 Hk0 _.
      injection Hm0 as <-. rewrite Hk in Hk0. discriminate. }
  destruct (machinelearning.strings_EqualFold kind "Hub") eqn:Hf; cbn [negb].
  - do 2 eexists. split; [reflexivity|]. split; [|reflexivity].
    intros _. exists id, model, kind. rewrite Hg. cbn. auto.
  - do 2 eexists. split; [reflexivity|]. split; [discriminate|].
    apply Hinv. intros model0 kind0 _ Hm0 Hk0 Hf0.
    injection Hm0 as <-. rewrite Hk in Hk0. injection Hk0 as <-.
    rewrite Hf in Hf0. discriminate.
Qed.

(** ** Delete of the integration runtime *)

(** C6: when the API Delete call fails, Delete of the integration
    runtime returns nil on a not-found response, and on every other
    response an error made of the resource ID and the API error. *)
Theorem Delete_not_found_or_wrapped (cloud : Type) (env : datafactory.Env cloud)
  (d : ResourceData) (w : World cloud) id c resp e :
  datafactory.ParseIntegrationRuntimeID env (d_Id d) = inl id ->
  integrationruntimes.client_Delete (datafactory.client env) (w_cloud w) id
  = (c, (resp, Some e)) ->
  let w' := emit (EvDelete (datafactory.IntegrationRuntimeId_ID env id))
              (with_cloud c w) in
  (response_WasNotFound (integrationruntimes.del_HttpResponse resp) = true ->
   datafactory.resourceDataFactoryIntegrationRuntimeAzureSsisDelete env d w
   = Some (None, d, w'))
  /\ (response_WasNotFound (integrationruntimes.del_HttpResponse resp) = false ->
      datafactory.resourceDataFactoryIntegrationRuntimeAzureSsisDelete env d w
      = Some (Some (Errorf "deleting %s: %+v"
                      [AStr (datafactory.IntegrationRuntimeId_String env id);
                       AErr (Some e)]), d, w')).
Proof.
  intros Hp Hd w'.
  unfold datafactory.resourceDataFactoryIntegrationRuntimeAzureSsisDelete.
  rewrite Hp, Hd. split; intros ->; reflexivity.
Qed.

Lemma Delete_not_found_or_wrapped_witness :
  datafactory.resourceDataFactoryIntegrationRuntimeAzureSsisDelete
    (sample_datafactory_env
       ({| integrationruntimes.get_HttpResponse := None;
           integrationruntimes.get_Model := None |}, None)
       ({| integrationruntimes.del_HttpResponse := conflict |},
        Some (SdkError "conflict")))
    (mkResourceData "runtime" false []) sample_world
  = Some (Some (Errorf "deleting %s: %+v"
                  [AStr "runtime"; AErr (Some (SdkError "conflict"))]),
          mkResourceData "runtime" false [],
          mkWorld tt [EvDelete "runtime"])
  /\ datafactory.resourceDataFactoryIntegrationRuntimeAzureSsisDelete
       (sample_datafactory_env
          ({| integrationruntimes.get_HttpResponse := None;
              integrationruntimes.get_Model := None |}, None)
          ({| integrationruntimes.del_HttpResponse := not_found |},
           Some (SdkError "not found")))
       (mkResourceData "runtime" false []) sample_world
     = Some (None, mkResourceData "runtime" false [],
             mkWorld tt [EvDelete "runtime"]).
Proof.
  split.
  - exact (proj2 (@Delete_not_found_or_wrapped unit
              (sample_datafactory_env
                 ({| integrationruntimes.get_HttpResponse := None;
                     integrationruntimes.get_Model := None |}, None)
                 ({| integrationruntimes.del_HttpResponse := conflict |},
                  Some (SdkError "conflict")))
              (mkResourceData "runtime" false []) sample_world
              sample_runtime_id tt
              {| integrationruntimes.del_HttpResponse := conflict |}
              (SdkError "conflict") eq_refl eq_refl) eq_refl).
  - exact (proj1 (@Delete_not_found_or_wrapped unit
              (sample_datafactory_env
                 ({| integrationruntimes.get_HttpResponse := None;
                     integrationruntimes.get_Model := None |}, None)
                 ({| integrationruntimes.del_HttpResponse := not_found |},
                  Some (SdkError "not found")))
              (mkResourceData "runtime" false []) sample_world
              sample_runtime_id tt
              {| integrationruntimes.del_HttpResponse := not_found |}
              (SdkError "not found") eq_refl eq_refl) eq_refl).
Defined.

(** ** Create against an existing remote entity *)

Lemma Create_ai_foundry_exists (cloud : Type) (env : machinelearning.Env cloud)
  (d : ResourceData) (w : World cloud) model existing :
  machinelearning.Decode env d = inl model ->
  let id := workspaces.NewWorkspaceID (machinelearning.Account_SubscriptionId env)
              (machinelearning.m_ResourceGroupName model)
              (machinelearning.m_Name model) in
  workspaces.client_Get (machinelearning.client env) (w_cloud w) id
  = (existing, None) ->
  response_WasNotFound (workspaces.get_HttpResponse existing) = false ->
  refuses_as_existing (machinelearning.Create env d w) d w
    "azurerm_ai_foundry" (machinelearning.WorkspaceId_ID env id).
Proof.
  intros Hd id Hg Hnf. unfold machinelearning.Create.
  rewrite Hd. fold id. rewrite Hg, Hnf. cbn [negb].
  exists (emit (EvGet (machinelearning.WorkspaceId_ID env id)) w),
         [EvGet (machinelearning.WorkspaceId_ID env id)].
  repeat split.
Qed.

Lemma Create_runtime_exists (cloud : Type) (env : datafactory.Env cloud)
  (d : ResourceData) (w : World cloud) raw dataFactoryId name existing :
  rd_IsNewResource d = true ->
  datafactory.Get d "data_factory_id" = IStr raw ->
  datafactory.ParseFactoryID env raw = inl dataFactoryId ->
  datafactory.Get d "name" = IStr name ->
  let id := integrationruntimes.NewIntegrationRuntimeID
              (factories.SubscriptionId dataFactoryId)
              (factories.ResourceGroupName dataFactoryId)
              (factories.FactoryName dataFactoryId) name in
  integrationruntimes.client_Get (datafactory.client env) (w_cloud w) id
  = (existing, None) ->
  response_WasNotFound (integrationruntimes.get_HttpResponse existing) = false ->
  refuses_as_existing
    (datafactory.resourceDataFactoryIntegrationRuntimeAzureSsisCreateUpdate env d w)
    d w "azurerm_data_factory_integration_runtime_azure_ssis"
    (datafactory.IntegrationRuntimeId_ID env id).
Proof.
  intros Hnew Hf Hp Hn id Hg Hnf.
  unfold datafactory.resourceDataFactoryIntegrationRuntimeAzureSsisCreateUpdate.
  rewrite Hf. cbn [as_string]. rewrite Hp, Hn. cbn [as_string].
  fold id. rewrite Hnew, Hg, Hnf. cbn [negb].
  exists (emit (EvGet (datafactory.IntegrationRuntimeId_ID env id)) w),
         [EvGet (datafactory.IntegrationRuntimeId_ID env id)].
  repeat split.
Qed.

Lemma Create_customer_managed_key_exists (cloud : Type)
  (env : loganalytics.Env cloud) (d : ResourceData) (w : World cloud)
  raw id resp model props keyProps keyName :
  loganalytics.Get d "log_analytics_cluster_id" = IStr raw ->
  loganalytics.ParseClusterID env raw = inl id ->
  clusters.client_Get (loganalytics.client env) (w_cloud w) id = (resp, None) ->
  clusters.get_Model resp = Some model ->
  clusters.Properties model = Some props ->
  clusters.cp_KeyVaultProperties props = Some keyProps ->
  clusters.KeyName keyProps = Some keyName ->
  keyName <> "" ->
  refuses_as_existing
    (loganalytics.resourceLogAnalyticsClusterCustomerManagedKeyCreate env d w)
    d w "azurerm_log_analytics_cluster_customer_managed_key"
    (loganalytics.ClusterId_ID env id).
Proof.
  intros Hraw Hp Hg Hm Hprops Hkv Hname Hne.
  unfold loganalytics.resourceLogAnalyticsClusterCustomerManagedKeyCreate.
  rewrite Hraw. cbn [as_string]. rewrite Hp.
  unfold loganalytics.create_locked, locks.ByID.
  cbn [w_cloud emit]. rewrite Hg, Hm, Hprops, Hkv, Hname.
  apply String.eqb_neq in Hne. rewrite Hne. cbn [negb loganalytics.defer].
  eexists.
  exists [EvLock (loganalytics.ClusterId_ID env id);
          EvGet (loganalytics.ClusterId_ID env id);
          EvUnlock (loganalytics.ClusterId_ID env id)].
  split; [reflexivity|].
  split; [reflexivity|].
  split; [|reflexivity].
  unfold locks.UnlockByID, emit. cbn [w_trace].
  now rewrite <- !app_assoc.
Qed.

(** C2: every Create whose preliminary Get shows that the remote entity
    exists (the Get succeeds and its answer is no 404; for the customer
    managed key: the cluster it reads has a non-empty key name) returns
    the import-as-exists error with the ID of the resource and makes no
    CreateOrUpdate call. *)
Theorem Create_refuses_existing (cloud : Type) :
  (forall (env : machinelearning.Env cloud) d (w : World cloud) model existing,
     machinelearning.Decode env d = inl model ->
     let id := workspaces.NewWorkspaceID (machinelearning.Account_SubscriptionId env)
                 (machinelearning.m_ResourceGroupName model)
                 (machinelearning.m_Name model) in
     workspaces.client_Get (machinelearning.client env) (w_cloud w) id
     = (existing, None) ->
     response_WasNotFound (workspaces.get_HttpResponse existing) = false ->
     refuses_as_existing (machinelearning.Create env d w) d w
       "azurerm_ai_foundry" (machinelearning.WorkspaceId_ID env id))
  /\ (forall (env : datafactory.Env cloud) d (w : World cloud)
        raw dataFactoryId name existing,
        rd_IsNewResource d = true ->
        datafactory.Get d "data_factory_id" = IStr raw ->
        datafactory.ParseFactoryID env raw = inl dataFactoryId ->
        datafactory.Get d "name" = IStr name ->
        let id := integrationruntimes.NewIntegrationRuntimeID
                    (factories.SubscriptionId dataFactoryId)
                    (factories.ResourceGroupName dataFactoryId)
                    (factories.FactoryName dataFactoryId) name in
        integrationruntimes.client_Get (datafactory.client env) (w_cloud w) id
        = (existing, None) ->
        response_WasNotFound (integrationruntimes.get_HttpResponse existing) = false ->
        refuses_as_existing
          (Create (resourceDataFactoryIntegrationRuntimeAzureSsis env) d w)
          d w "azurerm_data_factory_integration_runtime_azure_ssis"
          (datafactory.IntegrationRuntimeId_ID env id))
  /\ (forall (env : loganalytics.Env cloud) d (w : World cloud)
        raw id resp model props keyProps keyName,
        loganalytics.Get d "log_analytics_cluster_id" = IStr raw ->
        loganalytics.ParseClusterID env raw = inl id ->
        clusters.client_Get (loganalytics.client env) (w_cloud w) id = (resp, None) ->
        clusters.get_Model resp = Some model ->
        clusters.Properties model = Some props ->
        clusters.cp_KeyVaultProperties props = Some keyProps ->
        clusters.KeyName keyProps = Some keyName ->
        keyName <> "" ->
        refuses_as_existing
          (Create (resourceLogAnalyticsClusterCustomerManagedKey env) d w)
          d w "azurerm_log_analytics_cluster_customer_managed_key"
          (loganalytics.ClusterId_ID env id)).
Proof.
  split; [|split].
  - intros. now apply Create_ai_foundry_exists with (model := model) (existing := existing).
  - intros. cbn [Create resourceDataFactoryIntegrationRuntimeAzureSsis].
    eapply Create_runtime_exists; eassumption.
  - intros. cbn [Create resourceLogAnalyticsClusterCustomerManagedKey].
    eapply Create_customer_managed_key_exists; eassumption.
Qed.

Lemma Create_refuses_existing_witness :
  refuses_as_existing
    (machinelearning.Create
       (sample_machinelearning_env
          ({| workspaces.get_HttpResponse := found;
              workspaces.get_Model := None |}, None))
       (mkResourceData "" true []) sample_world)
    (mkResourceData "" true []) sample_world "azurerm_ai_foundry" "hub"
  /\ refuses_as_existing
       (datafactory.resourceDataFactoryIntegrationRuntimeAzureSsisCreateUpdate
          (sample_datafactory_env
             ({| integrationruntimes.get_HttpResponse := found;
                 integrationruntimes.get_Model := None |}, None)
             ({| integrationruntimes.del_HttpResponse := None |}, None))
          (mkResourceData "" true
             [("name", IStr "runtime"); ("data_factory_id", IStr "factory")])
          sample_world)
       (mkResourceData "" true
          [("name", IStr "runtime"); ("data_factory_id", IStr "factory")])
       sample_world "azurerm_data_factory_integration_runtime_azure_ssis" "runtime"
  /\ refuses_as_existing
       (loganalytics.resourceLogAnalyticsClusterCustomerManagedKeyCreate
          (sample_loganalytics_env
             ({| clusters.get_HttpResponse := found;
                 clusters.get_Model := Some (sample_cluster_with_key "key") |}, None))
          (mkResourceData "" true
             [("log_analytics_cluster_id", IStr "cluster");
              ("key_vault_key_id", IStr "other")])
          sample_world)
       (mkResourceData "" true
          [("log_analytics_cluster_id", IStr "cluster");
           ("key_vault_key_id", IStr "other")])
       sample_world "azurerm_log_analytics_cluster_customer_managed_key" "cluster".
Proof.
  destruct (Create_refuses_existing unit) as (H1 & H2 & H3).
  split; [|split].
  - exact (H1 (sample_machinelearning_env
                 ({| workspaces.get_HttpResponse := found;
                     workspaces.get_Model := None |}, None))
              (mkResourceData "" true []) sample_world
              sample_workspace_model
              {| workspaces.get_HttpResponse := found;
                 workspaces.get_Model := None |}
              eq_refl eq_refl eq_refl).
  - exact (H2 (sample_datafactory_env
                 ({| integrationruntimes.get_HttpResponse := found;
                     integrationruntimes.get_Model := None |}, None)
                 ({| integrationruntimes.del_HttpResponse := None |}, None))
              (mkResourceData "" true
                 [("name", IStr "runtime"); ("data_factory_id", IStr "factory")])
              sample_world "factory"
              (factories.NewFactoryID "sub" "group" "factory") "runtime"
              {| integrationruntimes.get_HttpResponse := found;
                 integrationruntimes.get_Model := None |}
              eq_refl eq_refl eq_refl eq_refl eq_refl eq_refl).
  - refine (H3 (sample_loganalytics_env
                 ({| clusters.get_HttpResponse := found;
                     clusters.get_Model := Some (sample_cluster_with_key "key") |},
                  None))
              (mkResourceData "" true
                 [("log_analytics_cluster_id", IStr "cluster");
                  ("key_vault_key_id", IStr "other")])
              sample_world "cluster" sample_cluster_id _ _ _ _ "key"
              eq_refl eq_refl eq_refl eq_refl eq_refl eq_refl eq_refl _).
    discriminate.
Defined.

(** ** Read against a failing Get *)

(** C3: when the Get of a Read fails with a not-found answer, the Read
    removes the record from tracked state (the ID is set to empty) and
    returns no error; when it fails with any other answer, the Read
    returns that error (with the context of the resource ID) and the
    resource data is as it was. *)
Theorem Read_not_found_or_error (cloud : Type) :
  (forall (env : machinelearning.Env cloud) d (w : World cloud) id resp e,
     machinelearning.ParseWorkspaceID env (d_Id d) = inl id ->
     workspaces.client_Get (machinelearning.client env) (w_cloud w) id
     = (resp, Some e) ->
     (response_WasNotFound (workspaces.get_HttpResponse resp) = true ->
      removes_from_state (machinelearning.Read env d w) d)
     /\ (response_WasNotFound (workspaces.get_HttpResponse resp) = false ->
         returns_get_error (machinelearning.Read env d w) d
           (machinelearning.WorkspaceId_String env id) e))
  /\ (forall (env : datafactory.Env cloud) d (w : World cloud) id resp e,
        datafactory.ParseIntegrationRuntimeID env (d_Id d) = inl id ->
        integrationruntimes.client_Get (datafactory.client env) (w_cloud w) id
        = (resp, Some e) ->
        (response_WasNotFound (integrationruntimes.get_HttpResponse resp) = true ->
         removes_from_state
           (Read (resourceDataFactoryIntegrationRuntimeAzureSsis env) d w) d)
        /\ (response_WasNotFound (integrationruntimes.get_HttpResponse resp) = false ->
            returns_get_error
              (Read (resourceDataFactoryIntegrationRuntimeAzureSsis env) d w) d
              (datafactory.IntegrationRuntimeId_String env id) e))
  /\ (forall (env : loganalytics.Env cloud) d (w : World cloud) id resp e,
        loganalytics.ParseClusterID env (d_Id d) = inl id ->
        clusters.client_Get (loganalytics.client env) (w_cloud w) id
        = (resp, Some e) ->
        (response_WasNotFound (clusters.get_HttpResponse resp) = true ->
         removes_from_state
           (Read (resourceLogAnalyticsClusterCustomerManagedKey env) d w) d)
        /\ (response_WasNotFound (clusters.get_HttpResponse resp) = false ->
            returns_get_error
              (Read (resourceLogAnalyticsClusterCustomerManagedKey env) d w) d
              (loganalytics.ClusterId_String env id) e)).
Proof.
  split; [|split]; intros env d w id resp e Hp Hg.
  - unfold machinelearning.Read, removes_from_state, returns_get_error.
    rewrite Hp, Hg. split; intros ->; eexists; reflexivity.
  - cbn [Read resourceDataFactoryIntegrationRuntimeAzureSsis].
    unfold datafactory.resourceDataFactoryIntegrationRuntimeAzureSsisRead,
      removes_from_state, returns_get_error.
    rewrite Hp, Hg. split; intros ->; eexists; reflexivity.
  - cbn [Read resourceLogAnalyticsClusterCustomerManagedKey].
    unfold loganalytics.resourceLogAnalyticsClusterCustomerManagedKeyRead,
      removes_from_state, returns_get_error.
    rewrite Hp, Hg. split; intros ->; eexists; reflexivity.
Qed.

Lemma Read_not_found_or_error_witness :
  let stored := mkResourceData "tracked" false [("name", IStr "kept")] in
  (removes_from_state
     (machinelearning.Read
        (sample_machinelearning_env
           ({| workspaces.get_HttpResponse := not_found;
               workspaces.get_Model := None |}, Some (SdkError "gone")))
        stored sample_world) stored
   /\ returns_get_error
        (machinelearning.Read
           (sample_machinelearning_env
              ({| workspaces.get_HttpResponse := conflict;
                  workspaces.get_Model := None |}, Some (SdkError "busy")))
           stored sample_world) stored "hub" (SdkError "busy"))
  /\ (removes_from_state
        (datafactory.resourceDataFactoryIntegrationRuntimeAzureSsisRead
           (sample_datafactory_env
              ({| integrationruntimes.get_HttpResponse := not_found;
                  integrationruntimes.get_Model := None |}, Some (SdkError "gone"))
              ({| integrationruntimes.del_HttpResponse := None |}, None))
           stored sample_world) stored
      /\ returns_get_error
           (datafactory.resourceDataFactoryIntegrationRuntimeAzureSsisRead
              (sample_datafactory_env
                 ({| integrationruntimes.get_HttpResponse := conflict;
                     integrationruntimes.get_Model := None |}, Some (SdkError "busy"))
                 ({| integrationruntimes.del_HttpResponse := None |}, None))
              stored sample_world) stored "runtime" (SdkError "busy"))
  /\ (removes_from_state
        (loganalytics.resourceLogAnalyticsClusterCustomerManagedKeyRead
           (sample_loganalytics_env
              ({| clusters.get_HttpResponse := not_found;
                  clusters.get_Model := None |}, Some (SdkError "gone")))
           stored sample_world) stored
      /\ returns_get_error
           (loganalytics.resourceLogAnalyticsClusterCustomerManagedKeyRead
              (sample_loganalytics_env
                 ({| clusters.get_HttpResponse := conflict;
                     clusters.get_Model := None |}, Some (SdkError "busy")))
              stored sample_world) stored "cluster" (SdkError "busy")).
Proof.
  intros stored.
  destruct (Read_not_found_or_error unit) as (H1 & H2 & H3).
  pose (gone := SdkError "gone"). pose (busy := SdkError "busy").
  pose (w1 := {| workspaces.get_HttpResponse := not_found;
                 workspaces.get_Model := None |}).
  pose (w2 := {| workspaces.get_HttpResponse := conflict;
                 workspaces.get_Model := None |}).
  pose (r1 := {| integrationruntimes.get_HttpResponse := not_found;
                 integrationruntimes.get_Model := None |}).
  pose (r2 := {| integrationruntimes.get_HttpResponse := conflict;
                 integrationruntimes.get_Model := None |}).
  pose (del := ({| integrationruntimes.del_HttpResponse := None |},
                @None error)).
  pose (c1 := {| clusters.get_HttpResponse := not_found;
                 clusters.get_Model := None |}).
  pose (c2 := {| clusters.get_HttpResponse := conflict;
                 clusters.get_Model := None |}).
  split; [|split]; split.
  - exact (proj1 (H1 (sample_machinelearning_env (w1, Some gone)) stored
                    sample_world sample_workspace_id w1 gone eq_refl eq_refl)
             eq_refl).
  - exact (proj2 (H1 (sample_machinelearning_env (w2, Some busy)) stored
                    sample_world sample_workspace_id w2 busy eq_refl eq_refl)
             eq_refl).
  - exact (proj1 (H2 (sample_datafactory_env (r1, Some gone) del) stored
                    sample_world sample_runtime_id r1 gone eq_refl eq_refl)
             eq_refl).
  - exact (proj2 (H2 (sample_datafactory_env (r2, Some busy) del) stored
                    sample_world sample_runtime_id r2 busy eq_refl eq_refl)
             eq_refl).
  - exact (proj1 (H3 (sample_loganalytics_env (c1, Some gone)) stored
                    sample_world sample_cluster_id c1 gone eq_refl eq_refl)
             eq_refl).
  - exact (proj2 (H3 (sample_loganalytics_env (c2, Some busy)) stored
                    sample_world sample_cluster_id c2 busy eq_refl eq_refl)
             eq_refl).
Defined.

(** ** The lock of the customer managed key *)

Section Locks.

Variable cloud : Type.
Variable env : loganalytics.Env cloud.














End Locks.



Example customer_managed_key_create_trace :
  let env := sample_loganalytics_env
               ({| clusters.get_HttpResponse := found;
                   clusters.get_Model := Some (sample_cluster_with_key "") |}, None) in
  let d := mkResourceData "cluster" true
             [("log_analytics_cluster_id", IStr "cluster");
              ("key_vault_key_id", IStr "key")] in
  option_map (fun o => w_trace (snd o))
    (Create (resourceLogAnalyticsClusterCustomerManagedKey env) d sample_world)
  = Some [EvLock "cluster"; EvGet "cluster"; EvCreateOrUpdate "cluster";
          EvWait "cluster"; EvGet "cluster"; EvUnlock "cluster"].
Proof. reflexivity. Qed.

(** ** The sensitive fields on Read *)

Lemma map_find_map_set_eq m k v : map_find (map_set m k v) k = Some v.
Proof.
  induction m as [|[k' v'] m IH]; cbn.
  - now rewrite String.eqb_refl.
  - destruct (String.eqb k' k) eqn:E; cbn.
    + now rewrite String.eqb_refl.
    + now rewrite E.
Qed.

Lemma map_find_map_set_ne m k k' v :
  String.eqb k k' = false -> map_find (map_set m k v) k' = map_find m k'.
Proof.
  intros Hne. induction m as [|[k0 v0] m IH]; cbn.
  - now rewrite Hne.
  - destruct (String.eqb k0 k) eqn:E; cbn.
    + apply String.eqb_eq in E. subst k0. now rewrite Hne.
    + now rewrite IH.
Qed.

Lemma Get_Set_eq d k l : datafactory.Get (d_Set d k (IList l)) k = IList l.
Proof.
  unfold datafactory.Get, d_Get, d_Set. cbn [rd_values].
  now rewrite map_find_map_set_eq.
Qed.

Lemma Get_Set_ne d k k' v :
  String.eqb k k' = false ->
  datafactory.Get (d_Set d k v) k' = datafactory.Get d k'.
Proof.
  intros Hne. unfold datafactory.Get, d_Get, d_Set. cbn [rd_values].
  now rewrite map_find_map_set_ne.
Qed.









(** A value read back is empty or stored in the prior state under the
    property, in a block the filters hold of. *)
Lemma readBackSensitiveValue_from_input input propertyName filters v :
  datafactory.readBackSensitiveValue input propertyName filters = Some v ->
  v = ""
  \/ exists raw,
       In (IMap raw) input
       /\ datafactory.filters_hold raw filters = Some true
       /\ map_get raw propertyName = IStr v.
Proof.
  induction input as [|item input IH]; cbn [datafactory.readBackSensitiveValue].
  - intros H. injection H as <-. now left.
  - destruct item as [| | | | |raw]; try discriminate. cbn [as_map].
    destruct (datafactory.filters_hold raw filters) as [[|]|] eqn:Hf;
      try discriminate.
    + intros H. right. exists raw. split; [now left|]. split; [exact Hf|].
      destruct (map_get raw propertyName); try discriminate.
      cbn in H. now injection H as ->.
    + intros H. destruct (IH H) as [-> | (raw' & Hin & Hr)]; [now left|].
      right. exists raw'. split; [now right | exact Hr].
Qed.








Example license_read_back_by_name :
  option_map sensitive_fields
    (datafactory.read_ssis sample_prior_state
       (sample_ssis_properties "Standard"
          (Some [integrationruntimes.ComponentSetup "A"
                   (Some (integrationruntimes.SecureString "from the API"))])))
  = Some (INil, INil, [IStr "secret"], []).
Proof. reflexivity. Qed.

(** ** The name validator *)

Lemma den_Plus_alnum : forall pos s rest,
  den (regexp.Plus (regexp.CharClass regexp.alnum)) pos s rest ->
  s <> [] /\ forallb name_char s = true.
Proof.
  intros pos s rest H.
  remember (regexp.Plus (regexp.CharClass regexp.alnum)) as R eqn:ER.
  induction H; try discriminate; injection ER as ->.
  - inversion H as [| | |p x pos' rest' Hx| | | | | | | |]; subst.
    split; [discriminate|].
    cbn. unfold name_char. now rewrite Hx.
  - inversion H as [| | |p x pos' rest' Hx| | | | | | | |]; subst.
    split; [discriminate|].
    destruct (IHden2 eq_refl) as [_ Hall].
    cbn. unfold name_char at 1. now rewrite Hx, Hall.
Qed.

Lemma den_name_group : forall pos s rest,
  den (regexp.Capture 2
         (regexp.Alternate (regexp.Literal "-")
            (regexp.Concat (regexp.Quest (regexp.Literal "-"))
               (regexp.Plus (regexp.CharClass regexp.alnum))))) pos s rest ->
  s <> [] /\ forallb name_char s = true.
Proof.
  intros pos s rest H.
  inversion H as [| | | | | | | | | | |i r pos' s' rest' Hg]; subst. clear H.
  inversion Hg as [| | | | |r1 r2 pos' s' rest' Hl|r1 r2 pos' s' rest' Hr| | | | |];
    subst; clear Hg.
  - inversion Hl; subst. split; [discriminate | reflexivity].
  - inversion Hr as [| | | |r1 r2 pos' s1 s2 rest' Hq Hp| | | | | | |]; subst.
    apply den_Plus_alnum in Hp as [Hne Hall].
    inversion Hq as [| | | | | | |r pos' rest'|r pos' s' rest' Hd| | |]; subst.
    + split; assumption.
    + inversion Hd; subst. split; [discriminate|]. cbn. exact Hall.
Qed.

Lemma den_Plus_name_group : forall pos s rest,
  den (regexp.Plus
         (regexp.Capture 2
            (regexp.Alternate (regexp.Literal "-")
               (regexp.Concat (regexp.Quest (regexp.Literal "-"))
                  (regexp.Plus (regexp.CharClass regexp.alnum)))))) pos s rest ->
  s <> [] /\ forallb name_char s = true.
Proof.
  intros pos s rest H.
  remember (regexp.Plus _) as R eqn:ER.
  induction H; try discriminate; injection ER as ->.
  - now apply den_name_group in H.
  - apply den_name_group in H as [Hne Hall].
    destruct (IHden2 eq_refl) as [_ Hall2]. split.
    + destruct s1; [congruence | discriminate].
    + now rewrite forallb_app, Hall, Hall2.
Qed.

(** What the name validator accepts has a letter or digit first and
    last, something in between, and letters, digits and dashes only. *)
Lemma name_validator_accepted_shape (v k : string) :
  validation.accepts datafactory.name_ValidateFunc (IStr v) k = true ->
  (exists x mid y,
     list_ascii_of_string v = x :: mid ++ [y]
     /\ regexp.alnum x = true /\ regexp.alnum y = true /\ mid <> [])
  /\ forallb name_char (list_ascii_of_string v) = true
  /\ 3 <= String.length v.
Proof.
  unfold validation.accepts, datafactory.name_ValidateFunc, datafactory.StringMatch,
    regexp.MatchString.
  destruct (regexp.exec datafactory.name_pattern v) as [c|] eqn:E;
    [intros _ | discriminate].
  unfold datafactory.name_pattern in E. rewrite exec_anchored in E. cbn zeta in E.
  remember (list_ascii_of_string v) as l eqn:El.
  apply backtrack_sound in E as (s1 & s2 & c' & -> & Hden & _).
  inversion Hden as [| | | |r1 r2 pos t1 t2 rest Hcap Hend| | | | | | |]; subst.
  inversion Hend; subst.
  inversion Hcap as [| | | | | | | | | | |i r pos' s' rest' Hbody]; subst.
  inversion Hbody as [| | | |r1 r2 pos' u1 u2 rest' Hfirst Htail| | | | | | |]; subst.
  inversion Hfirst as [| | |p x pos' rest' Hx| | | | | | | |]; subst.
  inversion Htail as [| | | |r1 r2 pos' m1 m2 rest' Hmid Hlast| | | | | | |]; subst.
  inversion Hlast as [| | |p y pos' rest' Hy| | | | | | | |]; subst.
  apply den_Plus_name_group in Hmid as [Hne Hall].
  assert (Hv : list_ascii_of_string v = x :: m1 ++ [y])
    by (rewrite <- El; cbn; now rewrite !app_nil_r).
  rewrite El. split; [|split].
  - exists x, m1, y. auto.
  - rewrite Hv. cbn [forallb]. rewrite forallb_app, Hall. cbn [forallb].
    unfold name_char. now rewrite Hx, Hy.
  - rewrite <- length_list_ascii_of_string, Hv. cbn [length].
    rewrite length_app. cbn [length].
    destruct m1; [congruence | cbn; lia].
Qed.

(** C10, at the name [a--b]: the validator accepts it, and it contains
    two consecutive dashes. *)
Theorem name_validator_accepts_consecutive_dashes :
  validation.accepts datafactory.name_ValidateFunc (IStr "a--b") "name" = true
  /\ has_consecutive_dashes "a--b" = true.
Proof. split; vm_compute; reflexivity. Qed.

(** * Further properties of the three resources *)

(** ** Round trips of the blocks of the integration runtime *)

Lemma first_block_of_Get d k m more :
  datafactory.Get d k = IList (IMap m :: more) ->
  datafactory.first_block d k = Some (Some m).
Proof.
  intros H. unfold datafactory.first_block, datafactory.GetOk, d_GetOk.
  fold (datafactory.Get d k). rewrite H. reflexivity.
Qed.

Ltac split_binds H :=
  repeat match type of H with
         | match ?x with _ => _ end = Some _ =>
             let E := fresh "E" in destruct x eqn:E; try discriminate H
         end.

(** The copy compute scale of a configuration comes back from the
    request payload as it was written, unless both of its values are
    zero: then the payload has no copy compute scale and the block is
    gone. *)
Theorem copy_compute_scale_round_trip (cloud : Type)
  (env : datafactory.Env cloud) (d : ResourceData) (u t : Z) more cp :
  datafactory.Get d "copy_compute_scale"
  = IList (copy_compute_scale_block u t :: more) ->
  datafactory.expandDataFactoryIntegrationRuntimeAzureSsisComputeProperties env d
  = Some cp ->
  datafactory.flattenDataFactoryIntegrationRuntimeAzureSsisCopyComputeScale
    (integrationruntimes.cp_CopyComputeScaleProperties cp)
  = if (u =? 0)%Z && (t =? 0)%Z then [] else [copy_compute_scale_block u t].
Proof.
  intros Hget H.
  unfold datafactory.expandDataFactoryIntegrationRuntimeAzureSsisComputeProperties in H.
  rewrite (first_block_of_Get _ _ Hget) in H.
  split_binds H. injection H as <-.
  cbn [integrationruntimes.cp_CopyComputeScaleProperties].
  match goal with
  | E : datafactory.expand_copy_compute_scale _ = Some _ |- _ =>
      unfold datafactory.expand_copy_compute_scale in E; cbn in E;
      injection E as <-
  end.
  destruct (Z.eqb_spec u 0), (Z.eqb_spec t 0); subst; reflexivity.
Qed.

Lemma copy_compute_scale_round_trip_witness :
  let d := mkResourceData "" true
             [("copy_compute_scale", IList [copy_compute_scale_block 8 5])] in
  option_map
    (fun cp =>
       datafactory.flattenDataFactoryIntegrationRuntimeAzureSsisCopyComputeScale
         (integrationruntimes.cp_CopyComputeScaleProperties cp))
    (datafactory.expandDataFactoryIntegrationRuntimeAzureSsisComputeProperties
       plain_datafactory_env d)
  = Some [copy_compute_scale_block 8 5].
Proof.
  intros d.
  destruct (datafactory.expandDataFactoryIntegrationRuntimeAzureSsisComputeProperties
              plain_datafactory_env d) as [cp|] eqn:E; [|discriminate E].
  cbn [option_map]. f_equal.
  exact (@copy_compute_scale_round_trip unit plain_datafactory_env d 8 5 [] cp
           eq_refl E).
Defined.

Lemma flatten_expand_proxy_block (path selfHosted staging : string)
  (more : list iface) p :
  datafactory.expandDataFactoryIntegrationRuntimeAzureSsisProxy
    (proxy_block path selfHosted staging :: more) = Some p ->
  datafactory.flattenDataFactoryIntegrationRuntimeAzureSsisProxy p
  = [proxy_block path selfHosted staging].
Proof.
  cbn. intros H. injection H as <-. cbn.
  destruct (String.eqb_spec path ""); subst; reflexivity.
Qed.

(** The proxy block of a configuration comes back from the request
    payload as it was written, with or without a path; an empty list
    gives no proxy and comes back empty. *)
Theorem proxy_round_trip (path selfHosted staging : string) (more : list iface) :
  option_map datafactory.flattenDataFactoryIntegrationRuntimeAzureSsisProxy
    (datafactory.expandDataFactoryIntegrationRuntimeAzureSsisProxy
       (proxy_block path selfHosted staging :: more))
  = Some [proxy_block path selfHosted staging]
  /\ option_map datafactory.flattenDataFactoryIntegrationRuntimeAzureSsisProxy
       (datafactory.expandDataFactoryIntegrationRuntimeAzureSsisProxy [])
     = Some [].
Proof.
  split; [|reflexivity]. cbn.
  destruct (String.eqb_spec path ""); subst; reflexivity.
Qed.

Lemma expand_package_stores_blocks (l : list (string * string)) :
  datafactory.expand_package_stores (map package_store_block l)
  = Some (map (fun b =>
                 {| integrationruntimes.ps_Name := fst b;
                    integrationruntimes.ps_PackageStoreLinkedService :=
                      {| integrationruntimes.er_Type := Some "LinkedServiceReference";
                         integrationruntimes.er_ReferenceName := Some (snd b) |} |})
              l).
Proof.
  induction l as [|b l IH]; [reflexivity|].
  cbn [map datafactory.expand_package_stores package_store_block as_map].
  cbn [map_get String.eqb Ascii.eqb Bool.eqb as_string]. cbn.
  cbn in IH. rewrite IH. reflexivity.
Qed.

Lemma flatten_expand_package_stores (l : list (string * string)) stores :
  datafactory.expandDataFactoryIntegrationRuntimeAzureSsisPackageStore
    (map package_store_block l) = Some stores ->
  datafactory.flattenDataFactoryIntegrationRuntimeAzureSsisPackageStore stores
  = map package_store_block l.
Proof.
  destruct l as [|b l]; [intros H; injection H as <-; reflexivity|].
  unfold datafactory.expandDataFactoryIntegrationRuntimeAzureSsisPackageStore.
  change (map package_store_block (b :: l))
    with (package_store_block b :: map package_store_block l) at 1.
  cbv iota beta.
  change (package_store_block b :: map package_store_block l)
    with (map package_store_block (b :: l)).
  rewrite expand_package_stores_blocks. intros H. injection H as <-.
  unfold datafactory.flattenDataFactoryIntegrationRuntimeAzureSsisPackageStore.
  cbn [map]. f_equal. rewrite map_map. reflexivity.
Qed.

(** Every list of package stores comes back from the request payload as
    it was written, in its order. *)
Theorem package_store_round_trip (l : list (string * string)) :
  option_map datafactory.flattenDataFactoryIntegrationRuntimeAzureSsisPackageStore
    (datafactory.expandDataFactoryIntegrationRuntimeAzureSsisPackageStore
       (map package_store_block l))
  = Some (map package_store_block l).
Proof.
  destruct l as [|b l]; [reflexivity|].
  unfold datafactory.expandDataFactoryIntegrationRuntimeAzureSsisPackageStore.
  change (map package_store_block (b :: l))
    with (package_store_block b :: map package_store_block l) at 1.
  cbv iota beta.
  change (package_store_block b :: map package_store_block l)
    with (map package_store_block (b :: l)).
  rewrite expand_package_stores_blocks. cbn [option_map].
  unfold datafactory.flattenDataFactoryIntegrationRuntimeAzureSsisPackageStore.
  rewrite map_map. reflexivity.
Qed.

(** A key vault secret reference (of a license or a password) comes back
    from the request payload as it was written, with or without a
    secret version and parameters. *)
Theorem key_vault_secret_round_trip (linkedService : string)
  (parameters : list (string * iface)) (secretName secretVersion : string)
  (more : list iface) :
  option_map
    datafactory.flattenDataFactoryIntegrationRuntimeAzureSsisKeyVaultSecretReference
    (datafactory.expandDataFactoryIntegrationRuntimeAzureSsisKeyVaultSecretReference
       (key_vault_secret_block linkedService parameters secretName secretVersion
        :: more))
  = Some [key_vault_secret_block linkedService parameters secretName secretVersion].
Proof.
  cbn. destruct (String.eqb_spec secretVersion ""); subst;
    destruct parameters; reflexivity.
Qed.

Lemma pointer_From_nonempty (s : string) :
  pointer_From_string (if negb (String.eqb s "") then Some s else None) = s.
Proof. destruct (String.eqb_spec s ""); subst; reflexivity. Qed.

(** The catalog info of a configuration whose stored state is that
    configuration comes back from the request payload as it was written:
    the elastic pool name through the pricing tier of the payload, the
    pricing tier as itself, the password from the stored state.  The
    pool name has no line feed, the pricing tier is not of the elastic
    pool format, and one of the two is empty. *)
Theorem catalog_info_round_trip (d : ResourceData)
  (serverEndpoint pricingTier elasticPoolName administratorLogin
   administratorPassword dualStandbyPairName : string) (more : list iface) sp :
  datafactory.Get d "catalog_info"
  = IList (catalog_info_block serverEndpoint pricingTier elasticPoolName
             administratorLogin administratorPassword dualStandbyPairName
           :: more) ->
  (elasticPoolName = ""
   /\ forall s,
        pricingTier <> datafactory.formatDataFactoryIntegrationRuntimeElasticPool s)
  \/ (elasticPoolName <> "" /\ no_newline elasticPoolName /\ pricingTier = "") ->
  datafactory.expandDataFactoryIntegrationRuntimeAzureSsisProperties d = Some sp ->
  datafactory.flattenDataFactoryIntegrationRuntimeAzureSsisCatalogInfo
    (integrationruntimes.sp_CatalogInfo sp) d
  = Some [catalog_info_block serverEndpoint pricingTier elasticPoolName
            administratorLogin administratorPassword dualStandbyPairName].
Proof.
  intros Hget Hcase H.
  unfold datafactory.expandDataFactoryIntegrationRuntimeAzureSsisProperties in H.
  rewrite (first_block_of_Get _ _ Hget) in H.
  split_binds H. injection H as <-.
  cbn [integrationruntimes.sp_CatalogInfo].
  match goal with
  | E : context [datafactory.expand_catalog_info] |- _ =>
      rename E into Hc; unfold datafactory.expand_catalog_info in Hc; cbn -[datafactory.formatDataFactoryIntegrationRuntimeElasticPool] in Hc
  end.
  unfold datafactory.flattenDataFactoryIntegrationRuntimeAzureSsisCatalogInfo.
  unfold datafactory.GetOk_at, d_GetOk_at. fold (datafactory.Get d "catalog_info").
  rewrite Hget.
  assert (Hpw : (let (adminPassword, ok) :=
                   (read_at
                      (IList
                         (catalog_info_block serverEndpoint pricingTier
                            elasticPoolName administratorLogin
                            administratorPassword dualStandbyPairName :: more))
                      [Index 0; Key "administrator_password"],
                    negb (is_zero
                      (read_at
                         (IList
                            (catalog_info_block serverEndpoint pricingTier
                               elasticPoolName administratorLogin
                               administratorPassword dualStandbyPairName :: more))
                         [Index 0; Key "administrator_password"]))) in
                 if ok then as_string adminPassword else Some "")
                = Some administratorPassword)
    by (cbn; destruct (String.eqb_spec administratorPassword ""); subst;
        reflexivity).
  destruct Hcase as [[-> Hno] | (Hne & Hnl & ->)].
  - cbn -[datafactory.formatDataFactoryIntegrationRuntimeElasticPool] in Hc. injection Hc as <-.
    cbn [integrationruntimes.ci_CatalogPricingTier pointer_From_string
         integrationruntimes.ci_CatalogServerEndpoint
         integrationruntimes.ci_CatalogAdminUserName
         integrationruntimes.ci_DualStandbyPairName].
    rewrite (parse_elastic_pool_other Hno). cbn [negb].
    rewrite Hpw, !pointer_From_nonempty. reflexivity.
  - pose proof Hne as Hne'. apply String.eqb_neq in Hne'.
    rewrite Hne' in Hc. cbn -[datafactory.formatDataFactoryIntegrationRuntimeElasticPool] in Hc. injection Hc as <-.
    cbn [integrationruntimes.ci_CatalogPricingTier pointer_From_string
         integrationruntimes.ci_CatalogServerEndpoint
         integrationruntimes.ci_CatalogAdminUserName
         integrationruntimes.ci_DualStandbyPairName].
    rewrite parse_format_elastic_pool by assumption.
    cbn [negb]. rewrite Hpw, !pointer_From_nonempty. reflexivity.
Qed.

Lemma catalog_info_round_trip_witness :
  let block := catalog_info_block "server" "" "pool" "admin" "secret" "" in
  let d := mkResourceData "" true [("catalog_info", IList [block])] in
  match datafactory.expandDataFactoryIntegrationRuntimeAzureSsisProperties d with
  | Some sp =>
      datafactory.flattenDataFactoryIntegrationRuntimeAzureSsisCatalogInfo
        (integrationruntimes.sp_CatalogInfo sp) d
  | None => None
  end = Some [block].
Proof.
  intros block d.
  destruct (datafactory.expandDataFactoryIntegrationRuntimeAzureSsisProperties d)
    as [sp|] eqn:E; [|discriminate E].
  refine (@catalog_info_round_trip d "server" "" "pool" "admin" "secret" "" []
            sp eq_refl _ E).
  right. split; [discriminate | split; reflexivity].
Defined.

(** The setup script of a configuration whose stored state is that
    configuration comes back from the request payload as it was written:
    the container URI from the payload, the SAS token from the stored
    state; a block with an empty SAS token comes back without the key. *)
Theorem custom_setup_script_round_trip (d : ResourceData)
  (blobContainerUri sasToken : string) (more : list iface) sp :
  datafactory.Get d "custom_setup_script"
  = IList (custom_setup_script_block blobContainerUri sasToken :: more) ->
  datafactory.expandDataFactoryIntegrationRuntimeAzureSsisProperties d = Some sp ->
  datafactory.flattenDataFactoryIntegrationRuntimeAzureSsisCustomSetupScript
    (integrationruntimes.sp_CustomSetupScriptProperties sp) d
  = Some [if String.eqb sasToken ""
          then IMap [("blob_container_uri", IStr blobContainerUri)]
          else custom_setup_script_block blobContainerUri sasToken].
Proof.
  intros Hget H.
  unfold datafactory.expandDataFactoryIntegrationRuntimeAzureSsisProperties in H.
  rewrite (first_block_of_Get _ "custom_setup_script" Hget) in H.
  cbn [map_get String.eqb Ascii.eqb Bool.eqb as_string] in H.
  split_binds H. injection H as <-.
  cbn [integrationruntimes.sp_CustomSetupScriptProperties].
  unfold datafactory.flattenDataFactoryIntegrationRuntimeAzureSsisCustomSetupScript.
  unfold datafactory.GetOk_at, d_GetOk_at.
  fold (datafactory.Get d "custom_setup_script"). rewrite Hget.
  cbn. destruct (String.eqb sasToken ""); reflexivity.
Qed.

Lemma custom_setup_script_round_trip_witness :
  let block := custom_setup_script_block "https://container" "token" in
  let d := mkResourceData "" true [("custom_setup_script", IList [block])] in
  match datafactory.expandDataFactoryIntegrationRuntimeAzureSsisProperties d with
  | Some sp =>
      datafactory.flattenDataFactoryIntegrationRuntimeAzureSsisCustomSetupScript
        (integrationruntimes.sp_CustomSetupScriptProperties sp) d
  | None => None
  end = Some [block].
Proof.
  intros block d.
  destruct (datafactory.expandDataFactoryIntegrationRuntimeAzureSsisProperties d)
    as [sp|] eqn:E; [|discriminate E].
  exact (@custom_setup_script_round_trip d "https://container" "token" [] sp
           eq_refl E).
Defined.

(** ** Reading back a sensitive value *)

(** The value read back is that of the first block the filters hold of,
    whatever follows it; it is empty when the filters hold of no block. *)
Theorem readBackSensitiveValue_first_match (propertyName : string)
  (filters : list (string * string)) (before after : list iface)
  (raw : list (string * iface)) (v : string) :
  (forall x, In x before ->
     exists m, x = IMap m /\ datafactory.filters_hold m filters = Some false) ->
  (datafactory.filters_hold raw filters = Some true ->
   map_get raw propertyName = IStr v ->
   datafactory.readBackSensitiveValue (before ++ IMap raw :: after)
     propertyName filters = Some v)
  /\ datafactory.readBackSensitiveValue before propertyName filters = Some "".
Proof.
  induction before as [|x before IH]; intros Hbefore.
  - split; [|reflexivity]. intros Hf Hv. cbn. now rewrite Hf, Hv.
  - destruct (Hbefore x (or_introl eq_refl)) as (m & -> & Hm).
    destruct IH as [IH1 IH2]; [intros y Hy; apply Hbefore; now right|].
    split.
    + intros Hf Hv. cbn. rewrite Hm. now apply IH1.
    + cbn. now rewrite Hm.
Qed.

Lemma readBackSensitiveValue_first_match_witness :
  datafactory.readBackSensitiveValue
    ([component_block "B" "other" []]
     ++ IMap [("name", IStr "A"); ("key_vault_license", IList []);
              ("license", IStr "first")]
     :: [component_block "A" "second" []])
    "license" [("name", "A")]
  = Some "first"
  /\ datafactory.readBackSensitiveValue [component_block "B" "other" []]
       "license" [("name", "A")]
     = Some "".
Proof.
  destruct (@readBackSensitiveValue_first_match "license" [("name", "A")]
              [component_block "B" "other" []] [component_block "A" "second" []]
              [("name", IStr "A"); ("key_vault_license", IList []);
               ("license", IStr "first")] "first") as [H1 H2].
  - intros x [<- | []]. eexists. split; reflexivity.
  - split; [exact (H1 eq_refl eq_refl) | exact H2].
Defined.

(** ** Create, Read and Delete of the integration runtime *)

Lemma read_ssis_Id d p d' :
  datafactory.read_ssis d p = Some d' ->
  rd_Id d' = rd_Id d /\ rd_IsNewResource d' = rd_IsNewResource d.
Proof.
  unfold datafactory.read_ssis. intros H.
  split_binds H. injection H as <-. split; reflexivity.
Qed.

(** Read changes the tracked ID in one case only: it empties it, and
    returns no error, when the Get failed with a not-found answer.  It
    never changes whether the resource counts as new. *)
Theorem Read_keeps_or_empties_Id (cloud : Type) (env : datafactory.Env cloud)
  (d : ResourceData) (w : World cloud) r d' w' :
  datafactory.resourceDataFactoryIntegrationRuntimeAzureSsisRead env d w
  = Some (r, d', w') ->
  rd_IsNewResource d' = rd_IsNewResource d
  /\ (d_Id d' = d_Id d
      \/ (d_Id d' = "" /\ r = None
          /\ exists id resp e,
               datafactory.ParseIntegrationRuntimeID env (d_Id d) = inl id
               /\ integrationruntimes.client_Get (datafactory.client env)
                    (w_cloud w) id = (resp, Some e)
               /\ response_WasNotFound
                    (integrationruntimes.get_HttpResponse resp) = true)).
Proof.
  unfold datafactory.resourceDataFactoryIntegrationRuntimeAzureSsisRead.
  destruct (datafactory.ParseIntegrationRuntimeID env (d_Id d)) as [id|err] eqn:Hp.
  2:{ intros H. injection H as <- <- <-. auto. }
  destruct (integrationruntimes.client_Get _ _ id) as [resp err] eqn:Hg.
  destruct err as [e|].
  { destruct (response_WasNotFound _) eqn:Hnf; intros H; injection H as <- <- <-.
    - split; [reflexivity|]. right. repeat split. now exists id, resp, e.
    - auto. }
  destruct (integrationruntimes.get_Model resp) as [model|].
  2:{ intros H. injection H as <- <- <-. auto. }
  destruct (integrationruntimes.irr_Properties model) as [runTime|].
  2:{ intros H. injection H as <- <- <-. auto. }
  destruct (integrationruntimes.tp_SsisProperties _) as [ssisProps|].
  - destruct (datafactory.read_ssis _ ssisProps) as [d1|] eqn:E; [|discriminate].
    apply read_ssis_Id in E as [E1 E2].
    intros H. injection H as <- <- <-. unfold d_Id. cbn [d_Set rd_Id rd_IsNewResource].
    rewrite E1, E2.
    destruct (integrationruntimes.tp_ComputeProperties _); auto.
  - intros H. injection H as <- <- <-.
    destruct (integrationruntimes.tp_ComputeProperties _); auto.
Qed.

Lemma Read_keeps_or_empties_Id_witness :
  let d := mkResourceData "runtime" false [("name", IStr "old")] in
  option_map (fun o => d_Id (snd (fst o)))
    (datafactory.resourceDataFactoryIntegrationRuntimeAzureSsisRead
       plain_datafactory_env d sample_world)
  = Some "runtime".
Proof.
  intros d.
  destruct (datafactory.resourceDataFactoryIntegrationRuntimeAzureSsisRead
              plain_datafactory_env d sample_world) as [[[r d'] w']|] eqn:E;
    [|vm_compute in E; discriminate E].
  cbn [option_map fst snd]. f_equal.
  destruct (@Read_keeps_or_empties_Id unit plain_datafactory_env d sample_world
              r d' w' E) as [_ [Hid | (_ & _ & id & resp & e & _ & Hg & _)]].
  - exact Hid.
  - discriminate Hg.
Defined.

Lemma Read_runtime_trace (cloud : Type) (env : datafactory.Env cloud)
  (d : ResourceData) (w : World cloud) r d' w' :
  datafactory.resourceDataFactoryIntegrationRuntimeAzureSsisRead env d w
  = Some (r, d', w') ->
  exists evs, w_trace w' = w_trace w ++ evs
              /\ forallb (fun e => negb (is_CreateOrUpdate e)) evs = true.
Proof.
  unfold datafactory.resourceDataFactoryIntegrationRuntimeAzureSsisRead.
  destruct (datafactory.ParseIntegrationRuntimeID env (d_Id d)) as [id|err].
  2:{ intros H. injection H as <- <- <-. exists []. now rewrite app_nil_r. }
  destruct (integrationruntimes.client_Get _ _ id) as [resp err].
  intros H.
  exists [EvGet (datafactory.IntegrationRuntimeId_ID env id)].
  split; [|reflexivity].
  destruct err as [e|].
  { destruct (response_WasNotFound _); injection H as <- <- <-; reflexivity. }
  destruct (integrationruntimes.get_Model resp) as [model|].
  2:{ injection H as <- <- <-; reflexivity. }
  destruct (integrationruntimes.irr_Properties model) as [runTime|].
  2:{ injection H as <- <- <-; reflexivity. }
  split_binds H. injection H as <- <- <-. reflexivity.
Qed.

(** When the remote side refuses every CreateOrUpdate, CreateUpdate
    returns an error and leaves the resource data as it was: no ID is
    set and no field is written. *)
Theorem CreateUpdate_refused_keeps_data (cloud : Type)
  (env : datafactory.Env cloud) (d : ResourceData) (w : World cloud) r d' w' :
  (forall c id payload,
     snd (integrationruntimes.client_CreateOrUpdate (datafactory.client env)
            c id payload) <> None) ->
  datafactory.resourceDataFactoryIntegrationRuntimeAzureSsisCreateUpdate env d w
  = Some (r, d', w') ->
  r <> None /\ d' = d.
Proof.
  intros Hfail.
  assert (Hcr : forall w0 id,
             datafactory.create_and_read env d w0 id = Some (r, d', w') ->
             r <> None /\ d' = d).
  { intros w0 id H. unfold datafactory.create_and_read in H.
    destruct (datafactory.create_payload env d id) as [p|]; [|discriminate H].
    cbn beta iota in H.
    specialize (Hfail (w_cloud w0) id p).
    destruct (integrationruntimes.client_CreateOrUpdate _ _ id p) as [c err].
    destruct err as [e|]; [|now elim Hfail].
    injection H as <- <- <-. split; [discriminate | reflexivity]. }
  unfold datafactory.resourceDataFactoryIntegrationRuntimeAzureSsisCreateUpdate.
  destruct (as_string _) as [raw|]; [|discriminate].
  cbn beta iota.
  destruct (datafactory.ParseFactoryID env raw) as [fid|err].
  2:{ intros H. injection H as <- <- <-. split; [discriminate | reflexivity]. }
  destruct (as_string _) as [name|]; [|discriminate].
  cbn beta iota.
  destruct (rd_IsNewResource d); [|apply Hcr].
  destruct (integrationruntimes.client_Get _ _ _) as [existing err].
  destruct err as [e|];
    (destruct (response_WasNotFound _); cbn [negb];
     [apply Hcr
     |intros H; injection H as <- <- <-; split; [discriminate | reflexivity]]).
Qed.

Lemma CreateUpdate_refused_keeps_data_witness :
  let env := refusing_datafactory_env (SdkError "conflict") in
  let d := minimal_runtime_data false in
  option_map (fun o => snd (fst o))
    (datafactory.resourceDataFactoryIntegrationRuntimeAzureSsisCreateUpdate
       env d sample_world)
  = Some d.
Proof.
  intros env d.
  destruct (datafactory.resourceDataFactoryIntegrationRuntimeAzureSsisCreateUpdate
              env d sample_world) as [[[r d'] w']|] eqn:E;
    [|vm_compute in E; discriminate E].
  cbn [option_map fst snd]. f_equal.
  refine (proj2 (@CreateUpdate_refused_keeps_data unit env d sample_world
                   r d' w' _ E)).
  intros c id payload. discriminate.
Defined.

Lemma Read_runtime_Id (cloud : Type) (env : datafactory.Env cloud)
  (d : ResourceData) (w : World cloud) r d' w' :
  datafactory.resourceDataFactoryIntegrationRuntimeAzureSsisRead env d w
  = Some (r, d', w') ->
  d_Id d' = d_Id d \/ d_Id d' = "".
Proof.
  unfold datafactory.resourceDataFactoryIntegrationRuntimeAzureSsisRead.
  destruct (datafactory.ParseIntegrationRuntimeID env (d_Id d)) as [id|err].
  2:{ intros H. injection H as <- <- <-. auto. }
  destruct (integrationruntimes.client_Get _ _ id) as [resp err].
  destruct err as [e|].
  { destruct (response_WasNotFound _); intros H; injection H as <- <- <-; auto. }
  destruct (integrationruntimes.get_Model resp) as [model|].
  2:{ intros H. injection H as <- <- <-. auto. }
  destruct (integrationruntimes.irr_Properties model) as [runTime|].
  2:{ intros H. injection H as <- <- <-. auto. }
  destruct (integrationruntimes.tp_SsisProperties _) as [ssisProps|].
  - destruct (datafactory.read_ssis _ ssisProps) as [d1|] eqn:E; [|discriminate].
    apply read_ssis_Id in E as [E1 _].
    intros H. injection H as <- <- <-. unfold d_Id. cbn [d_Set rd_Id].
    rewrite E1.
    destruct (integrationruntimes.tp_ComputeProperties _); auto.
  - intros H. injection H as <- <- <-.
    destruct (integrationruntimes.tp_ComputeProperties _); auto.
Qed.

Lemma as_string_Some v s : as_string v = Some s -> v = IStr s.
Proof. destruct v; cbn; intros H; try discriminate H. now injection H as <-. Qed.

(** CreateUpdate returns no error only after a CreateOrUpdate of the ID
    built from the data factory and the name has been sent, and that is
    the only write it sends.  The tracked ID is then that ID, or empty
    when the Read that follows the write found the runtime gone. *)
Theorem CreateUpdate_success_after_write (cloud : Type)
  (env : datafactory.Env cloud) (d : ResourceData) (w : World cloud) d' w' :
  datafactory.resourceDataFactoryIntegrationRuntimeAzureSsisCreateUpdate env d w
  = Some (None, d', w') ->
  exists raw dataFactoryId name,
    datafactory.Get d "data_factory_id" = IStr raw
    /\ datafactory.ParseFactoryID env raw = inl dataFactoryId
    /\ datafactory.Get d "name" = IStr name
    /\ let id := datafactory.IntegrationRuntimeId_ID env
                   (integrationruntimes.NewIntegrationRuntimeID
                      (factories.SubscriptionId dataFactoryId)
                      (factories.ResourceGroupName dataFactoryId)
                      (factories.FactoryName dataFactoryId) name) in
       (d_Id d' = id \/ d_Id d' = "")
       /\ exists before after,
            w_trace w' = w_trace w ++ before ++ EvCreateOrUpdate id :: after
            /\ forallb (fun e => negb (is_CreateOrUpdate e)) (before ++ after)
               = true.
Proof.
  unfold datafactory.resourceDataFactoryIntegrationRuntimeAzureSsisCreateUpdate.
  destruct (as_string (datafactory.Get d "data_factory_id")) as [raw|] eqn:Hraw;
    [|discriminate].
  apply as_string_Some in Hraw. cbn beta iota.
  destruct (datafactory.ParseFactoryID env raw) as [fid|err] eqn:Hfid;
    [|discriminate].
  destruct (as_string (datafactory.Get d "name")) as [name|] eqn:Hname;
    [|discriminate].
  apply as_string_Some in Hname. cbn beta iota.
  set (rid := integrationruntimes.NewIntegrationRuntimeID _ _ _ name).
  intros H. exists raw, fid, name.
  split; [exact Hraw|]. split; [exact Hfid|]. split; [exact Hname|].
  fold rid. cbv zeta.
  assert (Hcr : forall w0 before,
             w_trace w0 = w_trace w ++ before ->
             forallb (fun e => negb (is_CreateOrUpdate e)) before = true ->
             datafactory.create_and_read env d w0 rid = Some (None, d', w') ->
             (d_Id d' = datafactory.IntegrationRuntimeId_ID env rid \/ d_Id d' = "")
             /\ exists before after,
                  w_trace w' = w_trace w ++ before
                               ++ EvCreateOrUpdate
                                    (datafactory.IntegrationRuntimeId_ID env rid)
                                  :: after
                  /\ forallb (fun e => negb (is_CreateOrUpdate e)) (before ++ after)
                     = true).
  { intros w0 before Hw0 Hb Hrun. unfold datafactory.create_and_read in Hrun.
    destruct (datafactory.create_payload env d rid) as [p|]; [|discriminate Hrun].
    cbn beta iota in Hrun.
    destruct (integrationruntimes.client_CreateOrUpdate _ _ rid p) as [c err].
    destruct err as [e|]; [discriminate Hrun|].
    split.
    - apply Read_runtime_Id in Hrun. exact Hrun.
    - apply Read_runtime_trace in Hrun as (evs & Ht & Hevs).
      exists before, evs. split.
      + rewrite Ht. cbn [emit with_cloud w_trace]. rewrite Hw0.
        rewrite <- !app_assoc. reflexivity.
      + rewrite forallb_app, Hb, Hevs. reflexivity. }
  destruct (rd_IsNewResource d).
  - destruct (integrationruntimes.client_Get _ _ _) as [existing err].
    destruct err as [e|];
      (destruct (response_WasNotFound _); cbn [negb] in H; [|discriminate H];
       refine (Hcr _ [EvGet (datafactory.IntegrationRuntimeId_ID env rid)]
                 _ _ H); reflexivity).
  - refine (Hcr w [] _ eq_refl H). now rewrite app_nil_r.
Qed.

Lemma CreateUpdate_success_after_write_witness :
  match datafactory.resourceDataFactoryIntegrationRuntimeAzureSsisCreateUpdate
          plain_datafactory_env (minimal_runtime_data false) sample_world with
  | Some (None, d', _) => d_Id d' = "runtime" \/ d_Id d' = ""
  | _ => False
  end.
Proof.
  destruct (datafactory.resourceDataFactoryIntegrationRuntimeAzureSsisCreateUpdate
              plain_datafactory_env (minimal_runtime_data false) sample_world)
    as [[[[e|] d'] w']|] eqn:E; try (vm_compute in E; discriminate E).
  destruct (@CreateUpdate_success_after_write unit plain_datafactory_env
              (minimal_runtime_data false) sample_world d' w' E)
    as (raw & fid & name & Hraw & Hfid & Hname & Hid & _).
  vm_compute in Hname. injection Hname as <-.
  exact Hid.
Defined.

Lemma read_ssis_proxy_package_store d p d' :
  datafactory.read_ssis d p = Some d' ->
  datafactory.Get d' "proxy"
  = IList (datafactory.flattenDataFactoryIntegrationRuntimeAzureSsisProxy
             (integrationruntimes.sp_DataProxyProperties p))
  /\ datafactory.Get d' "package_store"
     = IList (datafactory.flattenDataFactoryIntegrationRuntimeAzureSsisPackageStore
                (integrationruntimes.sp_PackageStores p)).
Proof.
  unfold datafactory.read_ssis. intros H.
  split_binds H. injection H as <-. split.
  - apply Get_Set_eq.
  - rewrite Get_Set_ne by reflexivity. apply Get_Set_eq.
Qed.

Lemma expand_ssis_proxy_package_store d ssis proxyList storeList :
  datafactory.Get d "proxy" = IList proxyList ->
  datafactory.Get d "package_store" = IList storeList ->
  datafactory.expandDataFactoryIntegrationRuntimeAzureSsisProperties d = Some ssis ->
  datafactory.expandDataFactoryIntegrationRuntimeAzureSsisProxy proxyList
  = Some (integrationruntimes.sp_DataProxyProperties ssis)
  /\ datafactory.expandDataFactoryIntegrationRuntimeAzureSsisPackageStore storeList
     = Some (integrationruntimes.sp_PackageStores ssis).
Proof.
  intros Hp Hs H.
  unfold datafactory.expandDataFactoryIntegrationRuntimeAzureSsisProperties in H.
  rewrite Hp, Hs in H. cbn [as_list] in H.
  split_binds H. injection H as <-.
  cbn [integrationruntimes.sp_DataProxyProperties
       integrationruntimes.sp_PackageStores].
  split; reflexivity.
Qed.

(** Against a remote side that answers a Get with the runtime it was
    last sent, a create or an update that returns does so without error,
    tracks the ID built from the data factory and the name, and leaves
    in state the proxy and the package stores of the configuration. *)
Theorem CreateUpdate_keeps_proxy_and_package_stores (cloud : Type)
  (env : datafactory.Env cloud) (d : ResourceData) (w : World cloud)
  raw dataFactoryId name path selfHosted staging more stores r d' w' :
  datafactory.Get d "data_factory_id" = IStr raw ->
  datafactory.ParseFactoryID env raw = inl dataFactoryId ->
  datafactory.Get d "name" = IStr name ->
  datafactory.Get d "proxy"
  = IList (proxy_block path selfHosted staging :: more) ->
  datafactory.Get d "package_store" = IList (map package_store_block stores) ->
  let id := integrationruntimes.NewIntegrationRuntimeID
              (factories.SubscriptionId dataFactoryId)
              (factories.ResourceGroupName dataFactoryId)
              (factories.FactoryName dataFactoryId) name in
  let remote := datafactory.client env in
  datafactory.ParseIntegrationRuntimeID env
    (datafactory.IntegrationRuntimeId_ID env id) = inl id ->
  (rd_IsNewResource d = true ->
   response_WasNotFound
     (integrationruntimes.get_HttpResponse
        (fst (integrationruntimes.client_Get remote (w_cloud w) id))) = true) ->
  (forall c runtime,
     snd (integrationruntimes.client_CreateOrUpdate remote c id runtime) = None
     /\ exists resp,
          integrationruntimes.client_Get remote
            (fst (integrationruntimes.client_CreateOrUpdate remote c id runtime)) id
          = (resp, None)
          /\ integrationruntimes.get_Model resp = Some runtime) ->
  datafactory.resourceDataFactoryIntegrationRuntimeAzureSsisCreateUpdate env d w
  = Some (r, d', w') ->
  r = None
  /\ d_Id d' = datafactory.IntegrationRuntimeId_ID env id
  /\ datafactory.Get d' "proxy" = IList [proxy_block path selfHosted staging]
  /\ datafactory.Get d' "package_store" = IList (map package_store_block stores).
Proof.
  intros Hraw Hfid Hname Hproxy Hstores id remote Hparse Hnew Hecho.
  assert (Hcr : forall w0,
             datafactory.create_and_read env d w0 id = Some (r, d', w') ->
             r = None
             /\ d_Id d' = datafactory.IntegrationRuntimeId_ID env id
             /\ datafactory.Get d' "proxy"
                = IList [proxy_block path selfHosted staging]
             /\ datafactory.Get d' "package_store"
                = IList (map package_store_block stores)).
  { intros w0 H. unfold datafactory.create_and_read in H.
    destruct (datafactory.create_payload env d id) as [p|] eqn:Hp;
      [|discriminate H].
    cbn beta iota in H.
    destruct (Hecho (w_cloud w0) p) as (Hok & resp & Hget & Hmodel).
    fold remote in H.
    destruct (integrationruntimes.client_CreateOrUpdate remote _ id p) as [c err].
    cbn [fst snd] in Hok, Hget. subst err.
    unfold datafactory.resourceDataFactoryIntegrationRuntimeAzureSsisRead in H.
    change (d_Id (d_SetId d (datafactory.IntegrationRuntimeId_ID env id)))
      with (datafactory.IntegrationRuntimeId_ID env id) in H.
    rewrite Hparse in H. cbn [emit with_cloud w_cloud] in H.
    fold remote in H. rewrite Hget, Hmodel in H.
    unfold datafactory.create_payload in Hp.
    split_binds Hp. injection Hp as <-.
    cbn [integrationruntimes.irr_Properties integrationruntimes.mir_TypeProperties
         integrationruntimes.tp_SsisProperties
         integrationruntimes.tp_ComputeProperties
         integrationruntimes.mir_Description
         integrationruntimes.tp_CustomerVirtualNetwork] in H.
    match goal with
    | E : datafactory.expandDataFactoryIntegrationRuntimeAzureSsisProperties d
          = Some ?s |- _ =>
        destruct (expand_ssis_proxy_package_store _ Hproxy Hstores E) as [Ep Es]
    end.
    match type of H with
    | context [datafactory.read_ssis ?d0 ?s] =>
        destruct (datafactory.read_ssis d0 s) as [d1|] eqn:Er; [|discriminate H];
        pose proof (read_ssis_Id _ _ Er) as [Eid _];
        apply read_ssis_proxy_package_store in Er as [Rp Rs]
    end.
    cbn beta iota in H. injection H as <- <- <-.
    split; [reflexivity|]. split.
    { unfold d_Id. cbn [d_Set rd_Id]. rewrite Eid. reflexivity. }
    rewrite !Get_Set_ne by reflexivity. rewrite Rp, Rs. split.
    - now rewrite (flatten_expand_proxy_block Ep).
    - now rewrite (flatten_expand_package_stores _ Es). }
  unfold datafactory.resourceDataFactoryIntegrationRuntimeAzureSsisCreateUpdate.
  rewrite Hraw, Hname. cbn [as_string]. cbn beta iota. rewrite Hfid.
  fold id. fold remote.
  destruct (rd_IsNewResource d); [|apply Hcr].
  specialize (Hnew eq_refl).
  destruct (integrationruntimes.client_Get remote (w_cloud w) id)
    as [existing err].
  cbn [fst] in Hnew. rewrite Hnew. cbn [negb].
  destruct err; apply Hcr.
Qed.

Lemma CreateUpdate_keeps_proxy_and_package_stores_witness :
  option_map (fun o => (fst (fst o),
                        datafactory.Get (snd (fst o)) "proxy",
                        datafactory.Get (snd (fst o)) "package_store"))
    (datafactory.resourceDataFactoryIntegrationRuntimeAzureSsisCreateUpdate
       echo_datafactory_env proxied_runtime_data (mkWorld None []))
  = Some (None,
          IList [proxy_block "" "host" "staging"],
          IList (map package_store_block [("one", "first"); ("two", "second")])).
Proof.
  destruct (datafactory.resourceDataFactoryIntegrationRuntimeAzureSsisCreateUpdate
              echo_datafactory_env proxied_runtime_data (mkWorld None []))
    as [[[r d'] w']|] eqn:E; [|vm_compute in E; discriminate E].
  cbn [option_map fst snd].
  destruct (@CreateUpdate_keeps_proxy_and_package_stores _ echo_datafactory_env
              proxied_runtime_data (mkWorld None [])
              "factory" (factories.NewFactoryID "sub" "group" "factory")
              "runtime" "" "host" "staging" []
              [("one", "first"); ("two", "second")] r d' w'
              eq_refl eq_refl eq_refl eq_refl eq_refl eq_refl
              (fun _ => eq_refl)
              (fun c runtime =>
                 conj eq_refl
                   (ex_intro _ _ (conj eq_refl eq_refl)))
              E) as (-> & _ & -> & ->).
  reflexivity.
Defined.

(** ** The customer managed key of a cluster *)

Section CustomerManagedKey.

Variable cloud : Type.
Variable env : loganalytics.Env cloud.

Section Requests.

Variable accepted : clusters.Cluster -> bool.
Variable f : cloud -> clusters.ClusterId -> clusters.Cluster -> cloud * option error.
Hypothesis f_accepted : forall c id payload,
  accepted payload = true ->
  f c id payload
  = clusters.client_CreateOrUpdateThenPoll (loganalytics.client env) c id payload.

Lemma Read_other_CreateOrUpdate d (w : World cloud) :
  loganalytics.resourceLogAnalyticsClusterCustomerManagedKeyRead
    (with_CreateOrUpdateThenPoll env f) d w
  = loganalytics.resourceLogAnalyticsClusterCustomerManagedKeyRead env d w.
Proof. reflexivity. Qed.

Hypothesis accepts_keys : forall props kv,
  accepted (loganalytics.with_key props kv) = true.

Lemma create_locked_other_CreateOrUpdate d (w : World cloud) id :
  loganalytics.create_locked (with_CreateOrUpdateThenPoll env f) d w id
  = loganalytics.create_locked env d w id.
Proof.
  unfold loganalytics.create_locked.
  cbn [with_CreateOrUpdateThenPoll loganalytics.client clusters.client_Get
       clusters.client_CreateOrUpdateThenPoll loganalytics.ClusterId_ID
       loganalytics.ClusterId_String
       loganalytics.ParseOptionallyVersionedNestedItemID
       loganalytics.logAnalyticsClusterWaitForState
       loganalytics.WaitForStateContext].
  destruct (clusters.client_Get _ _ id) as [resp [e|]]; [reflexivity|].
  destruct (clusters.get_Model resp) as [model|]; [|reflexivity].
  destruct (clusters.Properties model) as [props|]; [|reflexivity].
  match goal with |- (if ?b then _ else _) = _ => destruct b end;
    [reflexivity|].
  destruct (as_string _) as [raw|]; [|reflexivity]. cbn beta iota.
  destruct (loganalytics.ParseOptionallyVersionedNestedItemID env raw)
    as [keyId|err]; [|reflexivity].
  rewrite f_accepted by apply accepts_keys.
  reflexivity.
Qed.

Lemma update_locked_other_CreateOrUpdate d (w : World cloud) id :
  loganalytics.update_locked (with_CreateOrUpdateThenPoll env f) d w id
  = loganalytics.update_locked env d w id.
Proof.
  unfold loganalytics.update_locked.
  cbn [with_CreateOrUpdateThenPoll loganalytics.client clusters.client_Get
       clusters.client_CreateOrUpdateThenPoll loganalytics.ClusterId_ID
       loganalytics.ClusterId_String
       loganalytics.ParseOptionallyVersionedNestedItemID].
  destruct (as_string _) as [raw|]; [|reflexivity]. cbn beta iota.
  destruct (loganalytics.ParseOptionallyVersionedNestedItemID env raw)
    as [keyId|err]; [|reflexivity].
  destruct (clusters.client_Get _ _ id) as [resp [e|]]; [reflexivity|].
  destruct (clusters.get_Model resp) as [model|]; [|reflexivity].
  destruct (clusters.Properties model) as [props|]; [|reflexivity].
  rewrite f_accepted by apply accepts_keys.
  reflexivity.
Qed.

Lemma delete_locked_other_CreateOrUpdate d (w : World cloud) id :
  (forall props, accepted (loganalytics.with_key props no_key) = true) ->
  loganalytics.delete_locked (with_CreateOrUpdateThenPoll env f) d w id
  = loganalytics.delete_locked env d w id.
Proof.
  intros Hacc.
  unfold loganalytics.delete_locked.
  cbn [with_CreateOrUpdateThenPoll loganalytics.client clusters.client_Get
       clusters.client_CreateOrUpdateThenPoll loganalytics.ClusterId_ID
       loganalytics.ClusterId_String].
  destruct (clusters.client_Get _ _ id) as [resp [e|]]; [reflexivity|].
  destruct (clusters.get_Model resp) as [model|]; [|reflexivity].
  destruct (clusters.Properties model) as [props|]; [|reflexivity].
  destruct (clusters.cp_KeyVaultProperties props) as [keyProps|]; [|reflexivity].
  match goal with |- (if ?b then _ else _) = _ => destruct b end;
    [reflexivity|].
  fold no_key. rewrite f_accepted by apply Hacc.
  reflexivity.
Qed.

End Requests.

End CustomerManagedKey.

(** No mutation of the customer managed key sends the associated
    workspaces of the cluster it has read: Create, Update and Delete
    give the same outcome whatever the remote side would do with a
    request that carries them. *)
Theorem mutations_send_no_associated_workspaces (cloud : Type)
  (env : loganalytics.Env cloud)
  (f : cloud -> clusters.ClusterId -> clusters.Cluster -> cloud * option error)
  (d : ResourceData) (w : World cloud) :
  (forall c id payload,
     sets_associated_workspaces payload = false ->
     f c id payload
     = clusters.client_CreateOrUpdateThenPoll (loganalytics.client env)
         c id payload) ->
  map (fun run => run d w)
    (mutations (resourceLogAnalyticsClusterCustomerManagedKey
                  (with_CreateOrUpdateThenPoll env f)))
  = map (fun run => run d w)
      (mutations (resourceLogAnalyticsClusterCustomerManagedKey env)).
Proof.
  intros Hf.
  set (accepted := fun c => negb (sets_associated_workspaces c)).
  assert (Hf' : forall c id payload,
             accepted payload = true ->
             f c id payload
             = clusters.client_CreateOrUpdateThenPoll (loganalytics.client env)
                 c id payload).
  { intros c id payload Ha. apply Hf. unfold accepted in Ha.
    now destruct (sets_associated_workspaces payload). }
  assert (Hkeys : forall props kv,
             accepted (loganalytics.with_key props kv) = true)
    by reflexivity.
  unfold mutations, resourceLogAnalyticsClusterCustomerManagedKey.
  cbn [map Create Update Delete].
  unfold loganalytics.resourceLogAnalyticsClusterCustomerManagedKeyCreate,
    loganalytics.resourceLogAnalyticsClusterCustomerManagedKeyUpdate,
    loganalytics.resourceLogAnalyticsClusterCustomerManagedKeyDelete.
  cbn [with_CreateOrUpdateThenPoll loganalytics.ParseClusterID
       loganalytics.ClusterId_ID].
  f_equal; [|f_equal; [|f_equal]].
  - destruct (as_string _) as [raw|]; [|reflexivity]. cbn beta iota.
    destruct (loganalytics.ParseClusterID env raw) as [id|err]; [|reflexivity].
    now rewrite (@create_locked_other_CreateOrUpdate _ env accepted f Hf' Hkeys).
  - destruct (loganalytics.ParseClusterID env (d_Id d)) as [id|err];
      [|reflexivity].
    now rewrite (@update_locked_other_CreateOrUpdate _ env accepted f Hf' Hkeys).
  - destruct (loganalytics.ParseClusterID env (d_Id d)) as [id|err];
      [|reflexivity].
    rewrite (@delete_locked_other_CreateOrUpdate _ env accepted f Hf'); [reflexivity|].
    reflexivity.
Qed.

Lemma mutations_send_no_associated_workspaces_witness :
  let env := sample_loganalytics_env
               ({| clusters.get_HttpResponse := found;
                   clusters.get_Model :=
                     Some (sample_cluster_with_workspaces "key") |}, None) in
  let d := customer_managed_key_data "cluster" "other-key" in
  option_map (fun o => fst (fst o))
    (Update (resourceLogAnalyticsClusterCustomerManagedKey
               (with_CreateOrUpdateThenPoll env strict_CreateOrUpdateThenPoll))
       d sample_world)
  = Some None.
Proof.
  intros env d.
  assert (H : forall c id payload,
             sets_associated_workspaces payload = false ->
             strict_CreateOrUpdateThenPoll c id payload
             = clusters.client_CreateOrUpdateThenPoll (loganalytics.client env)
                 c id payload).
  { intros [] id payload H. unfold strict_CreateOrUpdateThenPoll.
    rewrite H. reflexivity. }
  pose proof (@mutations_send_no_associated_workspaces unit env
                strict_CreateOrUpdateThenPoll d sample_world H) as E.
  apply (f_equal (fun l => nth 1 l None)) in E.
  cbn [mutations map nth] in E. rewrite E. reflexivity.
Defined.

Lemma loganalytics_Get_Set_eq d k s :
  loganalytics.Get (d_Set d k (IStr s)) k = IStr s.
Proof.
  unfold loganalytics.Get, d_Get, d_Set. cbn [rd_values].
  now rewrite map_find_map_set_eq.
Qed.

Lemma loganalytics_Get_Set_ne d k k' v :
  String.eqb k k' = false ->
  loganalytics.Get (d_Set d k v) k' = loganalytics.Get d k'.
Proof.
  intros Hne. unfold loganalytics.Get, d_Get, d_Set. cbn [rd_values].
  now rewrite map_find_map_set_ne.
Qed.

Lemma eqb_false_of_ne (s t : string) : s <> t -> String.eqb s t = false.
Proof. intros H. now destruct (String.eqb_spec s t). Qed.

(** Read of a cluster that has a key with vault and name. *)
Lemma Read_cluster_with_key (cloud : Type) (env : loganalytics.Env cloud)
  d (w : World cloud) id resp props uri name version keyId :
  loganalytics.ParseClusterID env (d_Id d) = inl id ->
  clusters.client_Get (loganalytics.client env) (w_cloud w) id = (resp, None) ->
  clusters.get_Model resp
  = Some (loganalytics.with_key props
            {| clusters.KeyName := Some name;
               clusters.KeyVaultUri := Some uri;
               clusters.KeyVersion := Some version |}) ->
  uri <> "" -> name <> "" ->
  loganalytics.NewNestedItemID env uri name version = inl keyId ->
  loganalytics.NestedItemId_ID env keyId <> "" ->
  loganalytics.resourceLogAnalyticsClusterCustomerManagedKeyRead env d w
  = Some (None,
          d_Set (d_Set d "log_analytics_cluster_id" (IStr (d_Id d)))
            "key_vault_key_id" (IStr (loganalytics.NestedItemId_ID env keyId)),
          emit (EvGet (loganalytics.ClusterId_ID env id)) w).
Proof.
  intros Hid Hget Hmodel Huri Hname Hnew Hkey.
  unfold loganalytics.resourceLogAnalyticsClusterCustomerManagedKeyRead.
  rewrite Hid, Hget, Hmodel.
  cbn [loganalytics.with_key clusters.Properties clusters.cp_KeyVaultProperties
       clusters.KeyVaultUri clusters.KeyName clusters.KeyVersion
       pointer_From_string].
  rewrite (eqb_false_of_ne Huri), (eqb_false_of_ne Hname). cbn [negb andb].
  rewrite Hnew, (eqb_false_of_ne Hkey). reflexivity.
Qed.

(** Read of a cluster whose key has been removed. *)
Lemma Read_cluster_without_key (cloud : Type) (env : loganalytics.Env cloud)
  d (w : World cloud) id resp props :
  loganalytics.ParseClusterID env (d_Id d) = inl id ->
  clusters.client_Get (loganalytics.client env) (w_cloud w) id = (resp, None) ->
  clusters.get_Model resp = Some (loganalytics.with_key props no_key) ->
  loganalytics.resourceLogAnalyticsClusterCustomerManagedKeyRead env d w
  = Some (None, d_SetId d "", emit (EvGet (loganalytics.ClusterId_ID env id)) w).
Proof.
  intros Hid Hget Hmodel.
  unfold loganalytics.resourceLogAnalyticsClusterCustomerManagedKeyRead.
  rewrite Hid, Hget, Hmodel. reflexivity.
Qed.

(** Against a remote side that answers a Get with the cluster it was
    last sent, creating the key of a cluster that has none returns
    without error, tracks the ID of the cluster, and leaves in state the
    cluster ID and the ID of the key that was parsed from the
    configuration. *)
Theorem Create_key_in_state (cloud : Type) (env : loganalytics.Env cloud)
  (d : ResourceData) (w : World cloud) raw id keyRaw keyId resp model props :
  let remote := loganalytics.client env in
  loganalytics.Get d "log_analytics_cluster_id" = IStr raw ->
  loganalytics.ParseClusterID env raw = inl id ->
  loganalytics.ParseClusterID env (loganalytics.ClusterId_ID env id) = inl id ->
  loganalytics.Get d "key_vault_key_id" = IStr keyRaw ->
  loganalytics.ParseOptionallyVersionedNestedItemID env keyRaw = inl keyId ->
  loganalytics.KeyVaultBaseUrl keyId <> "" ->
  loganalytics.Name keyId <> "" ->
  loganalytics.NewNestedItemID env (loganalytics.KeyVaultBaseUrl keyId)
    (loganalytics.Name keyId) (loganalytics.Version keyId) = inl keyId ->
  loganalytics.NestedItemId_ID env keyId <> "" ->
  clusters.client_Get remote (w_cloud w) id = (resp, None) ->
  clusters.get_Model resp = Some model ->
  clusters.Properties model = Some props ->
  clusters.cp_KeyVaultProperties props = None ->
  loganalytics.logAnalyticsClusterWaitForState env id = None ->
  (forall c payload,
     exists c1 c2 resp',
       clusters.client_CreateOrUpdateThenPoll remote c id payload = (c1, None)
       /\ loganalytics.WaitForStateContext env c1 id = (c2, None)
       /\ clusters.client_Get remote c2 id = (resp', None)
       /\ clusters.get_Model resp' = Some payload) ->
  exists d' w',
    loganalytics.resourceLogAnalyticsClusterCustomerManagedKeyCreate env d w
    = Some (None, d', w')
    /\ d_Id d' = loganalytics.ClusterId_ID env id
    /\ loganalytics.Get d' "log_analytics_cluster_id"
       = IStr (loganalytics.ClusterId_ID env id)
    /\ loganalytics.Get d' "key_vault_key_id"
       = IStr (loganalytics.NestedItemId_ID env keyId).
Proof.
  intros remote Hraw Hid Hid' Hkraw Hkey Huri Hname Hnew Hprint
    Hget Hmodel Hprops Hnokey Hwait Hecho.
  unfold loganalytics.resourceLogAnalyticsClusterCustomerManagedKeyCreate.
  rewrite Hraw. cbn [as_string]. cbn beta iota. rewrite Hid.
  unfold loganalytics.create_locked, locks.ByID.
  cbn [emit w_cloud]. fold remote. rewrite Hget, Hmodel, Hprops, Hnokey.
  rewrite Hkraw. cbn [as_string]. cbn beta iota. rewrite Hkey.
  match goal with
  | |- context [clusters.client_CreateOrUpdateThenPoll remote ?c id ?p] =>
      destruct (Hecho c p) as (c1 & c2 & resp' & Hcu & Hw & Hget' & Hmodel')
  end.
  rewrite Hcu. cbn [emit with_cloud w_cloud]. rewrite Hwait, Hw.
  cbn [emit with_cloud w_cloud].
  erewrite Read_cluster_with_key;
    [| exact Hid' | exact Hget' | exact Hmodel' | exact Huri | exact Hname
     | exact Hnew | exact Hprint].
  cbn [loganalytics.defer].
  eexists; eexists. split; [reflexivity|].
  split; [reflexivity|]. split.
  - rewrite loganalytics_Get_Set_ne by reflexivity.
    apply loganalytics_Get_Set_eq.
  - apply loganalytics_Get_Set_eq.
Qed.

Lemma Create_key_in_state_witness :
  let d := customer_managed_key_data "" "key" in
  exists d' w',
    loganalytics.resourceLogAnalyticsClusterCustomerManagedKeyCreate
      echo_loganalytics_env d (mkWorld sample_cluster_without_key [])
    = Some (None, d', w')
    /\ d_Id d' = "cluster"
    /\ loganalytics.Get d' "log_analytics_cluster_id" = IStr "cluster"
    /\ loganalytics.Get d' "key_vault_key_id" = IStr "key".
Proof.
  intros d.
  refine (@Create_key_in_state _ echo_loganalytics_env d
            (mkWorld sample_cluster_without_key [])
            "cluster" sample_cluster_id "key"
            {| loganalytics.KeyVaultBaseUrl := "vault";
               loganalytics.Name := "key";
               loganalytics.Version := "" |}
            {| clusters.get_HttpResponse := found;
               clusters.get_Model := Some sample_cluster_without_key |}
            sample_cluster_without_key
            {| clusters.AssociatedWorkspaces := Some [IStr "workspace-1"];
               clusters.cp_KeyVaultProperties := None |}
            eq_refl eq_refl eq_refl eq_refl eq_refl _ _ eq_refl _
            eq_refl eq_refl eq_refl eq_refl eq_refl _);
    try discriminate.
  intros c payload.
  exists payload, payload,
    {| clusters.get_HttpResponse := found; clusters.get_Model := Some payload |}.
  repeat split.
Defined.

(** After a Delete that returned without error, against a remote side
    that answers a Get with the cluster it was last sent: the resource
    data is as it was, a Read removes the resource from state, and a
    second Delete returns an error without sending a request. *)
Theorem Delete_key_then_gone (cloud : Type) (env : loganalytics.Env cloud)
  (d : ResourceData) (w : World cloud) id d' w' :
  let remote := loganalytics.client env in
  let name := loganalytics.ClusterId_ID env id in
  loganalytics.ParseClusterID env (d_Id d) = inl id ->
  (forall c payload,
     exists c' resp,
       clusters.client_CreateOrUpdateThenPoll remote c id payload = (c', None)
       /\ clusters.client_Get remote c' id = (resp, None)
       /\ clusters.get_Model resp = Some payload) ->
  loganalytics.resourceLogAnalyticsClusterCustomerManagedKeyDelete env d w
  = Some (None, d', w') ->
  d' = d
  /\ loganalytics.resourceLogAnalyticsClusterCustomerManagedKeyRead env d w'
     = Some (None, d_SetId d "", emit (EvGet name) w')
  /\ loganalytics.resourceLogAnalyticsClusterCustomerManagedKeyDelete env d w'
     = Some (Some (Errorf
               "deleting `azurerm_log_analytics_cluster_customer_managed_key` %s: `customer managed key does not exist!`"
               [AStr (loganalytics.ClusterId_String env id)]),
             d,
             mkWorld (w_cloud w')
               (w_trace w' ++ [EvLock name; EvGet name; EvUnlock name])).
Proof.
  intros remote name Hid Hecho.
  unfold loganalytics.resourceLogAnalyticsClusterCustomerManagedKeyDelete at 1.
  rewrite Hid. unfold loganalytics.delete_locked at 1.
  unfold locks.ByID, locks.UnlockByID. cbn [emit w_cloud].
  fold remote.
  destruct (clusters.client_Get remote (w_cloud w) id) as [resp [e|]].
  { destruct (response_WasNotFound _); discriminate. }
  destruct (clusters.get_Model resp) as [model|]; [|discriminate].
  destruct (clusters.Properties model) as [props|]; [|discriminate].
  destruct (clusters.cp_KeyVaultProperties props) as [keyProps|]; [|discriminate].
  match goal with |- loganalytics.defer _ (if ?b then _ else _) = _ -> _ =>
    destruct b end; [discriminate|].
  fold no_key.
  match goal with
  | |- context [clusters.client_CreateOrUpdateThenPoll remote ?c id ?p] =>
      destruct (Hecho c p) as (c' & resp' & Hcu & Hget & Hmodel)
  end.
  rewrite Hcu. cbn [loganalytics.defer emit with_cloud w_cloud w_trace].
  intros H. injection H as <- <-.
  split; [reflexivity|]. split.
  - erewrite Read_cluster_without_key; [reflexivity | exact Hid | exact Hget
                                        | exact Hmodel].
  - unfold loganalytics.resourceLogAnalyticsClusterCustomerManagedKeyDelete.
    rewrite Hid. unfold loganalytics.delete_locked, locks.ByID, locks.UnlockByID.
    cbn [emit with_cloud w_cloud w_trace]. fold remote. rewrite Hget, Hmodel.
    cbn [loganalytics.with_key clusters.Properties clusters.cp_KeyVaultProperties
         no_key clusters.KeyName String.eqb loganalytics.defer emit with_cloud
         w_cloud w_trace].
    unfold emit, with_cloud. cbn [w_cloud w_trace].
    rewrite <- !app_assoc. reflexivity.
Qed.

Lemma Delete_key_then_gone_witness :
  let d := customer_managed_key_data "cluster" "key" in
  let w := mkWorld (sample_cluster_with_workspaces "key") [] in
  exists w',
    loganalytics.resourceLogAnalyticsClusterCustomerManagedKeyDelete
      echo_loganalytics_env d w = Some (None, d, w')
    /\ option_map (fun o => snd (fst o))
         (loganalytics.resourceLogAnalyticsClusterCustomerManagedKeyRead
            echo_loganalytics_env d w')
       = Some (d_SetId d "").
Proof.
  intros d w.
  destruct (loganalytics.resourceLogAnalyticsClusterCustomerManagedKeyDelete
              echo_loganalytics_env d w) as [[[[e|] d'] w']|] eqn:E;
    try (vm_compute in E; discriminate E).
  destruct (@Delete_key_then_gone _ echo_loganalytics_env d w sample_cluster_id
              d' w' eq_refl
              (fun c payload =>
                 ex_intro _ payload
                   (ex_intro _
                      {| clusters.get_HttpResponse := found;
                         clusters.get_Model := Some payload |}
                      (conj eq_refl (conj eq_refl eq_refl))))
              E) as (-> & Hread & _).
  exists w'. split; [reflexivity|].
  rewrite Hread. reflexivity.
Defined.

(** When the Get of the cluster fails, whatever the failure, every
    mutation of the customer managed key returns an error, leaves the
    resource data as it was and sends no CreateOrUpdate. *)
Theorem mutations_need_the_cluster (cloud : Type) (env : loganalytics.Env cloud)
  (d : ResourceData) (w : World cloud) run r d' w' :
  (forall c id,
     snd (clusters.client_Get (loganalytics.client env) c id) <> None) ->
  In run (mutations (resourceLogAnalyticsClusterCustomerManagedKey env)) ->
  run d w = Some (r, d', w') ->
  r <> None /\ d' = d
  /\ exists evs, w_trace w' = w_trace w ++ evs
                 /\ forallb (fun e => negb (is_CreateOrUpdate e)) evs = true.
Proof.
  intros Hget Hin.
  assert (Hdone : forall e (w0 : World cloud) evs,
             w_trace w0 = w_trace w ++ evs ->
             forallb (fun e => negb (is_CreateOrUpdate e)) evs = true ->
             Some (Some e, d, w0) = Some (r, d', w') ->
             r <> None /\ d' = d
             /\ exists evs, w_trace w' = w_trace w ++ evs
                  /\ forallb (fun e => negb (is_CreateOrUpdate e)) evs = true).
  { intros e w0 evs Ht Hevs H. injection H as <- <- <-.
    split; [discriminate|]. split; [reflexivity|]. now exists evs. }
  assert (Hnil : w_trace w = w_trace w ++ []) by now rewrite app_nil_r.
  unfold mutations, resourceLogAnalyticsClusterCustomerManagedKey in Hin.
  cbn [Create Update Delete In] in Hin.
  destruct Hin as [<- | [<- | [<- | []]]].
  - unfold loganalytics.resourceLogAnalyticsClusterCustomerManagedKeyCreate.
    destruct (as_string _) as [raw|]; [|discriminate]. cbn beta iota.
    destruct (loganalytics.ParseClusterID env raw) as [id|err];
      [|now apply Hdone with (evs := [])].
    unfold loganalytics.create_locked, locks.ByID, locks.UnlockByID.
    specialize (Hget (w_cloud (emit (EvLock (loganalytics.ClusterId_ID env id)) w))
                  id).
    destruct (clusters.client_Get _ _ id) as [resp [e|]]; [|now elim Hget].
    set (name := loganalytics.ClusterId_ID env id).
    destruct (response_WasNotFound _); cbn [loganalytics.defer];
      apply Hdone with (evs := [EvLock name; EvGet name; EvUnlock name]);
      try reflexivity;
      unfold emit; cbn [w_trace]; now rewrite <- !app_assoc.
  - unfold loganalytics.resourceLogAnalyticsClusterCustomerManagedKeyUpdate.
    destruct (loganalytics.ParseClusterID env (d_Id d)) as [id|err];
      [|now apply Hdone with (evs := [])].
    unfold loganalytics.update_locked, locks.ByID, locks.UnlockByID.
    set (name := loganalytics.ClusterId_ID env id).
    destruct (as_string _) as [raw|]; [|discriminate]. cbn beta iota.
    destruct (loganalytics.ParseOptionallyVersionedNestedItemID env raw)
      as [keyId|err].
    2:{ cbn [loganalytics.defer].
        apply Hdone with (evs := [EvLock name; EvUnlock name]);
          try reflexivity.
        unfold emit; cbn [w_trace]; now rewrite <- !app_assoc. }
    specialize (Hget (w_cloud (emit (EvLock name) w)) id).
    destruct (clusters.client_Get _ _ id) as [resp [e|]]; [|now elim Hget].
    destruct (response_WasNotFound _); cbn [loganalytics.defer];
      apply Hdone with (evs := [EvLock name; EvGet name; EvUnlock name]);
      try reflexivity;
      unfold emit; cbn [w_trace]; now rewrite <- !app_assoc.
  - unfold loganalytics.resourceLogAnalyticsClusterCustomerManagedKeyDelete.
    destruct (loganalytics.ParseClusterID env (d_Id d)) as [id|err];
      [|now apply Hdone with (evs := [])].
    unfold loganalytics.delete_locked, locks.ByID, locks.UnlockByID.
    set (name := loganalytics.ClusterId_ID env id).
    specialize (Hget (w_cloud (emit (EvLock name) w)) id).
    destruct (clusters.client_Get _ _ id) as [resp [e|]]; [|now elim Hget].
    destruct (response_WasNotFound _); cbn [loganalytics.defer];
      apply Hdone with (evs := [EvLock name; EvGet name; EvUnlock name]);
      try reflexivity;
      unfold emit; cbn [w_trace]; now rewrite <- !app_assoc.
Qed.

Lemma mutations_need_the_cluster_witness :
  let env := sample_loganalytics_env
               ({| clusters.get_HttpResponse := not_found;
                   clusters.get_Model := None |}, Some (SdkError "not found")) in
  let d := customer_managed_key_data "cluster" "key" in
  option_map (fun o => snd (fst o))
    (Delete (resourceLogAnalyticsClusterCustomerManagedKey env) d sample_world)
  = Some d.
Proof.
  intros env d.
  destruct (Delete (resourceLogAnalyticsClusterCustomerManagedKey env) d
              sample_world) as [[[r d'] w']|] eqn:E;
    [|vm_compute in E; discriminate E].
  cbn [option_map fst snd]. f_equal.
  refine (proj1 (proj2 (@mutations_need_the_cluster unit env d sample_world
                          (Delete (resourceLogAnalyticsClusterCustomerManagedKey env))
                          r d' w' _ _ E))).
  - intros c id. discriminate.
  - right. right. left. reflexivity.
Defined.

(** ** The AI Foundry hub *)

(** The first encryption block of a model comes back from the request
    payload as it was written, when the ID parsers give back each ID
    that is set as it was written: an empty key vault, key or identity
    is not parsed and comes back empty. *)
Theorem encryption_round_trip (cloud : Type) (env : machinelearning.Env cloud)
  (e : machinelearning.Encryption) (more : list machinelearning.Encryption) :
  (machinelearning.KeyVaultID e <> "" ->
   machinelearning.ParseKeyVaultID env (machinelearning.KeyVaultID e)
   = inl (machinelearning.KeyVaultID e)) ->
  (machinelearning.KeyID e <> "" ->
   machinelearning.ParseNestedItemID env (machinelearning.KeyID e)
   = inl (machinelearning.KeyID e)) ->
  (machinelearning.IdentityClientID e <> "" ->
   machinelearning.ParseUserAssignedIdentityIDInsensitively env
     (machinelearning.IdentityClientID e)
   = inl (machinelearning.IdentityClientID e)) ->
  machinelearning.flattenEncryption env
    (machinelearning.expandEncryption (e :: more))
  = inl [e].
Proof.
  destruct e as [identity vault key]. cbn. intros Hv Hk Hi.
  destruct (String.eqb_spec vault "") as [->|Nv]; cbn [negb];
    [|rewrite (Hv Nv)];
    (destruct (String.eqb_spec key "") as [->|Nk]; cbn [negb];
     [|rewrite (Hk Nk)];
     (destruct (String.eqb_spec identity "") as [->|Ni]; cbn [negb];
      [|rewrite (Hi Ni)]; reflexivity)).
Qed.

Lemma encryption_round_trip_witness :
  machinelearning.flattenEncryption echo_machinelearning_env
    (machinelearning.expandEncryption [sample_encryption])
  = inl [sample_encryption].
Proof.
  apply (@encryption_round_trip _ echo_machinelearning_env sample_encryption []);
    intros _; reflexivity.
Defined.

(** The first managed network block of a model comes back from the
    request payload as it was written. *)
Theorem managed_network_round_trip (n : machinelearning.ManagedNetwork)
  (more : list machinelearning.ManagedNetwork) :
  machinelearning.flattenManagedNetwork
    (machinelearning.expandManagedNetwork (n :: more))
  = [n].
Proof. destruct n. reflexivity. Qed.

Lemma parse_nonempty_optional parse s :
  optional_id parse s ->
  machinelearning.parse_nonempty parse s
  = machinelearning.pure (if negb (String.eqb s "") then Some s else None).
Proof.
  intros H. unfold machinelearning.parse_nonempty.
  destruct (String.eqb_spec s "") as [->|Hne]; [reflexivity|].
  cbn [negb]. now rewrite (H Hne).
Qed.

(** The request payload that Create builds from a model in normal form
    is read back as that model: every field of the hub that Create
    sends comes back from Read as it was configured. *)
Theorem create_payload_read_back (cloud : Type) (env : machinelearning.Env cloud)
  (d : ResourceData) (model : machinelearning.AIFoundryModel)
  (http : option HttpResponse) :
  hub_in_normal_form env d model ->
  let id := workspaces.NewWorkspaceID (machinelearning.Account_SubscriptionId env)
              (machinelearning.m_ResourceGroupName model)
              (machinelearning.m_Name model) in
  exists payload,
    machinelearning.create_payload env d model id = Some (inl payload)
    /\ machinelearning.read_model env id
         {| workspaces.get_HttpResponse := http;
            workspaces.get_Model := Some payload |}
       = Some (inl model).
Proof.
  intros (Hstorage & Hvault & Hinsights & Hinsights' & Hregistry & Hprimary
          & Hlocation & Htags & (l & i & Hidentity & Hexpand & Hflatten)
          & Hurl & Hwid & Hencryption & Hnetwork) id.
  unfold parses_to_itself in Hstorage, Hvault.
  unfold machinelearning.create_payload.
  rewrite Hstorage, Hvault, Hidentity. cbn [as_list]. rewrite Hexpand.
  rewrite !parse_nonempty_optional by assumption.
  cbn [machinelearning.bindS machinelearning.lift machinelearning.pure].
  eexists. split; [reflexivity|].
  unfold machinelearning.read_model.
  cbn [workspaces.get_Model workspaces.ws_Location workspaces.ws_Identity
       workspaces.ws_Tags workspaces.ws_Properties].
  rewrite Hflatten, Hlocation, Htags.
  cbn [machinelearning.bindS machinelearning.lift machinelearning.pure
       workspaces.wp_ApplicationInsights workspaces.wp_ContainerRegistry
       workspaces.wp_StorageAccount workspaces.wp_KeyVault
       workspaces.wp_PublicNetworkAccess
       workspaces.wp_PrimaryUserAssignedIdentity workspaces.wp_Encryption
       workspaces.wp_Description workspaces.wp_FriendlyName
       workspaces.wp_HbiWorkspace workspaces.wp_DiscoveryURL
       workspaces.wp_WorkspaceId workspaces.wp_ManagedNetwork].
  rewrite Hstorage, Hvault.
  destruct model as [name location group insights storage vault registry
                     encryption network access identity primary hbi
                     description friendly url wid tags].
  cbn [machinelearning.m_Name machinelearning.m_Location
       machinelearning.m_ResourceGroupName machinelearning.m_ApplicationInsightsId
       machinelearning.m_StorageAccountId machinelearning.m_KeyVaultId
       machinelearning.m_ContainerRegistryId machinelearning.m_Encryption
       machinelearning.m_ManagedNetwork machinelearning.m_PublicNetworkAccess
       machinelearning.m_Identity machinelearning.m_PrimaryUserAssignedIdentity
       machinelearning.m_HighBusinessImpactEnabled machinelearning.m_Description
       machinelearning.m_FriendlyName machinelearning.m_DiscoveryUrl
       machinelearning.m_WorkspaceId machinelearning.m_Tags] in *.
  subst url wid. subst id.
  cbn [workspaces.WorkspaceName workspaces.ResourceGroupName
       workspaces.NewWorkspaceID].
  assert (Henc : machinelearning.flattenEncryption env
                   match encryption with
                   | [] => None
                   | _ :: _ => machinelearning.expandEncryption encryption
                   end = inl encryption).
  { destruct encryption as [|e [|e' rest]]; [reflexivity| |destruct Hencryption].
    destruct Hencryption as (H1 & H2 & H3).
    destruct e as [identity0 vault0 key0]. cbn in H1, H2, H3 |- *.
    destruct (String.eqb_spec vault0 "") as [->|Nv]; cbn [negb];
      [|rewrite (H1 Nv)];
      (destruct (String.eqb_spec key0 "") as [->|Nk]; cbn [negb];
       [|rewrite (H2 Nk)];
       (destruct (String.eqb_spec identity0 "") as [->|Ni]; cbn [negb];
        [|rewrite (H3 Ni)]; reflexivity)). }
  rewrite Henc.
  assert (Hnet : machinelearning.flattenManagedNetwork
                   match network with
                   | [] => None
                   | _ :: _ => machinelearning.expandManagedNetwork network
                   end = network).
  { destruct network as [|n [|n' rest]]; [reflexivity| |cbn in Hnetwork; lia].
    destruct n. reflexivity. }
  rewrite Hnet.
  destruct (String.eqb_spec insights "") as [->|Ni]; cbn [negb pointer_From_string];
    [cbn [String.eqb negb]
    |rewrite (eqb_false_of_ne Ni); cbn [negb]; rewrite (Hinsights' Ni)];
    (destruct (String.eqb_spec registry "") as [->|Nr];
     cbn [negb pointer_From_string];
     [cbn [String.eqb negb]
     |rewrite (eqb_false_of_ne Nr); cbn [negb]; rewrite (Hregistry Nr)];
     (destruct (String.eqb_spec primary "") as [->|Np];
      cbn [negb pointer_From_string];
      [cbn [String.eqb negb]
      |rewrite (eqb_false_of_ne Np); cbn [negb]; rewrite (Hprimary Np)];
      cbn [machinelearning.bindS machinelearning.lift machinelearning.pure];
      destruct (String.eqb_spec description "") as [->|Nd];
      destruct (String.eqb_spec friendly "") as [->|Nf];
      destruct hbi; reflexivity)).
Qed.

Lemma create_payload_read_back_witness :
  let env := echo_machinelearning_env in
  let d := mkResourceData "" true [] in
  let id := workspaces.NewWorkspaceID "sub" "group" "hub" in
  exists payload,
    machinelearning.create_payload env d sample_hub_model id = Some (inl payload)
    /\ machinelearning.read_model env id
         {| workspaces.get_HttpResponse := found;
            workspaces.get_Model := Some payload |}
       = Some (inl sample_hub_model).
Proof.
  intros env d id.
  apply (@create_payload_read_back _ env d sample_hub_model found).
  unfold hub_in_normal_form, parses_to_itself, optional_id.
  repeat split; try reflexivity; try (cbn; lia).
  exists [], None. repeat split; reflexivity.
Defined.

Ltac split_steps H :=
  repeat match type of H with
         | machinelearning.bindS ?x _ = Some _ =>
             let E := fresh "E" in
             destruct x as [[?|?]|] eqn:E; cbn [machinelearning.bindS] in H;
             try discriminate H
         end.

Lemma create_payload_Kind (cloud : Type) (env : machinelearning.Env cloud)
  d model id payload :
  machinelearning.create_payload env d model id = Some (inl payload) ->
  workspaces.ws_Kind payload = Some "Hub".
Proof.
  unfold machinelearning.create_payload. intros H.
  split_steps H.
  unfold machinelearning.pure in H. injection H as <-. reflexivity.
Qed.

(** A hub that Create has made passes the kind check of the importer:
    against a remote side that answers a Get with the workspace it was
    last sent, the importer run on the outcome of a Create without
    error returns no error. *)
Theorem Create_then_CustomImporter (cloud : Type)
  (env : machinelearning.Env cloud) (d : ResourceData) (w : World cloud)
  model d' w' :
  let remote := machinelearning.client env in
  let id := workspaces.NewWorkspaceID (machinelearning.Account_SubscriptionId env)
              (machinelearning.m_ResourceGroupName model)
              (machinelearning.m_Name model) in
  machinelearning.Decode env d = inl model ->
  machinelearning.ParseWorkspaceID env (machinelearning.WorkspaceId_ID env id)
  = inl id ->
  (forall c payload c',
     workspaces.client_CreateOrUpdateThenPoll remote c id payload = (c', None) ->
     exists resp,
       workspaces.client_Get remote c' id = (resp, None)
       /\ workspaces.get_Model resp = Some payload) ->
  machinelearning.Create env d w = Some (None, d', w') ->
  machinelearning.CustomImporter env d' w'
  = Some (None, d', emit (EvGet (d_Id d')) w').
Proof.
  intros remote id Hdecode Hparse Hecho.
  unfold machinelearning.Create.
  rewrite Hdecode. fold id. fold remote.
  destruct (workspaces.client_Get remote (w_cloud w) id) as [existing err].
  assert (Hproceed :
    (if negb (response_WasNotFound (workspaces.get_HttpResponse existing))
     then Some (Some (tf_ImportAsExistsError "azurerm_ai_foundry"
                        (machinelearning.WorkspaceId_ID env id)), d,
                emit (EvGet (machinelearning.WorkspaceId_ID env id)) w)
     else
       match machinelearning.create_payload env d model id with
       | None => None
       | Some (inr e) =>
           Some (Some e, d, emit (EvGet (machinelearning.WorkspaceId_ID env id)) w)
       | Some (inl payload) =>
           let (c, err0) :=
             workspaces.client_CreateOrUpdateThenPoll remote
               (w_cloud (emit (EvGet (machinelearning.WorkspaceId_ID env id)) w))
               id payload in
           match err0 with
           | Some e =>
               Some (Some (Errorf "creating %s: %+v"
                             [AStr (machinelearning.WorkspaceId_String env id);
                              AErr (Some e)]), d,
                     emit (EvCreateOrUpdate (machinelearning.WorkspaceId_ID env id))
                       (with_cloud c
                          (emit (EvGet (machinelearning.WorkspaceId_ID env id)) w)))
           | None =>
               Some (None, d_SetId d (machinelearning.WorkspaceId_ID env id),
                     emit (EvCreateOrUpdate (machinelearning.WorkspaceId_ID env id))
                       (with_cloud c
                          (emit (EvGet (machinelearning.WorkspaceId_ID env id)) w)))
           end
       end) = Some (None, d', w') ->
    machinelearning.CustomImporter env d' w'
    = Some (None, d', emit (EvGet (d_Id d')) w')).
  { destruct (response_WasNotFound _); cbn [negb]; [|discriminate].
    destruct (machinelearning.create_payload env d model id)
      as [[payload|e]|] eqn:Hp; try discriminate.
    destruct (workspaces.client_CreateOrUpdateThenPoll remote _ id payload)
      as [c [e|]] eqn:Hcu; [discriminate|].
    intros H. injection H as <- <-.
    destruct (Hecho _ _ _ Hcu) as (resp & Hget & Hmodel).
    unfold machinelearning.CustomImporter.
    change (d_Id (d_SetId d (machinelearning.WorkspaceId_ID env id)))
      with (machinelearning.WorkspaceId_ID env id).
    rewrite Hparse. cbn [emit with_cloud w_cloud]. fold remote.
    rewrite Hget, Hmodel, (create_payload_Kind _ _ _ _ Hp).
    reflexivity. }
  destruct err as [e|]; [|exact Hproceed].
  destruct (response_WasNotFound _) eqn:Hnf; cbn [negb]; [|discriminate].
  intros H. apply Hproceed. exact H.
Qed.

Lemma Create_then_CustomImporter_witness :
  let d := mkResourceData "" true [] in
  let w := mkWorld (@None workspaces.Workspace) [] in
  match machinelearning.Create echo_machinelearning_env d w with
  | Some (None, d', w') =>
      option_map (fun o => fst (fst o))
        (machinelearning.CustomImporter echo_machinelearning_env d' w')
      = Some None
  | _ => False
  end.
Proof.
  intros d w.
  destruct (machinelearning.Create echo_machinelearning_env d w)
    as [[[[e|] d'] w']|] eqn:E; try (vm_compute in E; discriminate E).
  rewrite (@Create_then_CustomImporter _ echo_machinelearning_env d w
             sample_workspace_model d' w').
  - reflexivity.
  - reflexivity.
  - reflexivity.
  - intros c payload c' H. injection H as <-.
    eexists. split; reflexivity.
  - exact E.
Defined.

(** Read dereferences the storage account and the public network access
    of the properties it is answered with: when the answer has
    properties without one of them, Read never writes to the resource
    data and never returns without error; it stops with the error of an
    ID before them or it panics. *)
Theorem Read_needs_storage_account (cloud : Type)
  (env : machinelearning.Env cloud) (d : ResourceData) (w : World cloud)
  id resp model props :
  machinelearning.ParseWorkspaceID env (d_Id d) = inl id ->
  workspaces.client_Get (machinelearning.client env) (w_cloud w) id
  = (resp, None) ->
  workspaces.get_Model resp = Some model ->
  workspaces.ws_Properties model = Some props ->
  workspaces.wp_StorageAccount props = None
  \/ workspaces.wp_PublicNetworkAccess props = None ->
  match machinelearning.Read env d w with
  | None => True
  | Some (r, d', _) => r <> None /\ d' = d
  end.
Proof.
  intros Hid Hget Hmodel Hprops Hnil.
  unfold machinelearning.Read. rewrite Hid, Hget.
  destruct (machinelearning.read_model env id resp) as [[hub|e]|] eqn:Hread;
    [exfalso | split; [discriminate | reflexivity] | exact I].
  unfold machinelearning.read_model in Hread. rewrite Hmodel, Hprops in Hread.
  split_steps Hread;
    destruct Hnil as [Hnil | Hnil]; rewrite Hnil in *; discriminate.
Qed.

Lemma Read_needs_storage_account_witness :
  let lacking :=
    {| workspaces.ws_Identity := None;
       workspaces.ws_Kind := Some "Hub";
       workspaces.ws_Location := Some "westeurope";
       workspaces.ws_Name := Some "hub";
       workspaces.ws_Properties :=
         Some {| workspaces.wp_ApplicationInsights := None;
                 workspaces.wp_ContainerRegistry := None;
                 workspaces.wp_Description := None;
                 workspaces.wp_DiscoveryURL := None;
                 workspaces.wp_Encryption := None;
                 workspaces.wp_FriendlyName := None;
                 workspaces.wp_HbiWorkspace := None;
                 workspaces.wp_KeyVault := Some "vault";
                 workspaces.wp_ManagedNetwork := None;
                 workspaces.wp_PrimaryUserAssignedIdentity := None;
                 workspaces.wp_PublicNetworkAccess := Some "Enabled";
                 workspaces.wp_StorageAccount := None;
                 workspaces.wp_WorkspaceId := None |};
       workspaces.ws_Tags := None |} in
  match machinelearning.Read echo_machinelearning_env
          (mkResourceData "hub" false []) (mkWorld (Some lacking) []) with
  | None => True
  | Some (r, d', _) => r <> None /\ d' = mkResourceData "hub" false []
  end.
Proof.
  intros lacking.
  refine (@Read_needs_storage_account _ echo_machinelearning_env
            (mkResourceData "hub" false []) (mkWorld (Some lacking) [])
            sample_workspace_id _ lacking _ eq_refl eq_refl eq_refl eq_refl _).
  left. reflexivity.
Defined.

(** ** Update of the hub *)

(** Update sends back what it has read for every field it has no code
    to change: the kind, the location and the name of the workspace,
    and the encryption, the high business impact flag, the key vault,
    the storage account, the discovery URL and the workspace ID of its
    properties, whatever the configuration and the changes are. *)
Theorem Update_keeps_fields (cloud : Type) (env : AIFoundry.UpdateEnv cloud)
  (d : ResourceData) (state : machinelearning.AIFoundryModel)
  (model payload : workspaces.Workspace) (props : workspaces.WorkspaceProperties) :
  workspaces.ws_Properties model = Some props ->
  AIFoundry.update_payload env d state model props = Some (inl payload) ->
  kept_by_Update payload = kept_by_Update model.
Proof.
  intros Hprops H. unfold AIFoundry.update_payload in H.
  split_steps H.
  unfold machinelearning.pure in H. injection H as <-.
  unfold kept_by_Update. rewrite Hprops. reflexivity.
Qed.

Lemma Update_keeps_fields_witness :
  let env := sample_update_env ["description"; "tags"; "public_network_access"] in
  let d := mkResourceData "hub" false [] in
  option_map (fun r => match r with
                       | inl payload => Some (kept_by_Update payload)
                       | inr _ => None
                       end)
    (AIFoundry.update_payload env d sample_hub_model sample_hub_workspace
       {| workspaces.wp_ApplicationInsights := None;
          workspaces.wp_ContainerRegistry := None;
          workspaces.wp_Description := Some "old";
          workspaces.wp_DiscoveryURL := Some "https://discovery";
          workspaces.wp_Encryption := None;
          workspaces.wp_FriendlyName := None;
          workspaces.wp_HbiWorkspace := Some true;
          workspaces.wp_KeyVault := Some "vault";
          workspaces.wp_ManagedNetwork := None;
          workspaces.wp_PrimaryUserAssignedIdentity := None;
          workspaces.wp_PublicNetworkAccess := Some "Enabled";
          workspaces.wp_StorageAccount := Some "storage";
          workspaces.wp_WorkspaceId := Some "guid" |})
  = Some (Some (kept_by_Update sample_hub_workspace)).
Proof.
  intros env d.
  match goal with
  | |- option_map _ ?run = _ =>
      destruct run as [[payload|e]|] eqn:E;
        try (vm_compute in E; discriminate E)
  end.
  cbn [option_map]. do 2 f_equal.
  exact (@Update_keeps_fields _ env d sample_hub_model sample_hub_workspace
           payload _ eq_refl E).
Defined.

(** With no field changed, the request of Update is the workspace it
    has read, as it is. *)
Theorem Update_without_change (cloud : Type) (env : AIFoundry.UpdateEnv cloud)
  (d : ResourceData) (state : machinelearning.AIFoundryModel)
  (model : workspaces.Workspace) (props : workspaces.WorkspaceProperties) :
  workspaces.ws_Properties model = Some props ->
  (forall k, AIFoundry.HasChange env d k = false) ->
  AIFoundry.update_payload env d state model props = Some (inl model).
Proof.
  intros Hprops Hnone. unfold AIFoundry.update_payload.
  rewrite !Hnone.
  cbn [machinelearning.bindS machinelearning.pure].
  unfold machinelearning.pure. do 2 f_equal.
  destruct model as [identity kind location name properties tags].
  cbn [workspaces.ws_Properties] in Hprops. subst properties.
  destruct props. reflexivity.
Qed.

Lemma Update_without_change_witness :
  AIFoundry.update_payload (sample_update_env [])
    (mkResourceData "hub" false []) sample_hub_model sample_hub_workspace
    {| workspaces.wp_ApplicationInsights := None;
       workspaces.wp_ContainerRegistry := None;
       workspaces.wp_Description := Some "old";
       workspaces.wp_DiscoveryURL := Some "https://discovery";
       workspaces.wp_Encryption := None;
       workspaces.wp_FriendlyName := None;
       workspaces.wp_HbiWorkspace := Some true;
       workspaces.wp_KeyVault := Some "vault";
       workspaces.wp_ManagedNetwork := None;
       workspaces.wp_PrimaryUserAssignedIdentity := None;
       workspaces.wp_PublicNetworkAccess := Some "Enabled";
       workspaces.wp_StorageAccount := Some "storage";
       workspaces.wp_WorkspaceId := Some "guid" |}
  = Some (inl sample_hub_workspace).
Proof.
  apply Update_without_change; [reflexivity|].
  intros k. reflexivity.
Defined.

(** ** The VNet integration of the integration runtime *)



(** ** Update of the hub, as a whole *)

(** Update never writes to the resource data, and it returns without
    error only after one Get and one CreateOrUpdate of the workspace
    whose ID is tracked. *)
Theorem Update_sends_one_request (cloud : Type) (env : AIFoundry.UpdateEnv cloud)
  (d : ResourceData) (w : World cloud) r d' w' :
  AIFoundry.Update env d w = Some (r, d', w') ->
  d' = d
  /\ (r = None ->
      exists id,
        machinelearning.ParseWorkspaceID (AIFoundry.base env) (d_Id d) = inl id
        /\ w_trace w'
           = w_trace w
             ++ [EvGet (machinelearning.WorkspaceId_ID (AIFoundry.base env) id);
                 EvCreateOrUpdate
                   (machinelearning.WorkspaceId_ID (AIFoundry.base env) id)]).
Proof.
  unfold AIFoundry.Update.
  destruct (machinelearning.ParseWorkspaceID _ (d_Id d)) as [id|err].
  2:{ intros H. injection H as <- <- <-. split; [reflexivity | discriminate]. }
  destruct (machinelearning.Decode _ d) as [state|err].
  2:{ intros H. injection H as <- <- <-. split; [reflexivity | discriminate]. }
  destruct (workspaces.client_Get _ _ id) as [existing [e|]].
  { intros H. injection H as <- <- <-. split; [reflexivity | discriminate]. }
  destruct (workspaces.get_Model existing) as [model|].
  2:{ intros H. injection H as <- <- <-. split; [reflexivity | discriminate]. }
  destruct (workspaces.ws_Properties model) as [props|].
  2:{ intros H. injection H as <- <- <-. split; [reflexivity | discriminate]. }
  destruct (AIFoundry.update_payload env d state model props)
    as [[payload|e]|]; [| |discriminate].
  2:{ intros H. injection H as <- <- <-. split; [reflexivity | discriminate]. }
  destruct (workspaces.client_CreateOrUpdateThenPoll _ _ id payload) as [c [e|]];
    intros H; injection H as <- <- <-; (split; [reflexivity|]);
    [discriminate|].
  intros _. exists id. split; [reflexivity|].
  unfold emit, with_cloud. cbn [w_trace]. now rewrite <- app_assoc.
Qed.

Lemma Update_sends_one_request_witness :
  let env := sample_update_env ["description"] in
  let d := mkResourceData "hub" false [] in
  option_map (fun o => (fst (fst o), snd (fst o), w_trace (snd o)))
    (AIFoundry.Update env d (mkWorld (Some sample_hub_workspace) []))
  = Some (None, d, [EvGet "hub"; EvCreateOrUpdate "hub"]).
Proof.
  intros env d.
  destruct (AIFoundry.Update env d (mkWorld (Some sample_hub_workspace) []))
    as [[[r d'] w']|] eqn:E; [|vm_compute in E; discriminate E].
  destruct (@Update_sends_one_request _ env d _ r d' w' E) as [-> Hr].
  assert (Hnil : r = None) by (vm_compute in E; congruence).
  destruct (Hr Hnil) as (id & Hid & Ht).
  vm_compute in Hid. injection Hid as <-.
  cbn [option_map fst snd]. rewrite Ht, Hnil. reflexivity.
Defined.
